(** * SurveyCraft: the survey API of [app.py]

    A shallow embedding of the Flask handlers of [src/app.py] (surveys,
    questions, responses) over an explicit database state, together with
    the part of Python's [json] module the handlers call on the columns
    [Question.options] and [Response.response_data].

    Conventions of the model:
    - a handler is a function from the session, the request and the
      database to an HTTP response and the database after the request;
    - an exception that escapes a handler (a [KeyError], a failed
      [commit]) is the response [Abort 500] with the database rolled back;
    - Python strings are [string]s (code points below 256), Python integers
      are [Z]; JSON numbers with a fraction or an exponent are not modelled. *)

From Stdlib Require Import ZArith NArith List String Ascii Bool Lia.
From Stdlib Require Import Sorting.Sorted Sorting.Permutation.
From Stdlib Require Import DecimalFacts DecimalPos DecimalN DecimalString.
Import ListNotations.

Local Open Scope Z_scope.
Local Open Scope string_scope.

(** ** Python values read from and written to JSON *)

#[warnings="-register-all"]
Inductive json : Type :=
| JNull
| JBool (b : bool)
| JInt (n : Z)
| JStr (s : string)
| JList (items : list json)
| JDict (pairs : list (string * json)).

(** A [dict] keeps its keys distinct and in insertion order. *)
Fixpoint dict_get (k : string) (d : list (string * json)) : option json :=
  match d with
  | [] => None
  | (k', v) :: d' => if String.eqb k' k then Some v else dict_get k d'
  end.

Fixpoint dict_set (k : string) (v : json) (d : list (string * json))
  : list (string * json) :=
  match d with
  | [] => [(k, v)]
  | (k', v') :: d' =>
      if String.eqb k' k then (k, v) :: d' else (k', v') :: dict_set k v d'
  end.

(** [dict(pairs)]: a later pair overwrites the value of an earlier key. *)
Definition dict_of_pairs (ps : list (string * json)) : list (string * json) :=
  fold_left (fun d kv => dict_set (fst kv) (snd kv) d) ps [].

(** The values Python can hold: every [dict] inside has distinct keys. *)
Fixpoint wf_json (v : json) : Prop :=
  match v with
  | JList items =>
      (fix all (l : list json) : Prop :=
         match l with [] => True | x :: l' => wf_json x /\ all l' end) items
  | JDict pairs =>
      NoDup (map fst pairs) /\
      (fix all (l : list (string * json)) : Prop :=
         match l with [] => True | kv :: l' => wf_json (snd kv) /\ all l' end)
        pairs
  | _ => True
  end.

(** ** [json.dumps] with its default settings *)

Module Dumps.

Definition quote : ascii := "034"%char.
Definition backslash : ascii := "092"%char.

Definition hex_digit (n : N) : ascii :=
  ascii_of_N (if (n <? 10)%N then 48 + n else 87 + n)%N.

(** [ESCAPE_DCT] and the [\uXXXX] fallback of [py_encode_basestring_ascii]:
    everything outside [' '..'~'], the quote and the backslash is escaped. *)
Definition escape (c : ascii) (k : string) : string :=
  let n := N_of_ascii c in
  if (n =? 34)%N then String backslash (String quote k)
  else if (n =? 92)%N then String backslash (String backslash k)
  else if (n =? 8)%N then String backslash (String "b" k)
  else if (n =? 12)%N then String backslash (String "f" k)
  else if (n =? 10)%N then String backslash (String "n" k)
  else if (n =? 13)%N then String backslash (String "r" k)
  else if (n =? 9)%N then String backslash (String "t" k)
  else if ((32 <=? n) && (n <=? 126))%N then String c k
  else String backslash (String "u" (String "0" (String "0"
         (String (hex_digit (n / 16)) (String (hex_digit (n mod 16)) k))))).

Fixpoint escape_all (s : string) (k : string) : string :=
  match s with
  | EmptyString => k
  | String c s' => escape c (escape_all s' k)
  end.

Definition str (s : string) (k : string) : string :=
  String quote (escape_all s (String quote k)).

Definition int (n : Z) (k : string) : string :=
  match n with
  | Z0 => String "0" k
  | Zpos p => NilEmpty.string_of_uint (Pos.to_uint p) ++ k
  | Zneg p => String "-" (NilEmpty.string_of_uint (Pos.to_uint p) ++ k)
  end.

(** The encoder emits its chunks in order; [k] is the text that follows.
    Items are joined by [", "], a key and its value by [": "]. *)
Fixpoint emit (v : json) (k : string) : string :=
  match v with
  | JNull => "null" ++ k
  | JBool true => "true" ++ k
  | JBool false => "false" ++ k
  | JInt n => int n k
  | JStr s => str s k
  | JList items =>
      String "[" (
      (fix join (l : list json) : string :=
         match l with
         | [] => String "]" k
         | x :: l' =>
             emit x match l' with
                    | [] => String "]" k
                    | _ :: _ => ", " ++ join l'
                    end
         end) items)
  | JDict pairs =>
      String "{" (
      (fix join (l : list (string * json)) : string :=
         match l with
         | [] => String "}" k
         | kv :: l' =>
             str (fst kv) (": " ++ emit (snd kv)
               match l' with
               | [] => String "}" k
               | _ :: _ => ", " ++ join l'
               end)
         end) pairs)
  end.

Definition dumps (v : json) : string := emit v EmptyString.

End Dumps.

Definition json_dumps : json -> string := Dumps.dumps.

(** ** [json.loads]: the scanner of [json.decoder] / [json.scanner] *)

Module Loads.

Definition is_ws (c : ascii) : bool :=
  let n := N_of_ascii c in
  ((n =? 32) || (n =? 9) || (n =? 10) || (n =? 13))%N.

Fixpoint skip_ws (s : string) : string :=
  match s with
  | String c s' => if is_ws c then skip_ws s' else s
  | EmptyString => s
  end.

Definition hex_value (c : ascii) : option N :=
  let n := N_of_ascii c in
  if ((48 <=? n) && (n <=? 57))%N then Some (n - 48)%N
  else if ((97 <=? n) && (n <=? 102))%N then Some (n - 87)%N
  else if ((65 <=? n) && (n <=? 70))%N then Some (n - 55)%N
  else None.

(** [\uXXXX]; a code point of 256 or more is outside the model. *)
Definition decode_uXXXX (h1 h2 h3 h4 : ascii) : option ascii :=
  match hex_value h1, hex_value h2, hex_value h3, hex_value h4 with
  | Some a, Some b, Some c, Some d =>
      if ((a =? 0) && (b =? 0))%N then Some (ascii_of_N (16 * c + d)) else None
  | _, _, _, _ => None
  end.

(** The [BACKSLASH] table. *)
Definition unescape (e : ascii) : option ascii :=
  let n := N_of_ascii e in
  if (n =? 34)%N then Some Dumps.quote
  else if (n =? 92)%N then Some Dumps.backslash
  else if (n =? 47)%N then Some "/"%char
  else if (n =? 98)%N then Some "008"%char
  else if (n =? 102)%N then Some "012"%char
  else if (n =? 110)%N then Some "010"%char
  else if (n =? 114)%N then Some "013"%char
  else if (n =? 116)%N then Some "009"%char
  else None.

(** [scanstring], strict: called after the opening quote, returns the
    decoded text and what follows the closing quote. *)
Fixpoint scanstring (s : string) : option (string * string) :=
  match s with
  | EmptyString => None
  | String c s' =>
      let n := N_of_ascii c in
      if (n =? 34)%N then Some (EmptyString, s')
      else if (n =? 92)%N then
        match s' with
        | EmptyString => None
        | String e s'' =>
            if (N_of_ascii e =? 117)%N then
              match s'' with
              | String h1 (String h2 (String h3 (String h4 s5))) =>
                  match decode_uXXXX h1 h2 h3 h4, scanstring s5 with
                  | Some c', Some (t, r) => Some (String c' t, r)
                  | _, _ => None
                  end
              | _ => None
              end
            else
              match unescape e, scanstring s'' with
              | Some c', Some (t, r) => Some (String c' t, r)
              | _, _ => None
              end
        end
      else if (n <? 32)%N then None
      else
        match scanstring s' with
        | Some (t, r) => Some (String c t, r)
        | None => None
        end
  end.

Definition digit_of (c : ascii) : option (Decimal.uint -> Decimal.uint) :=
  match (N_of_ascii c - 48)%N, ((48 <=? N_of_ascii c) && (N_of_ascii c <=? 57))%N with
  | 0%N, true => Some Decimal.D0
  | 1%N, true => Some Decimal.D1
  | 2%N, true => Some Decimal.D2
  | 3%N, true => Some Decimal.D3
  | 4%N, true => Some Decimal.D4
  | 5%N, true => Some Decimal.D5
  | 6%N, true => Some Decimal.D6
  | 7%N, true => Some Decimal.D7
  | 8%N, true => Some Decimal.D8
  | 9%N, true => Some Decimal.D9
  | _, _ => None
  end.

Definition is_digit (c : ascii) : bool :=
  match digit_of c with Some _ => true | None => false end.

(** The longest run of digits at the head of [s]. *)
Fixpoint scan_digits (s : string) : Decimal.uint * string :=
  match s with
  | String c s' =>
      match digit_of c with
      | Some k => let (d, r) := scan_digits s' in (k d, r)
      | None => (Decimal.Nil, s)
      end
  | EmptyString => (Decimal.Nil, s)
  end.

(** The integer part of [NUMBER_RE]: [0|[1-9]\d*]. *)
Definition scan_nat (s : string) : option (N * string) :=
  match s with
  | String c s' =>
      if (N_of_ascii c =? 48)%N then Some (0%N, s')
      else if is_digit c then
        let (d, r) := scan_digits s in Some (N.of_uint d, r)
      else None
  | EmptyString => None
  end.

(** A number token followed by a fraction or an exponent is a float. *)
Definition float_follows (s : string) : bool :=
  match s with
  | String c _ =>
      let n := N_of_ascii c in ((n =? 46) || (n =? 101) || (n =? 69))%N
  | EmptyString => false
  end.

Definition scan_number (s : string) : option (Z * string) :=
  let signed :=
    match s with
    | String c s' =>
        if (N_of_ascii c =? 45)%N then
          match scan_nat s' with
          | Some (n, r) => Some (- Z.of_N n, r)
          | None => None
          end
        else
          match scan_nat s with
          | Some (n, r) => Some (Z.of_N n, r)
          | None => None
          end
    | EmptyString => None
    end in
  match signed with
  | Some (z, r) => if float_follows r then None else Some (z, r)
  | None => None
  end.

(** [string[idx:idx + n] == lit] *)
Fixpoint expect (lit : string) (s : string) : option string :=
  match lit, s with
  | EmptyString, _ => Some s
  | String c lit', String c' s' =>
      if Ascii.eqb c c' then expect lit' s' else None
  | String _ _, EmptyString => None
  end.

(** [scan_once], [JSONArray] and [JSONObject]; [fuel] bounds the number
    of nested calls. *)
Fixpoint scan_once (fuel : nat) (s : string) : option (json * string) :=
  match fuel with
  | O => None
  | S fuel' =>
      match s with
      | EmptyString => None
      | String c s' =>
          let n := N_of_ascii c in
          if (n =? 34)%N then
            match scanstring s' with
            | Some (t, r) => Some (JStr t, r)
            | None => None
            end
          else if (n =? 123)%N then
            match skip_ws s' with
            | String c1 r1 =>
                if (N_of_ascii c1 =? 125)%N then Some (JDict [], r1)
                else
                  match scan_members fuel' (skip_ws s') with
                  | Some (ps, r) => Some (JDict (dict_of_pairs ps), r)
                  | None => None
                  end
            | EmptyString => None
            end
          else if (n =? 91)%N then
            match skip_ws s' with
            | String c1 r1 =>
                if (N_of_ascii c1 =? 93)%N then Some (JList [], r1)
                else
                  match scan_items fuel' (skip_ws s') with
                  | Some (vs, r) => Some (JList vs, r)
                  | None => None
                  end
            | EmptyString => None
            end
          else if (n =? 110)%N then
            match expect "null" s with
            | Some r => Some (JNull, r) | None => None end
          else if (n =? 116)%N then
            match expect "true" s with
            | Some r => Some (JBool true, r) | None => None end
          else if (n =? 102)%N then
            match expect "false" s with
            | Some r => Some (JBool false, r) | None => None end
          else
            match scan_number s with
            | Some (z, r) => Some (JInt z, r)
            | None => None
            end
      end
  end

with scan_items (fuel : nat) (s : string) : option (list json * string) :=
  match fuel with
  | O => None
  | S fuel' =>
      match scan_once fuel' s with
      | Some (v, r) =>
          match skip_ws r with
          | String c r1 =>
              if (N_of_ascii c =? 93)%N then Some ([v], r1)
              else if (N_of_ascii c =? 44)%N then
                match scan_items fuel' (skip_ws r1) with
                | Some (vs, r2) => Some (v :: vs, r2)
                | None => None
                end
              else None
          | EmptyString => None
          end
      | None => None
      end
  end

with scan_members (fuel : nat) (s : string)
  : option (list (string * json) * string) :=
  match fuel with
  | O => None
  | S fuel' =>
      match s with
      | String q s1 =>
          if (N_of_ascii q =? 34)%N then
            match scanstring s1 with
            | Some (k, r) =>
                match skip_ws r with
                | String c r1 =>
                    if (N_of_ascii c =? 58)%N then
                      match scan_once fuel' (skip_ws r1) with
                      | Some (v, r2) =>
                          match skip_ws r2 with
                          | String c2 r3 =>
                              if (N_of_ascii c2 =? 125)%N
                              then Some ([(k, v)], r3)
                              else if (N_of_ascii c2 =? 44)%N then
                                match scan_members fuel' (skip_ws r3) with
                                | Some (ps, r4) => Some ((k, v) :: ps, r4)
                                | None => None
                                end
                              else None
                          | EmptyString => None
                          end
                      | None => None
                      end
                    else None
                | EmptyString => None
                end
            | None => None
            end
          else None
      | EmptyString => None
      end
  end.

(** [JSONDecoder.decode]: one value, white space around it, nothing else.
    A text of [n] characters needs fewer than [n + 1] nested calls. *)
Definition loads (s : string) : option json :=
  match scan_once (S (String.length s)) (skip_ws s) with
  | Some (v, r) =>
      match skip_ws r with
      | EmptyString => Some v
      | String _ _ => None
      end
  | None => None
  end.

End Loads.

Definition json_loads : string -> option json := Loads.loads.

(** ** Induction and measures over nested values *)

Section JsonInduction.
Variable P : json -> Prop.
Hypothesis Hnull : P JNull.
Hypothesis Hbool : forall b, P (JBool b).
Hypothesis Hint : forall n, P (JInt n).
Hypothesis Hstr : forall s, P (JStr s).
Hypothesis Hlist : forall items, Forall P items -> P (JList items).
Hypothesis Hdict :
  forall pairs, Forall (fun kv => P (snd kv)) pairs -> P (JDict pairs).

Fixpoint json_nested_ind (v : json) : P v :=
  match v with
  | JNull => Hnull
  | JBool b => Hbool b
  | JInt n => Hint n
  | JStr s => Hstr s
  | JList items =>
      Hlist items
        ((fix go (l : list json) : Forall P l :=
            match l with
            | [] => Forall_nil _
            | x :: l' => Forall_cons x (json_nested_ind x) (go l')
            end) items)
  | JDict pairs =>
      Hdict pairs
        ((fix go (l : list (string * json)) : Forall (fun kv => P (snd kv)) l :=
            match l with
            | [] => Forall_nil _
            | kv :: l' => Forall_cons kv (json_nested_ind (snd kv)) (go l')
            end) pairs)
  end.
End JsonInduction.

(** The number of scanner calls a value needs. *)
Fixpoint size (v : json) : nat :=
  match v with
  | JList items =>
      S ((fix sum (l : list json) : nat :=
            match l with [] => O | x :: l' => S (size x + sum l') end) items)
  | JDict pairs =>
      S ((fix sum (l : list (string * json)) : nat :=
            match l with [] => O | kv :: l' => S (size (snd kv) + sum l') end)
           pairs)
  | _ => 1%nat
  end.

(** The inner loops of [size] and of the encoder, by name. *)
Definition size_items : list json -> nat :=
  fix sum (l : list json) : nat :=
    match l with [] => O | x :: l' => S (size x + sum l') end.

Definition size_members : list (string * json) -> nat :=
  fix sum (l : list (string * json)) : nat :=
    match l with [] => O | kv :: l' => S (size (snd kv) + sum l') end.

Definition emit_items (k : string) : list json -> string :=
  fix join (l : list json) : string :=
    match l with
    | [] => String "]" k
    | x :: l' =>
        Dumps.emit x match l' with
                     | [] => String "]" k
                     | _ :: _ => ", " ++ join l'
                     end
    end.

Definition emit_members (k : string) : list (string * json) -> string :=
  fix join (l : list (string * json)) : string :=
    match l with
    | [] => String "}" k
    | kv :: l' =>
        Dumps.str (fst kv) (": " ++ Dumps.emit (snd kv)
          match l' with
          | [] => String "}" k
          | _ :: _ => ", " ++ join l'
          end)
    end.

(** What may follow a number token without changing it. *)
Definition ends_number (k : string) : bool :=
  match k with
  | EmptyString => true
  | String c _ => negb (Loads.is_digit c) && negb (Loads.float_follows k)
  end.

(** The first character of an encoded value. *)
Definition value_start (c : ascii) : bool :=
  let n := N_of_ascii c in
  (Loads.is_digit c || (n =? 45) || (n =? 34) || (n =? 123) || (n =? 91)
   || (n =? 110) || (n =? 116) || (n =? 102))%N.

(** A value the scanner reads back from its encoding, whatever follows. *)
Definition reads_back (v : json) : Prop :=
  forall k f, ends_number k = true -> (size v <= f)%nat ->
    Loads.scan_once f (Dumps.emit v k) = Some (v, k).

Definition wf_members (ps : list (string * json)) : Prop :=
  Forall (fun kv => wf_json (snd kv)) ps.


Local Open Scope Z_scope.

(** ** [datetime] values *)

Module Datetime.

Record t := mk {
  year : Z; month : Z; day : Z;
  hour : Z; minute : Z; second : Z; microsecond : Z }.

Fixpoint zeros (n : nat) : string :=
  match n with O => EmptyString | S n' => String "0" (zeros n') end.

(** A field printed in decimal, zero-padded to [w] digits. *)
Definition pad (w : nat) (n : Z) : string :=
  let s := NilEmpty.string_of_uint (N.to_uint (Z.to_N n)) in
  zeros (w - String.length s) ++ s.

(** [datetime.isoformat()] of a naive datetime: the fraction is printed
    only when the microseconds are not zero. *)
Definition isoformat (d : t) : string :=
  pad 4 (year d) ++ "-" ++ pad 2 (month d) ++ "-" ++ pad 2 (day d) ++ "T"
  ++ pad 2 (hour d) ++ ":" ++ pad 2 (minute d) ++ ":" ++ pad 2 (second d)
  ++ (if microsecond d =? 0 then EmptyString else "." ++ pad 6 (microsecond d)).

Definition fields (d : t) : list Z :=
  [year d; month d; day d; hour d; minute d; second d; microsecond d].

Fixpoint lex_ltb (a b : list Z) : bool :=
  match a, b with
  | x :: a', y :: b' => (x <? y) || ((x =? y) && lex_ltb a' b')
  | _, _ => false
  end.

(** [a < b] on datetimes: the earlier one. *)
Definition ltb (a b : t) : bool := lex_ltb (fields a) (fields b).

End Datetime.

(** ** The database models *)

Module Survey.
Record t := mk {
  id : Z;
  title : string;
  description : string;
  status : string;               (* draft, active, closed, archived *)
  created_at : Datetime.t;
  updated_at : Datetime.t;
  user_id : Z }.
End Survey.

Module Question.
Record t := mk {
  id : Z;
  survey_id : Z;
  type : string;
  text : string;
  description : string;
  required : bool;
  options : option string;       (* JSON text, nullable *)
  order : Z }.
End Question.

Module Response.
Record t := mk {
  id : Z;
  survey_id : Z;
  user_id : option Z;            (* nullable=True *)
  response_data : string;        (* JSON text *)
  created_at : Datetime.t }.
End Response.

(** The tables, each in rowid order: an insert appends, and a query without
    [order_by] yields the rows in this order. *)
Record db := mkDb {
  surveys : list Survey.t;
  questions : list Question.t;
  responses : list Response.t }.

Definition empty_db : db := mkDb [] [] [].

(** An [Integer] primary key without [AUTOINCREMENT]: the new rowid is one
    more than the largest in use, and 1 in an empty table. *)
Definition next_id (ids : list Z) : Z := 1 + fold_right Z.max 0 ids.

(** What SQLite accepts in an [INTEGER] column. *)
Definition sqlite_int (n : Z) : bool :=
  (- 2 ^ 63 <=? n) && (n <? 2 ^ 63).

(** [Model.query.get(id)]; the ids of the URLs are SQLite integers. *)
Definition survey_get (d : db) (id : Z) : option Survey.t :=
  find (fun s => Survey.id s =? id) (surveys d).

Definition question_get (d : db) (id : Z) : option Question.t :=
  find (fun q => Question.id q =? id) (questions d).

Definition response_get (d : db) (id : Z) : option Response.t :=
  find (fun r => Response.id r =? id) (responses d).

(** The relationships [survey.questions], [survey.responses] and the backref
    [question.survey]. *)
Definition survey_questions (d : db) (survey_id : Z) : list Question.t :=
  filter (fun q => Question.survey_id q =? survey_id) (questions d).

Definition survey_responses (d : db) (survey_id : Z) : list Response.t :=
  filter (fun r => Response.survey_id r =? survey_id) (responses d).

Definition question_survey (d : db) (q : Question.t) : option Survey.t :=
  survey_get d (Question.survey_id q).

(** ** Requests and responses *)

(** The JSON object of a request body, read at the keys the handlers look
    up: a key is absent or holds a value of its column's Python type. *)
Module SurveyData.
Record t := mk {
  title : option string;
  description : option string;
  status : option string }.
Definition empty : t := mk None None None.
End SurveyData.

Module QuestionData.
Record t := mk {
  type : option string;
  text : option string;
  description : option string;
  required : option bool;
  options : option json;
  order : option Z }.
Definition empty : t := mk None None None None None None.
End QuestionData.

(** [session.get('user_id')] *)
Definition session := option Z.

Inductive response : Type :=
| Jsonify (body : json) (code : Z)   (* return jsonify(body), code *)
| Text (body : string) (code : Z)    (* return body, code *)
| Abort (code : Z).                  (* get_or_404, or an unhandled exception *)

Definition status_code (r : response) : Z :=
  match r with Jsonify _ c | Text _ c | Abort c => c end.

Definition unauthorized : response :=
  Jsonify (JDict [("error", JStr "Unauthorized")]) 401.

Definition forbidden : response :=
  Jsonify (JDict [("error", JStr "Forbidden")]) 403.

Definition not_active : response :=
  Jsonify (JDict [("error", JStr "Survey is not active")]) 400.

(** [data.get(key, default)] *)
Definition get_or {A : Type} (field : option A) (default : A) : A :=
  match field with Some x => x | None => default end.

(** Truth value of a nullable text column: [None] and [''] are false. *)
Definition truthy (o : option string) : bool :=
  match o with
  | Some EmptyString | None => false
  | Some (String _ _) => true
  end.

(** [json.loads(options) if options else []]; [None] when [json.loads]
    raises. *)
Definition options_value (o : option string) : option json :=
  if truthy o then json_loads (get_or o EmptyString) else Some (JList []).

Definition set_surveys (d : db) (l : list Survey.t) : db :=
  mkDb l (questions d) (responses d).

Definition set_questions (d : db) (l : list Question.t) : db :=
  mkDb (surveys d) l (responses d).

Definition set_responses (d : db) (l : list Response.t) : db :=
  mkDb (surveys d) (questions d) l.

(** ** The API routes *)

(** [POST /api/surveys]; [now] and [now'] are the clock readings of the two
    column defaults. *)
Definition create_survey (s : session) (data : SurveyData.t)
    (now now' : Datetime.t) (d : db) : response * db :=
  match s with
  | None => (unauthorized, d)
  | Some user_id =>
      match SurveyData.title data with
      | None => (Abort 500, d)                        (* KeyError *)
      | Some title =>
          let new_survey :=
            Survey.mk (next_id (map Survey.id (surveys d))) title
              (get_or (SurveyData.description data) EmptyString)
              "draft" now now' user_id in
          (Jsonify (JDict [
              ("id", JInt (Survey.id new_survey));
              ("title", JStr (Survey.title new_survey));
              ("description", JStr (Survey.description new_survey));
              ("status", JStr (Survey.status new_survey));
              ("created_at", JStr (Datetime.isoformat (Survey.created_at new_survey)))
            ]) 201,
           set_surveys d (surveys d ++ [new_survey])%list)
      end
  end.

Definition q_data (question : Question.t) : option json :=
  let base := [
    ("id", JInt (Question.id question));
    ("type", JStr (Question.type question));
    ("text", JStr (Question.text question));
    ("description", JStr (Question.description question));
    ("required", JBool (Question.required question));
    ("order", JInt (Question.order question)) ] in
  if truthy (Question.options question) then
    match json_loads (get_or (Question.options question) EmptyString) with
    | Some v => Some (JDict (base ++ [("options", v)])%list)
    | None => None
    end
  else Some (JDict base).

(** The loop over [survey.questions]; [None] when a [json.loads] raises. *)
Fixpoint questions_data (qs : list Question.t) : option (list json) :=
  match qs with
  | [] => Some []
  | question :: qs' =>
      match q_data question, questions_data qs' with
      | Some j, Some js => Some (j :: js)
      | _, _ => None
      end
  end.

(** [GET /api/surveys/<survey_id>] *)
Definition get_survey (s : session) (survey_id : Z) (d : db) : response * db :=
  match s with
  | None => (unauthorized, d)
  | Some user_id =>
      match survey_get d survey_id with
      | None => (Abort 404, d)
      | Some survey =>
          if negb (Survey.user_id survey =? user_id) then (forbidden, d)
          else
            match questions_data (survey_questions d (Survey.id survey)) with
            | None => (Abort 500, d)
            | Some questions =>
                (Jsonify (JDict [
                    ("id", JInt (Survey.id survey));
                    ("title", JStr (Survey.title survey));
                    ("description", JStr (Survey.description survey));
                    ("status", JStr (Survey.status survey));
                    ("created_at", JStr (Datetime.isoformat (Survey.created_at survey)));
                    ("updated_at", JStr (Datetime.isoformat (Survey.updated_at survey)));
                    ("questions", JList questions)
                  ]) 200, d)
            end
      end
  end.

(** The row with primary key [id] replaced by [row']. *)
Definition survey_put (id : Z) (row' : Survey.t) (l : list Survey.t)
  : list Survey.t :=
  map (fun row => if Survey.id row =? id then row' else row) l.

Definition question_put (id : Z) (row' : Question.t) (l : list Question.t)
  : list Question.t :=
  map (fun row => if Question.id row =? id then row' else row) l.

(** [PUT /api/surveys/<survey_id>] *)
Definition update_survey (s : session) (survey_id : Z) (data : SurveyData.t)
    (now : Datetime.t) (d : db) : response * db :=
  match s with
  | None => (unauthorized, d)
  | Some user_id =>
      match survey_get d survey_id with
      | None => (Abort 404, d)
      | Some survey =>
          if negb (Survey.user_id survey =? user_id) then (forbidden, d)
          else
            let survey' :=
              Survey.mk (Survey.id survey)
                (get_or (SurveyData.title data) (Survey.title survey))
                (get_or (SurveyData.description data) (Survey.description survey))
                (get_or (SurveyData.status data) (Survey.status survey))
                (Survey.created_at survey)
                now
                (Survey.user_id survey) in
            (Jsonify (JDict [
                ("id", JInt (Survey.id survey'));
                ("title", JStr (Survey.title survey'));
                ("description", JStr (Survey.description survey'));
                ("status", JStr (Survey.status survey'));
                ("updated_at", JStr (Datetime.isoformat (Survey.updated_at survey')))
              ]) 200,
             set_surveys d (survey_put (Survey.id survey) survey' (surveys d)))
      end
  end.

(** [DELETE /api/surveys/<survey_id>].  [questions] cascades
    ([all, delete-orphan]): the survey's questions are deleted with it.
    [responses] has no delete cascade: the flush sets [survey_id] of each
    of the survey's responses to NULL, the column is [nullable=False], and
    [commit] raises [IntegrityError]. *)
Definition delete_survey (s : session) (survey_id : Z) (d : db)
  : response * db :=
  match s with
  | None => (unauthorized, d)
  | Some user_id =>
      match survey_get d survey_id with
      | None => (Abort 404, d)
      | Some survey =>
          if negb (Survey.user_id survey =? user_id) then (forbidden, d)
          else
            match survey_responses d (Survey.id survey) with
            | _ :: _ => (Abort 500, d)
            | [] =>
                (Text EmptyString 204,
                 mkDb
                   (filter (fun row => negb (Survey.id row =? Survey.id survey))
                           (surveys d))
                   (filter (fun q => negb (Question.survey_id q =? Survey.id survey))
                           (questions d))
                   (responses d))
            end
      end
  end.

Definition question_json (question : Question.t) (options : json) : json :=
  JDict [
    ("id", JInt (Question.id question));
    ("type", JStr (Question.type question));
    ("text", JStr (Question.text question));
    ("description", JStr (Question.description question));
    ("required", JBool (Question.required question));
    ("options", options);
    ("order", JInt (Question.order question)) ].

(** The response of the question routes, built after [commit]: a failing
    [json.loads] there leaves the committed change in place. *)
Definition question_response (question : Question.t) (code : Z) (d' : db)
  : response * db :=
  match options_value (Question.options question) with
  | Some options => (Jsonify (question_json question options) code, d')
  | None => (Abort 500, d')
  end.

(** [POST /api/surveys/<survey_id>/questions] *)
Definition create_question (s : session) (survey_id : Z)
    (data : QuestionData.t) (d : db) : response * db :=
  match s with
  | None => (unauthorized, d)
  | Some user_id =>
      match survey_get d survey_id with
      | None => (Abort 404, d)
      | Some survey =>
          if negb (Survey.user_id survey =? user_id) then (forbidden, d)
          else
            match QuestionData.type data, QuestionData.text data with
            | Some type, Some text =>
                let new_question :=
                  Question.mk (next_id (map Question.id (questions d)))
                    survey_id type text
                    (get_or (QuestionData.description data) EmptyString)
                    (get_or (QuestionData.required data) false)
                    (Some (json_dumps (get_or (QuestionData.options data) (JList []))))
                    (get_or (QuestionData.order data) 0) in
                if sqlite_int (Question.order new_question) then
                  question_response new_question 201
                    (set_questions d (questions d ++ [new_question])%list)
                else (Abort 500, d)                   (* OverflowError *)
            | _, _ => (Abort 500, d)                  (* KeyError *)
            end
      end
  end.

(** [PUT /api/questions/<question_id>].  The default of
    [data.get('options', ...)] is evaluated before the lookup, so the stored
    text is decoded whether or not the request supplies [options]. *)
Definition update_question (s : session) (question_id : Z)
    (data : QuestionData.t) (d : db) : response * db :=
  match s with
  | None => (unauthorized, d)
  | Some user_id =>
      match question_get d question_id with
      | None => (Abort 404, d)
      | Some question =>
          match question_survey d question with
          | None => (Abort 500, d)                    (* AttributeError *)
          | Some survey =>
              if negb (Survey.user_id survey =? user_id) then (forbidden, d)
              else
                match options_value (Question.options question) with
                | None => (Abort 500, d)              (* JSONDecodeError *)
                | Some stored =>
                    let question' :=
                      Question.mk (Question.id question)
                        (Question.survey_id question)
                        (get_or (QuestionData.type data) (Question.type question))
                        (get_or (QuestionData.text data) (Question.text question))
                        (get_or (QuestionData.description data)
                                (Question.description question))
                        (get_or (QuestionData.required data)
                                (Question.required question))
                        (Some (json_dumps (get_or (QuestionData.options data) stored)))
                        (get_or (QuestionData.order data) (Question.order question)) in
                    if sqlite_int (Question.order question') then
                      question_response question' 200
                        (set_questions d
                           (question_put (Question.id question) question'
                                         (questions d)))
                    else (Abort 500, d)               (* OverflowError *)
                end
          end
      end
  end.

(** [DELETE /api/questions/<question_id>] *)
Definition delete_question (s : session) (question_id : Z) (d : db)
  : response * db :=
  match s with
  | None => (unauthorized, d)
  | Some user_id =>
      match question_get d question_id with
      | None => (Abort 404, d)
      | Some question =>
          match question_survey d question with
          | None => (Abort 500, d)                    (* AttributeError *)
          | Some survey =>
              if negb (Survey.user_id survey =? user_id) then (forbidden, d)
              else
                (Text EmptyString 204,
                 set_questions d
                   (filter (fun row => negb (Question.id row =? Question.id question))
                           (questions d)))
          end
      end
  end.

(** [POST /api/surveys/<survey_id>/responses]; [data] is the whole body. *)
Definition submit_response (s : session) (survey_id : Z) (data : json)
    (now : Datetime.t) (d : db) : response * db :=
  match survey_get d survey_id with
  | None => (Abort 404, d)
  | Some survey =>
      if negb (String.eqb (Survey.status survey) "active") then (not_active, d)
      else
        let new_response :=
          Response.mk (next_id (map Response.id (responses d)))
            survey_id s (json_dumps data) now in
        (Jsonify (JDict [("id", JInt (Response.id new_response))]) 201,
         set_responses d (responses d ++ [new_response])%list)
  end.

(** ** Requests as data: the routing table *)

Inductive request : Type :=
| CreateSurvey (data : SurveyData.t) (now now' : Datetime.t)
| GetSurvey (survey_id : Z)
| UpdateSurvey (survey_id : Z) (data : SurveyData.t) (now : Datetime.t)
| DeleteSurvey (survey_id : Z)
| CreateQuestion (survey_id : Z) (data : QuestionData.t)
| UpdateQuestion (question_id : Z) (data : QuestionData.t)
| DeleteQuestion (question_id : Z)
| SubmitResponse (survey_id : Z) (data : json) (now : Datetime.t).

Definition handle (s : session) (req : request) (d : db) : response * db :=
  match req with
  | CreateSurvey data now now' => create_survey s data now now' d
  | GetSurvey survey_id => get_survey s survey_id d
  | UpdateSurvey survey_id data now => update_survey s survey_id data now d
  | DeleteSurvey survey_id => delete_survey s survey_id d
  | CreateQuestion survey_id data => create_question s survey_id data d
  | UpdateQuestion question_id data => update_question s question_id data d
  | DeleteQuestion question_id => delete_question s question_id d
  | SubmitResponse survey_id data now => submit_response s survey_id data now d
  end.

(** The survey an owner-only route checks the caller against: the survey
    of the URL, or the survey of the question of the URL. *)
Definition guarded_survey (d : db) (req : request) : option Survey.t :=
  match req with
  | GetSurvey survey_id | UpdateSurvey survey_id _ _ | DeleteSurvey survey_id
  | CreateQuestion survey_id _ => survey_get d survey_id
  | UpdateQuestion question_id _ | DeleteQuestion question_id =>
      match question_get d question_id with
      | Some question => question_survey d question
      | None => None
      end
  | CreateSurvey _ _ _ | SubmitResponse _ _ _ => None
  end.

(** A sequence of requests, each with its session, run in order. *)
Fixpoint run (reqs : list (session * request)) (d : db) : db :=
  match reqs with
  | [] => d
  | (s, req) :: reqs' => run reqs' (snd (handle s req d))
  end.

(** ** Invariants of a database built through the API *)

Definition ascending (ids : list Z) : Prop := StronglySorted Z.lt ids.

Definition decodable (q : Question.t) : Prop :=
  exists v, options_value (Question.options q) = Some v.

(** The survey a row refers to is in the table. *)
Definition refers (d : db) (survey_id : Z) : Prop :=
  In survey_id (map Survey.id (surveys d)).

Record db_ok (d : db) : Prop := mkOk {
  ok_surveys : ascending (map Survey.id (surveys d));
  ok_questions : ascending (map Question.id (questions d));
  ok_responses : ascending (map Response.id (responses d));
  ok_options : Forall decodable (questions d);
  ok_question_survey :
    Forall (fun q => refers d (Question.survey_id q)) (questions d);
  ok_response_survey :
    Forall (fun r => refers d (Response.survey_id r)) (responses d) }.

(** Request bodies hold Python values. *)
Definition wf_request (req : request) : Prop :=
  match req with
  | CreateQuestion _ data | UpdateQuestion _ data =>
      match QuestionData.options data with
      | Some v => wf_json v
      | None => True
      end
  | SubmitResponse _ data _ => wf_json data
  | _ => True
  end.

(** ** Reading a response *)

(** The ['questions'] list of a survey response. *)
Definition listed_questions (r : response) : list json :=
  match r with
  | Jsonify (JDict body) _ =>
      match dict_get "questions" body with
      | Some (JList qs) => qs
      | _ => []
      end
  | _ => []
  end.

(** The pair [(order, id)] of a listed question. *)
Definition order_id (q : json) : option (Z * Z) :=
  match q with
  | JDict fields =>
      match dict_get "order" fields, dict_get "id" fields with
      | Some (JInt o), Some (JInt i) => Some (o, i)
      | _, _ => None
      end
  | _ => None
  end.

Definition row_order_id (q : Question.t) : option (Z * Z) :=
  Some (Question.order q, Question.id q).

(** [(order, id)] ascending. *)
Definition key_leb (a b : option (Z * Z)) : bool :=
  match a, b with
  | Some (o1, i1), Some (o2, i2) => (o1 <? o2) || ((o1 =? o2) && (i1 <=? i2))
  | _, _ => false
  end.

Fixpoint sorted_by_order (keys : list (option (Z * Z))) : bool :=
  match keys with
  | a :: ((b :: _) as rest) => key_leb a b && sorted_by_order rest
  | _ => true
  end.

(** ** A sample run: the scenario of a survey that gets published *)

Definition monday (h m : Z) : Datetime.t := Datetime.mk 2024 1 15 h m 0 0.

Definition ann : session := Some 1.
Definition bob : session := Some 2.
Definition anonymous : session := None.

Definition feedback : SurveyData.t :=
  SurveyData.mk (Some "Q1 Feedback") None None.

Definition satisfied : QuestionData.t :=
  QuestionData.mk (Some "single_choice") (Some "Satisfied?") None None
                  (Some (JList [JStr "Yes"; JStr "No"])) None.

Definition set_status (st : string) : SurveyData.t :=
  SurveyData.mk None None (Some st).

(** Ann creates a survey: a draft without questions. *)
Definition drafted_db : db :=
  run [(ann, CreateSurvey feedback (monday 9 0) (monday 9 0))] empty_db.

(** She adds a question and publishes the survey. *)
Definition published_db : db :=
  run [(ann, CreateQuestion 1 satisfied);
       (ann, UpdateSurvey 1 (set_status "active") (monday 9 30))] drafted_db.

Definition yes : json := JDict [("1", JStr "Yes")].

(** An anonymous caller answers. *)
Definition answered_db : db :=
  run [(anonymous, SubmitResponse 1 yes (monday 10 0))] published_db.

(** A choice question without options, a question without text and a
    question of a type nobody knows. *)
Definition no_options : QuestionData.t :=
  QuestionData.mk (Some "dropdown") (Some "Pick one") None None
                  (Some (JList [])) None.

Definition no_text : QuestionData.t :=
  QuestionData.mk (Some "text") (Some EmptyString) None None None None.

Definition odd_type : QuestionData.t :=
  QuestionData.mk (Some "hologram") (Some "Why?") None None None None.

Definition ordered (text : string) (n : Z) : QuestionData.t :=
  QuestionData.mk (Some "text") (Some text) None None None (Some n).

(** Two questions created in the order 5, 0. *)
Definition shuffled_db : db :=
  run [(ann, CreateQuestion 1 (ordered "second" 5));
       (ann, CreateQuestion 1 (ordered "first" 0))] drafted_db.

Definition clear_options : QuestionData.t :=
  QuestionData.mk None None None None (Some (JList [])) None.

(** ** The listing routes of the API *)

(** [Survey.query.filter_by(user_id=user_id)] *)
Definition user_surveys (d : db) (user_id : Z) : list Survey.t :=
  filter (fun survey => Survey.user_id survey =? user_id) (surveys d).

Definition survey_entry (d : db) (survey : Survey.t) : json :=
  JDict [
    ("id", JInt (Survey.id survey));
    ("title", JStr (Survey.title survey));
    ("description", JStr (Survey.description survey));
    ("status", JStr (Survey.status survey));
    ("created_at", JStr (Datetime.isoformat (Survey.created_at survey)));
    ("updated_at", JStr (Datetime.isoformat (Survey.updated_at survey)));
    ("responses_count",
     JInt (Z.of_nat (List.length (survey_responses d (Survey.id survey))))) ].

(** [GET /api/surveys] *)
Definition get_surveys (s : session) (d : db) : response * db :=
  match s with
  | None => (unauthorized, d)
  | Some user_id =>
      (Jsonify (JList (map (survey_entry d) (user_surveys d user_id))) 200, d)
  end.

(** [Response.query.join(Survey)]: every response paired with the surveys
    its [survey_id] names. *)
Definition response_join_survey (d : db) : list (Response.t * Survey.t) :=
  flat_map
    (fun r => map (fun survey => (r, survey))
                  (filter (fun survey => Survey.id survey =? Response.survey_id r)
                          (surveys d)))
    (responses d).

(** [GET /api/dashboard/stats] *)
Definition get_dashboard_stats (s : session) (d : db) : response * db :=
  match s with
  | None => (unauthorized, d)
  | Some user_id =>
      let surveys_count := List.length (user_surveys d user_id) in
      let responses_count :=
        List.length
          (filter (fun rs => Survey.user_id (snd rs) =? user_id)
                  (response_join_survey d)) in
      let completion_rate := 74 in
      let active_users := 12 in
      (Jsonify (JDict [
          ("surveys", JInt (Z.of_nat surveys_count));
          ("responses", JInt (Z.of_nat responses_count));
          ("completion", JInt completion_rate);
          ("active", JInt active_users)
        ]) 200, d)
  end.

(** [order_by(Survey.created_at.desc())]: the later survey first, surveys
    created at the same instant in the order of their rows. *)
Fixpoint insert_desc (x : Survey.t) (l : list Survey.t) : list Survey.t :=
  match l with
  | [] => [x]
  | y :: l' =>
      if Datetime.ltb (Survey.created_at x) (Survey.created_at y)
      then y :: insert_desc x l'
      else x :: l
  end.

Definition newest_first (l : list Survey.t) : list Survey.t :=
  fold_right insert_desc [] l.

(** [a] was not created before [b]. *)
Definition not_older (a b : Survey.t) : Prop :=
  Datetime.ltb (Survey.created_at a) (Survey.created_at b) = false.

Definition month_abbr (m : Z) : string :=
  nth (Z.to_nat (m - 1))
      ["Jan"; "Feb"; "Mar"; "Apr"; "May"; "Jun";
       "Jul"; "Aug"; "Sep"; "Oct"; "Nov"; "Dec"] EmptyString.

(** [strftime('%b %d, %Y')] *)
Definition strftime_b_d_Y (t : Datetime.t) : string :=
  month_abbr (Datetime.month t) ++ " " ++ Datetime.pad 2 (Datetime.day t)
  ++ ", " ++ Datetime.pad 1 (Datetime.year t).

Definition activity_entry (survey : Survey.t) : json :=
  JDict [
    ("type", JStr "survey");
    ("title", JStr ("Created " ++ String Dumps.quote
                      (Survey.title survey ++ String Dumps.quote EmptyString)));
    ("time", JStr (strftime_b_d_Y (Survey.created_at survey))) ].

(** The query of the activity route: [....limit(5).all()] *)
Definition recent_surveys (d : db) (user_id : Z) : list Survey.t :=
  firstn 5 (newest_first (user_surveys d user_id)).

(** [GET /api/dashboard/activity] *)
Definition get_recent_activity (s : session) (d : db) : response * db :=
  match s with
  | None => (unauthorized, d)
  | Some user_id =>
      (Jsonify (JList (map activity_entry (recent_surveys d user_id))) 200, d)
  end.

(** ** All the API routes *)

Inductive api : Type :=
| Route (req : request)
| GetSurveys
| GetDashboardStats
| GetRecentActivity.

Definition serve (s : session) (a : api) (d : db) : response * db :=
  match a with
  | Route req => handle s req d
  | GetSurveys => get_surveys s d
  | GetDashboardStats => get_dashboard_stats s d
  | GetRecentActivity => get_recent_activity s d
  end.

Fixpoint serve_all (calls : list (session * api)) (d : db) : db :=
  match calls with
  | [] => d
  | (s, a) :: calls' => serve_all calls' (snd (serve s a d))
  end.

Definition wf_api (a : api) : Prop :=
  match a with
  | Route req => wf_request req
  | _ => True
  end.

(** The routes that start with the test ['user_id' not in session]: all but
    the submission of a response. *)
Definition login_required (a : api) : bool :=
  match a with
  | Route (SubmitResponse _ _ _) => false
  | _ => true
  end.

(** The routes that compare the caller with the owner of a survey. *)
Definition owner_only (req : request) : bool :=
  match req with
  | CreateSurvey _ _ _ | SubmitResponse _ _ _ => false
  | _ => true
  end.

(** What a route looks up first with [get_or_404]: the survey or the
    question of the URL. *)
Definition target_missing (d : db) (a : api) : bool :=
  match a with
  | Route (GetSurvey id) | Route (UpdateSurvey id _ _) | Route (DeleteSurvey id)
  | Route (CreateQuestion id _) | Route (SubmitResponse id _ _) =>
      match survey_get d id with Some _ => false | None => true end
  | Route (UpdateQuestion id _) | Route (DeleteQuestion id) =>
      match question_get d id with Some _ => false | None => true end
  | _ => false
  end.

(** ** Reading the listings *)

Definition listed (r : response) : list json :=
  match r with
  | Jsonify (JList entries) _ => entries
  | _ => []
  end.

Definition int_field (key : string) (j : json) : option Z :=
  match j with
  | JDict fields =>
      match dict_get key fields with
      | Some (JInt n) => Some n
      | _ => None
      end
  | _ => None
  end.

Definition json_field (key : string) (j : json) : option json :=
  match j with
  | JDict fields => dict_get key fields
  | _ => None
  end.

Definition body_of (r : response) : json :=
  match r with
  | Jsonify body _ => body
  | _ => JNull
  end.

Fixpoint sum_counts (entries : list json) : Z :=
  match entries with
  | [] => 0
  | e :: entries' => get_or (int_field "responses_count" e) 0 + sum_counts entries'
  end.

(** ** Users, sessions and the page routes *)

Module User.
Record t := mk {
  id : Z;
  email : string;
  password_hash : string;
  name : string;
  created_at : Datetime.t }.
End User.

(** [werkzeug.security]: the hash of a password, drawn with a fresh salt,
    and the test of a password against a hash. *)
Class Security : Type := {
  generate_password_hash : string -> string -> string;
  check_password_hash : string -> string -> bool }.

(** The two keys the routes keep in the Flask session. *)
Module FlaskSession.
Record t := mk {
  user_id : option Z;
  user_name : option string }.
Definition clear : t := mk None None.
End FlaskSession.

(** What the API routes read of the session. *)
Definition api_session (c : FlaskSession.t) : session := FlaskSession.user_id c.

(** [request.method]: a [POST], or anything else the page routes serve. *)
Inductive http_method : Type := GET | POST.

(** [request.form.get(key)] at the keys the pages read. *)
Module Form.
Record t := mk {
  name : option string;
  email : option string;
  password : option string }.
End Form.

Inductive page : Type :=
| Render (template : string)         (* render_template(template) *)
| Redirect (endpoint : string)       (* redirect(url_for(endpoint)) *)
| Crash (code : Z).                  (* an unhandled exception *)

(** What a page route leaves behind: the page, the messages it flashed,
    the session and the user table. *)
Record outcome := mkOutcome {
  shown : page;
  flashed : list string;
  cookie : FlaskSession.t;
  users_after : list User.t }.

(** [User.query.filter_by(email=email).first()]; no row has a NULL email. *)
Definition user_by_email (users : list User.t) (email : option string)
  : option User.t :=
  match email with
  | Some e => find (fun u => String.eqb (User.email u) e) users
  | None => None
  end.

(** [/] *)
Definition index (c : FlaskSession.t) : page :=
  match FlaskSession.user_id c with
  | Some _ => Render "index.html"
  | None => Redirect "login"
  end.

(** [/login].  [check_password] takes the stored hash apart and then
    encodes the password, which raises when the form has none. *)
Definition login `{Security} (m : http_method) (form : Form.t)
    (c : FlaskSession.t) (users : list User.t) : outcome :=
  match m with
  | POST =>
      match user_by_email users (Form.email form) with
      | Some user =>
          match Form.password form with
          | None => mkOutcome (Crash 500) [] c users
          | Some password =>
              if check_password_hash (User.password_hash user) password then
                mkOutcome (Redirect "index") []
                  (FlaskSession.mk (Some (User.id user)) (Some (User.name user)))
                  users
              else
                mkOutcome (Render "index.html") ["Invalid email or password"]
                          c users
          end
      | None =>
          mkOutcome (Render "index.html") ["Invalid email or password"] c users
      end
  | GET => mkOutcome (Render "index.html") [] c users
  end.

(** [/signup]; [salt] is the salt [generate_password_hash] draws and [now]
    the clock of the column default.  [set_password] of a missing password
    raises, and so does the commit of a user without name or email. *)
Definition signup `{Security} (m : http_method) (form : Form.t) (salt : string)
    (now : Datetime.t) (c : FlaskSession.t) (users : list User.t) : outcome :=
  match m with
  | POST =>
      match user_by_email users (Form.email form) with
      | Some existing_user =>
          mkOutcome (Redirect "signup") ["Email already registered"] c users
      | None =>
          match Form.password form, Form.name form, Form.email form with
          | Some password, Some name, Some email =>
              let new_user :=
                User.mk (next_id (map User.id users)) email
                        (generate_password_hash salt password) name now in
              mkOutcome (Redirect "index") []
                (FlaskSession.mk (Some (User.id new_user))
                                 (Some (User.name new_user)))
                (users ++ [new_user])%list
          | _, _, _ => mkOutcome (Crash 500) [] c users
          end
      end
  | GET => mkOutcome (Render "index.html") [] c users
  end.

(** [/logout] *)
Definition logout (c : FlaskSession.t) : page * FlaskSession.t :=
  (Redirect "login", FlaskSession.clear).

(** No hashing at all, the hash being the password itself: a stand-in
    to run the page routes on examples. *)
Definition cleartext : Security :=
  {| generate_password_hash := fun salt password => password;
     check_password_hash := fun pwhash password => String.eqb pwhash password |}.
Example dumps_sample :
  json_dumps (JDict [("q", JList [JInt 3; JInt (-12); JNull; JBool true])])
  = String "{" (Dumps.str "q" ": [3, -12, null, true]}").
Proof. reflexivity. Qed.

(** DEL, a Latin-1 letter and the control characters are escaped; the
    slash is not. *)
Example dumps_escapes :
  json_dumps (JStr (String "127" (String "233" (String "010" (String "031" "/ ~")))))
  = String Dumps.quote ("\u007f\u00e9\n\u001f/ ~" ++ String Dumps.quote EmptyString).
Proof. reflexivity. Qed.

Example loads_sample :
  let v := JDict [("q1", JStr "Yes");
                  ("q2", JList [JInt 3; JInt (-12); JNull; JList []; JDict []])] in
  json_loads (json_dumps v) = Some v.
Proof. vm_compute. reflexivity. Qed.

(** A repeated key keeps its first position and its last value. *)
Example loads_duplicate_key :
  json_loads (String "{" (Dumps.str "a" (": 1, " ++ Dumps.str "b" (": 2, "
                ++ Dumps.str "a" ": 3}"))))
  = Some (JDict [("a", JInt 3); ("b", JInt 2)]).
Proof. vm_compute. reflexivity. Qed.

Example loads_rejects :
  json_loads "01" = None /\ json_loads "[1,]" = None /\ json_loads "1.5" = None
  /\ json_loads " [ 1 , 2 ] " = Some (JList [JInt 1; JInt 2])
  /\ json_loads "-0" = Some (JInt 0) /\ json_loads "nulll" = None
  /\ json_loads (String Dumps.quote ("\u00E9\/" ++ String Dumps.quote EmptyString))
     = Some (JStr (String "233" "/")).
Proof. vm_compute. repeat split. Qed.

(** ** Round trip of the codec *)

Lemma emit_list_eq items k :
  Dumps.emit (JList items) k = String "[" (emit_items k items).
Proof. reflexivity. Qed.

Lemma emit_dict_eq pairs k :
  Dumps.emit (JDict pairs) k = String "{" (emit_members k pairs).
Proof. reflexivity. Qed.

Lemma wf_json_list items : wf_json (JList items) <-> Forall wf_json items.
Proof.
  induction items as [|x l IH]; simpl.
  - split; auto.
  - split.
    + intros [Hx Hl]. constructor; [exact Hx | apply IH; exact Hl].
    + intros H. inversion H; subst. split; [assumption | apply IH; assumption].
Qed.

Lemma wf_json_dict pairs :
  wf_json (JDict pairs) <->
  NoDup (map fst pairs) /\ Forall (fun kv => wf_json (snd kv)) pairs.
Proof.
  simpl. split; intros [Hnd H]; (split; [exact Hnd | clear Hnd]).
  - induction pairs as [|kv l IH]; [constructor|].
    destruct H as [Hx Hl]. constructor; [exact Hx | exact (IH Hl)].
  - induction pairs as [|kv l IH]; [exact I|].
    inversion H; subst. split; [assumption | apply IH; assumption].
Qed.

Lemma scanstring_escape c k t r :
  Loads.scanstring k = Some (t, r) ->
  Loads.scanstring (Dumps.escape c k) = Some (String c t, r).
Proof.
  intros H.
  destruct c as [[] [] [] [] [] [] [] []]; cbn; rewrite H; reflexivity.
Qed.

Lemma scanstring_escape_all s k :
  Loads.scanstring (Dumps.escape_all s (String Dumps.quote k)) = Some (s, k).
Proof.
  induction s as [|c s IH]; simpl.
  - reflexivity.
  - apply scanstring_escape. exact IH.
Qed.

Lemma scan_digits_uint d k :
  match k with String c _ => Loads.is_digit c = false | EmptyString => True end ->
  Loads.scan_digits (NilEmpty.string_of_uint d ++ k) = (d, k).
Proof.
  intros Hk. induction d; simpl; try (rewrite IHd; reflexivity).
  destruct k as [|c k']; [reflexivity|].
  simpl. unfold Loads.is_digit in Hk.
  destruct (Loads.digit_of c); [discriminate | reflexivity].
Qed.

(** The decimal digits of a positive number do not start with [0]. *)
Lemma pos_to_uint_head p :
  match Pos.to_uint p with
  | Decimal.Nil | Decimal.D0 _ => False
  | _ => True
  end.
Proof.
  pose proof (DecimalPos.Unsigned.to_uint_nonzero p) as Hnz.
  pose proof (DecimalPos.Unsigned.to_uint_nonnil p) as Hnn.
  pose proof (DecimalPos.Unsigned.to_of (Pos.to_uint p)) as Hto.
  rewrite DecimalPos.Unsigned.of_to in Hto. simpl in Hto.
  destruct (Pos.to_uint p) as [|d'| | | | | | | | |] eqn:E; try exact I.
  - apply Hnn; reflexivity.
  - rewrite DecimalFacts.unorm_D0 in Hto.
    unfold Decimal.unorm in Hto.
    destruct (Decimal.nzhead d') eqn:En;
      try (apply (DecimalFacts.nzhead_nonzero d' d'); rewrite En; symmetry; exact Hto);
      try (pose proof (DecimalFacts.nzhead_nonzero d' d') as Hh; rewrite En in Hh;
           congruence).
Qed.

Lemma scan_nat_pos p k :
  match k with String c _ => Loads.is_digit c = false | EmptyString => True end ->
  Loads.scan_nat (NilEmpty.string_of_uint (Pos.to_uint p) ++ k) = Some (Npos p, k).
Proof.
  intros Hk.
  pose proof (pos_to_uint_head p) as Hh.
  pose proof (DecimalPos.Unsigned.of_to p) as Hof.
  pose proof (scan_digits_uint (Pos.to_uint p) k Hk) as Hd.
  destruct (Pos.to_uint p) as [|d|d|d|d|d|d|d|d|d|d] eqn:E; try contradiction;
    unfold Loads.scan_nat;
    change (NilEmpty.string_of_uint ?u ++ k) with
      (NilEmpty.string_of_uint u ++ k) in *;
    simpl (NilEmpty.string_of_uint _ ++ k) in *;
    cbn [N_of_ascii N.eqb Loads.is_digit Loads.digit_of];
    simpl (Loads.is_digit _); simpl (N_of_ascii _ =? 48)%N; cbv iota;
    rewrite Hd; unfold N.of_uint; rewrite Hof; reflexivity.
Qed.

Lemma ends_number_digit k :
  ends_number k = true ->
  match k with String c _ => Loads.is_digit c = false | EmptyString => True end.
Proof.
  destruct k as [|c k']; [trivial|]. unfold ends_number.
  destruct (Loads.is_digit c); [discriminate | reflexivity].
Qed.

Lemma ends_number_float k :
  ends_number k = true -> Loads.float_follows k = false.
Proof.
  destruct k as [|c k']; [reflexivity|]. unfold ends_number.
  destruct (Loads.float_follows (String c k')); [|reflexivity].
  rewrite andb_comm. discriminate.
Qed.

Lemma scan_number_int n k :
  ends_number k = true ->
  Loads.scan_number (Dumps.int n k) = Some (n, k).
Proof.
  intros Hk.
  pose proof (ends_number_digit k Hk) as Hd.
  pose proof (ends_number_float k Hk) as Hf.
  destruct n as [|p|p].
  - unfold Loads.scan_number. simpl. rewrite Hf. reflexivity.
  - pose proof (scan_nat_pos p k Hd) as Hs.
    pose proof (pos_to_uint_head p) as Hh.
    unfold Dumps.int, Loads.scan_number.
    destruct (Pos.to_uint p) as [|d|d|d|d|d|d|d|d|d|d] eqn:E; try contradiction;
      simpl (NilEmpty.string_of_uint _ ++ k) in *;
      rewrite Hs; simpl; rewrite Hf; reflexivity.
  - pose proof (scan_nat_pos p k Hd) as Hs.
    unfold Dumps.int, Loads.scan_number.
    change (N_of_ascii "-" =? 45)%N with true; cbv iota.
    rewrite Hs, Hf. reflexivity.
Qed.

Lemma uint_string_head d k :
  d <> Decimal.Nil ->
  exists c s, NilEmpty.string_of_uint d ++ k = String c s /\ Loads.is_digit c = true.
Proof.
  intros Hd. destruct d; try (exfalso; apply Hd; reflexivity);
    simpl; eexists; eexists; split; reflexivity.
Qed.

Lemma int_head n k :
  exists c s, Dumps.int n k = String c s /\
              (Loads.is_digit c || (N_of_ascii c =? 45)%N) = true.
Proof.
  destruct n as [|p|p]; simpl.
  - eexists; eexists; split; reflexivity.
  - destruct (uint_string_head (Pos.to_uint p) k
                (DecimalPos.Unsigned.to_uint_nonnil p)) as (c & s & E & Hc).
    exists c, s. rewrite E, Hc. split; reflexivity.
  - eexists; eexists; split; reflexivity.
Qed.

Lemma emit_head v k :
  exists c s, Dumps.emit v k = String c s /\ value_start c = true.
Proof.
  destruct v as [|[]|n|s|items|pairs];
    try (eexists; eexists; split; reflexivity).
  destruct (int_head n k) as (c & s & E & Hc).
  exists c, s. split; [exact E|]. unfold value_start.
  apply orb_true_iff in Hc. destruct Hc as [Hc|Hc]; rewrite Hc; simpl;
    rewrite ?orb_true_r; reflexivity.
Qed.

Lemma value_start_facts c :
  value_start c = true ->
  Loads.is_ws c = false /\ (N_of_ascii c =? 93)%N = false
  /\ (N_of_ascii c =? 125)%N = false.
Proof.
  destruct c as [[] [] [] [] [] [] [] []]; intros H;
    try discriminate H; repeat split.
Qed.

Lemma skip_ws_emit v k : Loads.skip_ws (Dumps.emit v k) = Dumps.emit v k.
Proof.
  destruct (emit_head v k) as (c & s & E & Hc). rewrite E.
  destruct (value_start_facts c Hc) as (Hw & _). simpl. rewrite Hw. reflexivity.
Qed.

Lemma scan_once_number f c s :
  (Loads.is_digit c || (N_of_ascii c =? 45)%N) = true ->
  Loads.scan_once (S f) (String c s) =
  match Loads.scan_number (String c s) with
  | Some (z, r) => Some (JInt z, r)
  | None => None
  end.
Proof.
  destruct c as [[] [] [] [] [] [] [] []]; intros H;
    try discriminate H; reflexivity.
Qed.

Lemma scan_once_quote f s :
  Loads.scan_once (S f) (String Dumps.quote s) =
  match Loads.scanstring s with
  | Some (t, r) => Some (JStr t, r)
  | None => None
  end.
Proof. reflexivity. Qed.

Lemma scan_once_bracket f s :
  Loads.scan_once (S f) (String "[" s) =
  match Loads.skip_ws s with
  | String c1 r1 =>
      if (N_of_ascii c1 =? 93)%N then Some (JList [], r1)
      else match Loads.scan_items f (Loads.skip_ws s) with
           | Some (vs, r) => Some (JList vs, r)
           | None => None
           end
  | EmptyString => None
  end.
Proof. reflexivity. Qed.

Lemma scan_once_brace f s :
  Loads.scan_once (S f) (String "{" s) =
  match Loads.skip_ws s with
  | String c1 r1 =>
      if (N_of_ascii c1 =? 125)%N then Some (JDict [], r1)
      else match Loads.scan_members f (Loads.skip_ws s) with
           | Some (ps, r) => Some (JDict (dict_of_pairs ps), r)
           | None => None
           end
  | EmptyString => None
  end.
Proof. reflexivity. Qed.

Lemma scan_items_S f s :
  Loads.scan_items (S f) s =
  match Loads.scan_once f s with
  | Some (v, r) =>
      match Loads.skip_ws r with
      | String c r1 =>
          if (N_of_ascii c =? 93)%N then Some ([v], r1)
          else if (N_of_ascii c =? 44)%N then
            match Loads.scan_items f (Loads.skip_ws r1) with
            | Some (vs, r2) => Some (v :: vs, r2)
            | None => None
            end
          else None
      | EmptyString => None
      end
  | None => None
  end.
Proof. reflexivity. Qed.

Lemma scan_members_quote f s :
  Loads.scan_members (S f) (String Dumps.quote s) =
  match Loads.scanstring s with
  | Some (k, r) =>
      match Loads.skip_ws r with
      | String c r1 =>
          if (N_of_ascii c =? 58)%N then
            match Loads.scan_once f (Loads.skip_ws r1) with
            | Some (v, r2) =>
                match Loads.skip_ws r2 with
                | String c2 r3 =>
                    if (N_of_ascii c2 =? 125)%N then Some ([(k, v)], r3)
                    else if (N_of_ascii c2 =? 44)%N then
                      match Loads.scan_members f (Loads.skip_ws r3) with
                      | Some (ps, r4) => Some ((k, v) :: ps, r4)
                      | None => None
                      end
                    else None
                | EmptyString => None
                end
            | None => None
            end
          else None
      | EmptyString => None
      end
  | None => None
  end.
Proof. reflexivity. Qed.

(** [dict(pairs)] of pairs with distinct keys is the list of pairs. *)
Lemma dict_set_fresh k v d :
  ~ In k (map fst d) -> dict_set k v d = (d ++ [(k, v)])%list.
Proof.
  induction d as [|[k' v'] d IH]; simpl; intros Hn; [reflexivity|].
  destruct (String.eqb_spec k' k) as [->|Hne].
  - exfalso. apply Hn. left. reflexivity.
  - rewrite IH; [reflexivity|]. intros Hin. apply Hn. right. exact Hin.
Qed.

Lemma dict_of_pairs_app ps : forall acc,
  NoDup (map fst (acc ++ ps)%list) ->
  fold_left (fun d kv => dict_set (fst kv) (snd kv) d) ps acc = (acc ++ ps)%list.
Proof.
  induction ps as [|[k v] ps IH]; intros acc Hnd; simpl.
  - rewrite List.app_nil_r. reflexivity.
  - rewrite dict_set_fresh.
    + rewrite IH; rewrite <- List.app_assoc; [reflexivity | exact Hnd].
    + rewrite List.map_app in Hnd. simpl in Hnd.
      apply NoDup_remove_2 in Hnd. intros Hin. apply Hnd.
      apply in_or_app. left. exact Hin.
Qed.

Lemma dict_of_pairs_nodup ps : NoDup (map fst ps) -> dict_of_pairs ps = ps.
Proof. intros H. unfold dict_of_pairs. rewrite dict_of_pairs_app; auto. Qed.

Lemma scan_items_emit items :
  items <> [] -> Forall reads_back items ->
  forall k f, (size_items items <= f)%nat ->
    Loads.scan_items f (emit_items k items) = Some (items, k).
Proof.
  induction items as [|x l IH]; intros Hne Hall k f Hf; [contradiction|].
  inversion Hall as [|? ? Hx Hl]; subst.
  destruct f as [|f]; [simpl in Hf; lia|].
  rewrite scan_items_S.
  change (size_items (x :: l)) with (S (size x + size_items l)) in Hf.
  destruct l as [|y l'].
  - change (emit_items k [x]) with (Dumps.emit x (String "]" k)).
    rewrite (Hx (String "]" k) f); [reflexivity | reflexivity | lia].
  - change (emit_items k (x :: y :: l')) with
      (Dumps.emit x (String "," (String " " (emit_items k (y :: l'))))).
    rewrite (Hx _ f); [| reflexivity | lia].
    change (Loads.skip_ws (String "," ?r)) with (String "," r). cbv beta iota.
    change (N_of_ascii "," =? 93)%N with false.
    change (N_of_ascii "," =? 44)%N with true. cbv iota.
    change (Loads.skip_ws (String " " ?r)) with (Loads.skip_ws r).
    change (emit_items k (y :: l')) with
      (Dumps.emit y match l' with
                    | [] => String "]" k
                    | _ :: _ => ", " ++ emit_items k l'
                    end) at 1.
    rewrite skip_ws_emit.
    change (Dumps.emit y _) with (emit_items k (y :: l')).
    rewrite IH; [reflexivity | discriminate | exact Hl | lia].
Qed.

Lemma scan_members_emit pairs :
  pairs <> [] -> Forall (fun kv => reads_back (snd kv)) pairs ->
  forall k f, (size_members pairs <= f)%nat ->
    Loads.scan_members f (emit_members k pairs) = Some (pairs, k).
Proof.
  induction pairs as [|[key x] l IH]; intros Hne Hall k f Hf; [contradiction|].
  inversion Hall as [|? ? Hx Hl]; subst. simpl in Hx.
  destruct f as [|f]; [simpl in Hf; lia|].
  change (size_members ((key, x) :: l)) with (S (size x + size_members l)) in Hf.
  destruct l as [|y l'].
  - change (emit_members k [(key, x)]) with
      (String Dumps.quote (Dumps.escape_all key (String Dumps.quote
         (String ":" (String " " (Dumps.emit x (String "}" k))))))).
    rewrite scan_members_quote, scanstring_escape_all.
    change (Loads.skip_ws (String ":" ?r)) with (String ":" r). cbv beta iota.
    change (N_of_ascii ":" =? 58)%N with true. cbv iota.
    change (Loads.skip_ws (String " " ?r)) with (Loads.skip_ws r).
    rewrite skip_ws_emit.
    rewrite (Hx (String "}" k) f); [reflexivity | reflexivity | lia].
  - change (emit_members k ((key, x) :: y :: l')) with
      (String Dumps.quote (Dumps.escape_all key (String Dumps.quote
         (String ":" (String " " (Dumps.emit x
            (String "," (String " " (emit_members k (y :: l')))))))))).
    rewrite scan_members_quote, scanstring_escape_all.
    change (Loads.skip_ws (String ":" ?r)) with (String ":" r). cbv beta iota.
    change (N_of_ascii ":" =? 58)%N with true. cbv iota.
    change (Loads.skip_ws (String " " ?r)) with (Loads.skip_ws r).
    rewrite skip_ws_emit.
    rewrite (Hx _ f); [| reflexivity | lia].
    change (Loads.skip_ws (String "," ?r)) with (String "," r). cbv beta iota.
    change (N_of_ascii "," =? 125)%N with false.
    change (N_of_ascii "," =? 44)%N with true. cbv iota.
    change (Loads.skip_ws (String " " ?r)) with (Loads.skip_ws r).
    assert (Hq : exists r, emit_members k (y :: l') = String Dumps.quote r)
      by (eexists; reflexivity).
    destruct Hq as [r Hr].
    assert (Hs : Loads.skip_ws (emit_members k (y :: l')) = emit_members k (y :: l'))
      by (rewrite Hr; reflexivity).
    rewrite Hs.
    rewrite IH; [reflexivity | discriminate | exact Hl | lia].
Qed.

Lemma reads_back_all v : wf_json v -> reads_back v.
Proof.
  induction v as [|b|n|s|items IH|pairs IH] using json_nested_ind;
    intros Hwf k f Hk Hf; (destruct f as [|f]; [simpl in Hf; lia|]).
  - reflexivity.
  - destruct b; reflexivity.
  - destruct (int_head n k) as (c & s & E & Hc).
    change (Dumps.emit (JInt n) k) with (Dumps.int n k).
    rewrite E, (scan_once_number f c s Hc), <- E, scan_number_int by exact Hk.
    reflexivity.
  - change (Dumps.emit (JStr s) k) with
      (String Dumps.quote (Dumps.escape_all s (String Dumps.quote k))).
    rewrite scan_once_quote, scanstring_escape_all. reflexivity.
  - rewrite emit_list_eq, scan_once_bracket.
    apply wf_json_list in Hwf.
    destruct items as [|x l]; [reflexivity|].
    assert (Hall : Forall reads_back (x :: l)).
    { clear -IH Hwf. induction IH as [|y l' Hy _ IHl]; [constructor|].
      inversion Hwf; subst. constructor; auto. }
    change (emit_items k (x :: l)) with
      (Dumps.emit x match l with
                    | [] => String "]" k
                    | _ :: _ => ", " ++ emit_items k l
                    end) at 1 2.
    rewrite skip_ws_emit.
    destruct (emit_head x (match l with
                           | [] => String "]" k
                           | _ :: _ => ", " ++ emit_items k l
                           end)) as (c & s & E & Hc).
    destruct (value_start_facts c Hc) as (_ & H93 & _).
    rewrite E at 1. rewrite H93.
    change (Dumps.emit x _) with (emit_items k (x :: l)).
    rewrite scan_items_emit; [reflexivity | discriminate | exact Hall |].
    change (size (JList (x :: l))) with (S (size_items (x :: l))) in Hf. lia.
  - rewrite emit_dict_eq, scan_once_brace.
    apply wf_json_dict in Hwf. destruct Hwf as [Hnd Hwf].
    destruct pairs as [|kv l]; [reflexivity|].
    assert (Hall : Forall (fun kv => reads_back (snd kv)) (kv :: l)).
    { clear -IH Hwf. induction IH as [|y l' Hy _ IHl]; [constructor|].
      inversion Hwf; subst. constructor; auto. }
    assert (Hq : exists r, emit_members k (kv :: l) = String Dumps.quote r)
      by (eexists; reflexivity).
    destruct Hq as [r Hr].
    assert (Hs : Loads.skip_ws (emit_members k (kv :: l)) = emit_members k (kv :: l))
      by (rewrite Hr; reflexivity).
    rewrite Hs. rewrite Hr at 1.
    change (N_of_ascii Dumps.quote =? 125)%N with false. cbv iota.
    rewrite scan_members_emit; [| discriminate | exact Hall |].
    + rewrite dict_of_pairs_nodup by exact Hnd. reflexivity.
    + change (size (JDict (kv :: l))) with (S (size_members (kv :: l))) in Hf. lia.
Qed.

(** The encoding is long enough to serve as fuel for its own decoding. *)
Lemma length_app_ge a k :
  (String.length a + String.length k <= String.length (a ++ k))%nat.
Proof. induction a as [|c a IH]; simpl; lia. Qed.

Lemma escape_length c k :
  (S (String.length k) <= String.length (Dumps.escape c k))%nat.
Proof.
  unfold Dumps.escape.
  repeat match goal with
         | |- context [if ?b then _ else _] => destruct b
         end; simpl; lia.
Qed.

Lemma escape_all_length s k :
  (String.length k <= String.length (Dumps.escape_all s k))%nat.
Proof.
  induction s as [|c s IH]; simpl; [lia|].
  pose proof (escape_length c (Dumps.escape_all s k)). lia.
Qed.

Lemma str_length s k :
  (2 + String.length k <= String.length (Dumps.str s k))%nat.
Proof.
  unfold Dumps.str. simpl.
  pose proof (escape_all_length s (String Dumps.quote k)) as H. simpl in H. lia.
Qed.

Lemma int_length n k :
  (1 + String.length k <= String.length (Dumps.int n k))%nat.
Proof.
  assert (Hp : forall p, (1 + String.length k <=
              String.length (NilEmpty.string_of_uint (Pos.to_uint p) ++ k))%nat).
  { intros p.
    pose proof (length_app_ge (NilEmpty.string_of_uint (Pos.to_uint p)) k) as H.
    destruct (uint_string_head (Pos.to_uint p) EmptyString
                (DecimalPos.Unsigned.to_uint_nonnil p)) as (c & s & E & _).
    destruct (NilEmpty.string_of_uint (Pos.to_uint p)); [discriminate E|].
    simpl in *. lia. }
  destruct n as [|p|p]; simpl; [lia | apply Hp | specialize (Hp p); lia].
Qed.

Lemma length_cons c s : String.length (String c s) = S (String.length s).
Proof. reflexivity. Qed.

Lemma emit_length v : forall k,
  (size v + String.length k <= String.length (Dumps.emit v k))%nat.
Proof.
  induction v as [|b|n|s|items IH|pairs IH] using json_nested_ind; intros k.
  - simpl. lia.
  - destruct b; simpl; lia.
  - pose proof (int_length n k). simpl in *. lia.
  - pose proof (str_length s k). simpl in *. lia.
  - rewrite emit_list_eq. change (size (JList items)) with (S (size_items items)).
    cut (size_items items + String.length k
         <= String.length (emit_items k items))%nat; [simpl; lia|].
    induction IH as [|x l Hx _ IHl]; [simpl; lia|].
    change (size_items (x :: l)) with (S (size x + size_items l)).
    destruct l as [|y l'].
    + change (emit_items k [x]) with (Dumps.emit x (String "]" k)).
      change (size_items []) with O.
      specialize (Hx (String "]" k)). rewrite length_cons in Hx. lia.
    + change (emit_items k (x :: y :: l')) with
        (Dumps.emit x (String "," (String " " (emit_items k (y :: l'))))).
      specialize (Hx (String "," (String " " (emit_items k (y :: l'))))).
      repeat rewrite length_cons in Hx. lia.
  - rewrite emit_dict_eq. change (size (JDict pairs)) with (S (size_members pairs)).
    cut (size_members pairs + String.length k
         <= String.length (emit_members k pairs))%nat; [simpl; lia|].
    induction IH as [|[key x] l Hx _ IHl]; [simpl; lia|].
    change (size_members ((key, x) :: l)) with (S (size x + size_members l)).
    simpl in Hx.
    destruct l as [|y l'].
    + change (emit_members k [(key, x)]) with
        (Dumps.str key (String ":" (String " " (Dumps.emit x (String "}" k))))).
      pose proof (str_length key
        (String ":" (String " " (Dumps.emit x (String "}" k))))) as Hs.
      change (size_members []) with O.
      specialize (Hx (String "}" k)). repeat rewrite length_cons in Hs. repeat rewrite length_cons in Hx. lia.
    + change (emit_members k ((key, x) :: y :: l')) with
        (Dumps.str key (String ":" (String " " (Dumps.emit x
           (String "," (String " " (emit_members k (y :: l')))))))).
      pose proof (str_length key (String ":" (String " " (Dumps.emit x
           (String "," (String " " (emit_members k (y :: l')))))))) as Hs.
      specialize (Hx (String "," (String " " (emit_members k (y :: l'))))).
      repeat rewrite length_cons in Hs. repeat rewrite length_cons in Hx. lia.
Qed.

(** [json.loads(json.dumps(v)) == v] for every Python value of the model. *)
Lemma json_loads_dumps v : wf_json v -> json_loads (json_dumps v) = Some v.
Proof.
  intros Hwf. unfold json_loads, json_dumps, Loads.loads, Dumps.dumps.
  rewrite skip_ws_emit.
  rewrite (reads_back_all v Hwf EmptyString); [reflexivity | reflexivity |].
  pose proof (emit_length v EmptyString). lia.
Qed.

(** ** What [json.loads] returns is a Python value *)

Lemma dict_set_in x k v d :
  In x (map fst (dict_set k v d)) -> x = k \/ In x (map fst d).
Proof.
  induction d as [|[k' v'] d IH]; simpl.
  - intros [H|[]]; left; symmetry; exact H.
  - destruct (String.eqb_spec k' k) as [->|Hne]; simpl.
    + intros [H|H]; [left; symmetry; exact H | right; right; exact H].
    + intros [H|H]; [right; left; exact H|].
      destruct (IH H) as [H'|H']; [left; exact H' | right; right; exact H'].
Qed.

Lemma dict_set_nodup k v d :
  NoDup (map fst d) -> NoDup (map fst (dict_set k v d)).
Proof.
  induction d as [|[k' v'] d IH]; simpl; intros Hnd.
  - constructor; [intros [] | constructor].
  - inversion Hnd as [|? ? Hnin Hnd']; subst.
    destruct (String.eqb_spec k' k) as [->|Hne]; simpl.
    + constructor; assumption.
    + constructor; [|apply IH; exact Hnd'].
      intros Hin. destruct (dict_set_in _ _ _ _ Hin) as [H|H];
        [apply Hne; exact H | apply Hnin; exact H].
Qed.

Lemma dict_set_wf k v d :
  wf_json v -> wf_members d -> wf_members (dict_set k v d).
Proof.
  intros Hv. induction d as [|[k' v'] d IH]; simpl; intros Hd.
  - constructor; [exact Hv | constructor].
  - inversion Hd as [|? ? Hv' Hd']; subst.
    destruct (String.eqb k' k); constructor;
      [exact Hv | exact Hd' | exact Hv' | apply IH; exact Hd'].
Qed.

Lemma dict_of_pairs_wf ps :
  wf_members ps ->
  NoDup (map fst (dict_of_pairs ps)) /\ wf_members (dict_of_pairs ps).
Proof.
  unfold dict_of_pairs.
  assert (H : forall acc, NoDup (map fst acc) -> wf_members acc -> wf_members ps ->
    NoDup (map fst (fold_left (fun d kv => dict_set (fst kv) (snd kv) d) ps acc))
    /\ wf_members (fold_left (fun d kv => dict_set (fst kv) (snd kv) d) ps acc)).
  { induction ps as [|[k v] ps IH]; intros acc Hnd Hacc Hps; simpl.
    - split; assumption.
    - inversion Hps; subst. apply IH.
      + apply dict_set_nodup; exact Hnd.
      + apply dict_set_wf; assumption.
      + assumption. }
  intros Hps. apply H; [constructor | constructor | exact Hps].
Qed.

Lemma scan_wf f :
  (forall s v r, Loads.scan_once f s = Some (v, r) -> wf_json v) /\
  (forall s vs r, Loads.scan_items f s = Some (vs, r) -> Forall wf_json vs) /\
  (forall s ps r, Loads.scan_members f s = Some (ps, r) -> wf_members ps).
Proof.
  induction f as [|f (IHo & IHi & IHm)].
  - repeat split; intros; discriminate.
  - repeat split.
    + intros s v r H. destruct s as [|c s]; [discriminate|].
      simpl in H.
      repeat match type of H with
             | context [if ?b then _ else _] => destruct b
             | context [match ?x with _ => _ end] => destruct x eqn:?
             end; try discriminate; inversion H; subst; try exact I;
        first [ apply wf_json_dict;
                first [ apply dict_of_pairs_wf; eapply IHm; eassumption
                      | split; constructor ]
              | apply wf_json_list; eapply IHi; eassumption ].
    + intros s vs r H. rewrite scan_items_S in H.
      repeat match type of H with
             | context [if ?b then _ else _] => destruct b
             | context [match ?x with _ => _ end] => destruct x eqn:?
             end; try discriminate; inversion H; subst;
        (constructor; [eapply IHo; eassumption |]);
        first [ eapply IHi; eassumption | constructor ].
    + intros s ps r H. destruct s as [|c s]; [discriminate|].
      simpl in H.
      repeat match type of H with
             | context [if ?b then _ else _] => destruct b
             | context [match ?x with _ => _ end] => destruct x eqn:?
             end; try discriminate; inversion H; subst;
        (constructor; [simpl; eapply IHo; eassumption |]);
        first [ eapply IHm; eassumption | constructor ].
Qed.

Lemma json_loads_wf s v : json_loads s = Some v -> wf_json v.
Proof.
  unfold json_loads, Loads.loads. intros H.
  destruct (Loads.scan_once _ _) as [[v' r]|] eqn:E; [|discriminate].
  destruct (Loads.skip_ws r); [|discriminate].
  inversion H; subst. destruct (scan_wf (S (String.length s))) as (Ho & _).
  eapply Ho; exact E.
Qed.

(** Re-encoding a decoded text decodes to the same value. *)
Lemma json_loads_dumps_loads s v :
  json_loads s = Some v -> json_loads (json_dumps v) = Some v.
Proof. intros H. apply json_loads_dumps. exact (json_loads_wf s v H). Qed.

(** ** Primary keys and lookups *)

Lemma survey_get_id d id s : survey_get d id = Some s -> Survey.id s = id.
Proof.
  unfold survey_get. intros H. apply find_some in H. destruct H as [_ H].
  apply Z.eqb_eq. exact H.
Qed.

Lemma question_get_id d id q : question_get d id = Some q -> Question.id q = id.
Proof.
  unfold question_get. intros H. apply find_some in H. destruct H as [_ H].
  apply Z.eqb_eq. exact H.
Qed.

Lemma next_id_above ids x : In x ids -> x < next_id ids.
Proof.
  unfold next_id. induction ids as [|y ids IH]; cbn [fold_right In]; [intros []|].
  intros [->|H]; [lia | specialize (IH H); lia].
Qed.

Lemma find_app_last {A : Type} (f : A -> bool) l x :
  find f l = None -> f x = true -> find f (l ++ [x])%list = Some x.
Proof.
  induction l as [|y l IH]; simpl; intros Hn Hx.
  - rewrite Hx. reflexivity.
  - destruct (f y); [discriminate | apply IH; assumption].
Qed.

Lemma find_fresh {A : Type} (key : A -> Z) l :
  find (fun row => key row =? next_id (map key l)) l = None.
Proof.
  destruct (find _ l) as [row|] eqn:E; [|reflexivity].
  apply find_some in E. destruct E as [Hin Heq].
  apply Z.eqb_eq in Heq.
  pose proof (next_id_above (map key l) (key row) (in_map key l row Hin)). lia.
Qed.

Lemma ascending_snoc ids : ascending ids -> ascending (ids ++ [next_id ids])%list.
Proof.
  unfold ascending. intros H.
  assert (G : forall l b, StronglySorted Z.lt l -> (forall x, In x l -> x < b) ->
                          StronglySorted Z.lt (l ++ [b])%list).
  { induction l as [|a l IH]; intros b Hs Hb; simpl.
    - constructor; constructor.
    - inversion Hs as [|? ? Hs' Ha]; subst. constructor.
      + apply IH; [exact Hs' | intros x Hx; apply Hb; right; exact Hx].
      + apply Forall_app. split; [exact Ha|].
        constructor; [apply Hb; left; reflexivity | constructor]. }
  apply G; [exact H | apply next_id_above].
Qed.

Lemma ascending_filter {A : Type} (key : A -> Z) (f : A -> bool) l :
  ascending (map key l) -> ascending (map key (filter f l)).
Proof.
  unfold ascending. induction l as [|a l IH]; simpl; intros H; [constructor|].
  inversion H as [|? ? Hs Ha]; subst.
  destruct (f a); [|apply IH; exact Hs].
  simpl. constructor; [apply IH; exact Hs|].
  rewrite Forall_forall in *. intros x Hx. apply Ha.
  apply in_map_iff in Hx. destruct Hx as (y & <- & Hy).
  apply filter_In in Hy. apply in_map. apply Hy.
Qed.

Lemma survey_put_ids id row' l :
  Survey.id row' = id -> map Survey.id (survey_put id row' l) = map Survey.id l.
Proof.
  intros E. unfold survey_put. rewrite map_map. apply map_ext_in. intros a _.
  destruct (Z.eqb_spec (Survey.id a) id); congruence.
Qed.

Lemma question_put_ids id row' l :
  Question.id row' = id ->
  map Question.id (question_put id row' l) = map Question.id l.
Proof.
  intros E. unfold question_put. rewrite map_map. apply map_ext_in. intros a _.
  destruct (Z.eqb_spec (Question.id a) id); congruence.
Qed.

Lemma survey_get_put d id row row' :
  survey_get d id = Some row -> Survey.id row' = id ->
  find (fun s => Survey.id s =? id) (survey_put id row' (surveys d)) = Some row'.
Proof.
  unfold survey_get, survey_put. intros H E'.
  induction (surveys d) as [|a l IH]; simpl; [discriminate|].
  simpl in H.
  destruct (Z.eqb_spec (Survey.id a) id) as [E|E].
  - rewrite E'. rewrite Z.eqb_refl. reflexivity.
  - destruct (Z.eqb_spec (Survey.id a) id); [contradiction|].
    apply IH. exact H.
Qed.

Lemma question_get_put d id row row' :
  question_get d id = Some row -> Question.id row' = id ->
  find (fun q => Question.id q =? id) (question_put id row' (questions d)) =
  Some row'.
Proof.
  unfold question_get, question_put. intros H E'.
  induction (questions d) as [|a l IH]; simpl; [discriminate|].
  simpl in H.
  destruct (Z.eqb_spec (Question.id a) id) as [E|E].
  - rewrite E'. rewrite Z.eqb_refl. reflexivity.
  - destruct (Z.eqb_spec (Question.id a) id); [contradiction|].
    apply IH. exact H.
Qed.

(** The text of an encoded value is never empty. *)
Lemma truthy_dumps v : truthy (Some (json_dumps v)) = true.
Proof.
  unfold json_dumps, Dumps.dumps.
  destruct (emit_head v EmptyString) as (c & s & E & _). rewrite E. reflexivity.
Qed.

Lemma options_value_dumps v :
  wf_json v -> options_value (Some (json_dumps v)) = Some v.
Proof.
  intros H. unfold options_value. rewrite truthy_dumps. simpl.
  apply json_loads_dumps. exact H.
Qed.

Lemma options_value_wf o v : options_value o = Some v -> wf_json v.
Proof.
  unfold options_value. destruct (truthy o).
  - apply json_loads_wf.
  - intros H. inversion H. exact I.
Qed.

(** ** The invariants hold in every database built through the API *)

Lemma ascending_unique {A : Type} (key : A -> Z) l a b :
  ascending (map key l) -> In a l -> In b l -> key a = key b -> a = b.
Proof.
  unfold ascending. induction l as [|x l IH]; simpl; intros Hs Ha Hb E;
    [contradiction|].
  inversion Hs as [|? ? Hs' Hx]; subst. rewrite Forall_forall in Hx.
  destruct Ha as [->|Ha], Hb as [->|Hb].
  - reflexivity.
  - pose proof (Hx _ (in_map key l b Hb)). lia.
  - pose proof (Hx _ (in_map key l a Ha)). lia.
  - apply IH; assumption.
Qed.

Lemma Forall_filter {A : Type} (P : A -> Prop) (f : A -> bool) l :
  Forall P l -> Forall P (filter f l).
Proof.
  intros H. rewrite Forall_forall in *. intros x Hx.
  apply filter_In in Hx. apply H. apply Hx.
Qed.

Lemma decodable_dumps q v :
  wf_json v -> Question.options q = Some (json_dumps v) -> decodable q.
Proof.
  intros Hwf E. exists v. rewrite E. apply options_value_dumps. exact Hwf.
Qed.

(** A branch that returns the database it was given. *)
Ltac unchanged := constructor; assumption.

(** The tables after an insert, a delete or an update of a row. *)
Create HintDb tables.
#[local] Hint Resolve ascending_snoc ascending_filter Forall_filter : tables.

Lemma refers_get d survey_id :
  refers d survey_id <-> exists survey, survey_get d survey_id = Some survey.
Proof.
  unfold refers, survey_get. split.
  - intros H. apply in_map_iff in H. destruct H as (row & E & Hin).
    destruct (find _ (surveys d)) as [survey|] eqn:F; [eexists; reflexivity|].
    pose proof (find_none _ _ F row Hin) as Hn. simpl in Hn.
    rewrite E, Z.eqb_refl in Hn. discriminate.
  - intros [survey H]. apply find_some in H. destruct H as [Hin E].
    apply Z.eqb_eq in E. rewrite <- E. apply in_map. exact Hin.
Qed.

Lemma refers_filter d survey_id gone :
  refers d survey_id -> survey_id <> gone ->
  In survey_id
     (map Survey.id (filter (fun row => negb (Survey.id row =? gone)) (surveys d))).
Proof.
  unfold refers. intros H Hne. apply in_map_iff in H.
  destruct H as (row & E & Hin). apply in_map_iff. exists row.
  split; [exact E|]. apply filter_In. split; [exact Hin|].
  apply negb_true_iff. apply Z.eqb_neq. congruence.
Qed.

Lemma filter_nil_all {A : Type} (f : A -> bool) l x :
  filter f l = [] -> In x l -> f x = false.
Proof.
  induction l as [|a l IH]; simpl; [intros _ []|].
  destruct (f a) eqn:E; [discriminate|].
  intros H [->|Hin]; [exact E | apply IH; assumption].
Qed.

Lemma empty_db_ok : db_ok empty_db.
Proof. constructor; simpl; constructor. Qed.

Lemma create_survey_ok s data now now' d :
  db_ok d -> db_ok (snd (create_survey s data now now' d)).
Proof.
  intros [Hs Hq Hr Ho Hqs Hrs]. unfold create_survey.
  destruct s; [|unchanged].
  destruct (SurveyData.title data); [|unchanged].
  constructor; simpl; try assumption.
  - rewrite map_app. simpl. auto with tables.
  - eapply Forall_impl; [|exact Hqs]. unfold refers. simpl. intros q Hin.
    rewrite map_app. apply in_or_app. left. exact Hin.
  - eapply Forall_impl; [|exact Hrs]. unfold refers. simpl. intros r Hin.
    rewrite map_app. apply in_or_app. left. exact Hin.
Qed.

Lemma get_survey_unchanged s survey_id d : snd (get_survey s survey_id d) = d.
Proof.
  unfold get_survey.
  repeat match goal with
         | |- context [match ?x with _ => _ end] => destruct x
         end; reflexivity.
Qed.

Lemma update_survey_ok s survey_id data now d :
  db_ok d -> db_ok (snd (update_survey s survey_id data now d)).
Proof.
  intros [Hs Hq Hr Ho Hqs Hrs]. unfold update_survey.
  destruct s; [|unchanged].
  destruct (survey_get d survey_id) as [survey|]; [|unchanged].
  destruct (negb _); [unchanged|].
  constructor; unfold refers; simpl;
    rewrite ?survey_put_ids by reflexivity; assumption.
Qed.

Lemma delete_survey_ok s survey_id d :
  db_ok d -> db_ok (snd (delete_survey s survey_id d)).
Proof.
  intros [Hs Hq Hr Ho Hqs Hrs]. unfold delete_survey.
  destruct s; [|unchanged].
  destruct (survey_get d survey_id) as [survey|]; [|unchanged].
  destruct (negb _); [unchanged|].
  destruct (survey_responses d (Survey.id survey)) eqn:Er; [|unchanged].
  constructor; simpl; auto with tables.
  - rewrite Forall_forall in *. intros q Hin. apply filter_In in Hin.
    destruct Hin as [Hin Hne]. apply negb_true_iff, Z.eqb_neq in Hne.
    unfold refers. simpl. apply refers_filter; [auto | exact Hne].
  - rewrite Forall_forall in *. intros r Hin.
    pose proof (filter_nil_all _ _ r Er Hin) as Hne. apply Z.eqb_neq in Hne.
    unfold refers. simpl. apply refers_filter; [auto | exact Hne].
Qed.

Lemma question_response_db q code d' : snd (question_response q code d') = d'.
Proof.
  unfold question_response. destruct (options_value _); reflexivity.
Qed.

Lemma create_question_ok s survey_id data d :
  wf_request (CreateQuestion survey_id data) ->
  db_ok d -> db_ok (snd (create_question s survey_id data d)).
Proof.
  intros Hwf [Hs Hq Hr Ho Hqs Hrs]. unfold create_question.
  destruct s; [|unchanged].
  destruct (survey_get d survey_id) as [survey|] eqn:Eg; [|unchanged].
  destruct (negb _); [unchanged|].
  destruct (QuestionData.type data); [|unchanged].
  destruct (QuestionData.text data); [|unchanged].
  destruct (sqlite_int _); [|unchanged].
  rewrite question_response_db.
  constructor; simpl; try assumption.
  - rewrite map_app. simpl. auto with tables.
  - apply Forall_app. split; [exact Ho|]. constructor; [|constructor].
    eapply decodable_dumps; [|reflexivity].
    simpl in Hwf. destruct (QuestionData.options data); [exact Hwf | exact I].
  - apply Forall_app. split; [exact Hqs|]. constructor; [|constructor].
    simpl. apply refers_get. eexists. exact Eg.
Qed.

Lemma update_question_ok s question_id data d :
  wf_request (UpdateQuestion question_id data) ->
  db_ok d -> db_ok (snd (update_question s question_id data d)).
Proof.
  intros Hwf [Hs Hq Hr Ho Hqs Hrs]. unfold update_question.
  destruct s; [|unchanged].
  destruct (question_get d question_id) as [q|] eqn:Eq; [|unchanged].
  destruct (question_survey d q) as [survey|] eqn:Eg; [|unchanged].
  destruct (negb _); [unchanged|].
  destruct (options_value (Question.options q)) as [stored|] eqn:Est;
    [|unchanged].
  destruct (sqlite_int _); [|unchanged].
  rewrite question_response_db.
  constructor; simpl; try assumption.
  - rewrite question_put_ids by reflexivity. exact Hq.
  - unfold question_put. rewrite Forall_forall in *. intros x Hx.
    apply in_map_iff in Hx. destruct Hx as (y & <- & Hy).
    destruct (Question.id y =? Question.id q); [|apply Ho; exact Hy].
    eapply decodable_dumps; [|reflexivity].
    simpl in Hwf. destruct (QuestionData.options data); simpl; [exact Hwf|].
    exact (options_value_wf _ _ Est).
  - unfold question_put. rewrite Forall_forall in *. intros x Hx.
    apply in_map_iff in Hx. destruct Hx as (y & <- & Hy).
    destruct (Question.id y =? Question.id q); [|apply Hqs; exact Hy].
    simpl. apply refers_get. eexists. exact Eg.
Qed.

Lemma delete_question_ok s question_id d :
  db_ok d -> db_ok (snd (delete_question s question_id d)).
Proof.
  intros [Hs Hq Hr Ho Hqs Hrs]. unfold delete_question.
  destruct s; [|unchanged].
  destruct (question_get d question_id) as [q|]; [|unchanged].
  destruct (question_survey d q) as [survey|]; [|unchanged].
  destruct (negb _); [unchanged|].
  constructor; simpl; auto with tables.
Qed.

Lemma submit_response_ok s survey_id data now d :
  db_ok d -> db_ok (snd (submit_response s survey_id data now d)).
Proof.
  intros [Hs Hq Hr Ho Hqs Hrs]. unfold submit_response.
  destruct (survey_get d survey_id) as [survey|] eqn:Eg; [|unchanged].
  destruct (negb _); [unchanged|].
  constructor; simpl; try assumption.
  - rewrite map_app. simpl. auto with tables.
  - apply Forall_app. split; [exact Hrs|]. constructor; [|constructor].
    simpl. apply refers_get. eexists. exact Eg.
Qed.

Lemma handle_ok s req d :
  wf_request req -> db_ok d -> db_ok (snd (handle s req d)).
Proof.
  intros Hwf Hok. destruct req; simpl.
  - apply create_survey_ok; exact Hok.
  - rewrite get_survey_unchanged. exact Hok.
  - apply update_survey_ok; exact Hok.
  - apply delete_survey_ok; exact Hok.
  - apply create_question_ok; assumption.
  - apply update_question_ok; assumption.
  - apply delete_question_ok; exact Hok.
  - apply submit_response_ok; exact Hok.
Qed.

Lemma run_ok reqs : forall d,
  Forall (fun sr => wf_request (snd sr)) reqs -> db_ok d -> db_ok (run reqs d).
Proof.
  induction reqs as [|[s req] reqs IH]; intros d Hwf Hok; simpl; [exact Hok|].
  inversion Hwf; subst. apply IH; [assumption|].
  apply handle_ok; assumption.
Qed.

(** No question is an orphan: the owner-only routes of a question always
    find the survey to check the caller against. *)
Lemma question_has_survey d question_id q :
  db_ok d -> question_get d question_id = Some q ->
  exists survey, question_survey d q = Some survey.
Proof.
  intros Hok Hq. unfold question_survey. apply refers_get.
  pose proof (ok_question_survey d Hok) as H. rewrite Forall_forall in H.
  apply H. unfold question_get in Hq. apply find_some in Hq. apply Hq.
Qed.

Lemma drafted_db_ok : db_ok drafted_db.
Proof.
  apply run_ok; [|exact empty_db_ok]. repeat constructor.
Qed.

Lemma shuffled_db_ok : db_ok shuffled_db.
Proof.
  apply run_ok; [|exact drafted_db_ok]. repeat constructor.
Qed.

(** ** The ownership guard *)

Lemma guard_cases d req s survey :
  guarded_survey d req = Some survey ->
  handle s req d =
  match s with
  | None => (unauthorized, d)
  | Some caller =>
      if caller =? Survey.user_id survey
      then handle (Some (Survey.user_id survey)) req d
      else (forbidden, d)
  end.
Proof.
  intros H. destruct s as [caller|].
  - destruct (Z.eqb_spec caller (Survey.user_id survey)) as [->|Hne];
      [reflexivity|].
    assert (Hb : negb (Survey.user_id survey =? caller) = true).
    { apply negb_true_iff. apply Z.eqb_neq. congruence. }
    destruct req; simpl in H; try discriminate; simpl;
      unfold get_survey, update_survey, delete_survey, create_question,
             update_question, delete_question;
      try (rewrite H, Hb; reflexivity);
      destruct (question_get d question_id) as [q|]; try discriminate;
      rewrite H, Hb; reflexivity.
  - destruct req; simpl in H; try discriminate; reflexivity.
Qed.

Lemma question_response_code q code d' :
  status_code (fst (question_response q code d')) = code \/
  status_code (fst (question_response q code d')) = 500.
Proof.
  unfold question_response.
  destruct (options_value (Question.options q)); [left | right]; reflexivity.
Qed.

(** Past the guard a route answers 200, 201, 204 or 500. *)
Lemma owner_proceeds d req survey :
  guarded_survey d req = Some survey ->
  In (status_code (fst (handle (Some (Survey.user_id survey)) req d)))
     [200; 201; 204; 500].
Proof.
  intros H.
  assert (Hb : negb (Survey.user_id survey =? Survey.user_id survey) = false)
    by (rewrite Z.eqb_refl; reflexivity).
  destruct req; simpl in H; try discriminate; simpl.
  - unfold get_survey. rewrite H, Hb.
    destruct (questions_data _); simpl; auto.
  - unfold update_survey. rewrite H, Hb. simpl. auto.
  - unfold delete_survey. rewrite H, Hb.
    destruct (survey_responses _ _); simpl; auto.
  - unfold create_question. rewrite H, Hb.
    destruct (QuestionData.type data), (QuestionData.text data); simpl; auto.
    match goal with |- context [if ?b then _ else _] => destruct b end;
      simpl; auto.
    match goal with |- context [question_response ?q ?c ?d'] =>
      destruct (question_response_code q c d') as [E|E]; rewrite E end;
      simpl; auto.
  - unfold update_question.
    destruct (question_get d question_id) as [q|]; [|discriminate].
    rewrite H, Hb.
    destruct (options_value (Question.options q)); simpl; auto.
    match goal with |- context [if ?b then _ else _] => destruct b end;
      simpl; auto.
    match goal with |- context [question_response ?q ?c ?d'] =>
      destruct (question_response_code q c d') as [E|E]; rewrite E end;
      simpl; auto.
  - unfold delete_question.
    destruct (question_get d question_id) as [q|]; [|discriminate].
    rewrite H, Hb. simpl. auto.
Qed.

(** C1. On each owner-only route (get, update, delete survey; create,
    update, delete question) whose survey exists: a caller without identity
    gets the 401 [Unauthorized] response, a caller whose identity is not the
    survey's [user_id] gets the different 403 [Forbidden] response, both with
    the database untouched, and the route goes past the guard exactly when
    the caller is the owner. *)
Theorem owner_guard (d : db) (req : request) (s : session) (survey : Survey.t) :
  guarded_survey d req = Some survey ->
  (s = None -> handle s req d = (unauthorized, d)) /\
  (forall caller, s = Some caller -> caller <> Survey.user_id survey ->
     handle s req d = (forbidden, d)) /\
  (fst (handle s req d) <> unauthorized /\ fst (handle s req d) <> forbidden
   <-> s = Some (Survey.user_id survey)) /\
  unauthorized <> forbidden.
Proof.
  intros H. rewrite (guard_cases d req s survey H).
  pose proof (owner_proceeds d req survey H) as Hp.
  repeat split.
  - intros ->. reflexivity.
  - intros caller -> Hne.
    destruct (Z.eqb_spec caller (Survey.user_id survey)); [contradiction|].
    reflexivity.
  - intros [H1 H2]. destruct s as [caller|]; [|exfalso; apply H1; reflexivity].
    destruct (Z.eqb_spec caller (Survey.user_id survey)) as [->|Hne];
      [reflexivity | exfalso; apply H2; reflexivity].
  - subst s. rewrite Z.eqb_refl. intros E. rewrite E in Hp. simpl in Hp.
    repeat destruct Hp as [Hp|Hp]; try discriminate Hp; contradiction.
  - subst s. rewrite Z.eqb_refl. intros E. rewrite E in Hp. simpl in Hp.
    repeat destruct Hp as [Hp|Hp]; try discriminate Hp; contradiction.
  - discriminate.
Qed.

(** ** Submitting responses *)

Lemma submit_active d s survey_id data now survey :
  survey_get d survey_id = Some survey ->
  Survey.status survey = "active" ->
  let r := Response.mk (next_id (map Response.id (responses d)))
                       survey_id s (json_dumps data) now in
  submit_response s survey_id data now d =
    (Jsonify (JDict [("id", JInt (Response.id r))]) 201,
     set_responses d (responses d ++ [r])%list)
  /\ response_get (set_responses d (responses d ++ [r])%list) (Response.id r)
     = Some r.
Proof.
  intros Hs Ha r. split.
  - unfold submit_response. rewrite Hs, Ha. reflexivity.
  - unfold response_get. simpl.
    apply find_app_last; [|apply Z.eqb_refl].
    apply (find_fresh Response.id).
Qed.

(** C2. Any caller, with or without an identity and whoever owns the
    survey, can submit to an existing survey whose status is ['active']: the
    route answers 201 and the stored response carries the caller's identity,
    or none when the session has none. *)
Theorem submit_needs_no_identity (d : db) (s : session) (survey_id : Z)
    (data : json) (now : Datetime.t) (survey : Survey.t) :
  survey_get d survey_id = Some survey ->
  Survey.status survey = "active" ->
  exists new_id d' r,
    submit_response s survey_id data now d =
      (Jsonify (JDict [("id", JInt new_id)]) 201, d') /\
    response_get d' new_id = Some r /\
    responses d' = (responses d ++ [r])%list /\
    Response.survey_id r = survey_id /\
    Response.user_id r = s.
Proof.
  intros Hs Ha.
  destruct (submit_active d s survey_id data now survey Hs Ha) as [E G].
  eexists; eexists; eexists. split; [exact E|]. split; [exact G|].
  repeat split.
Qed.

(** C3. Whatever the payload, submitting to a survey whose status is not
    ['active'] is answered by the 400 response ['Survey is not active'] and
    the database is the same afterwards: no response row is created. *)
Theorem submit_inactive_rejected (d : db) (s : session) (survey_id : Z)
    (data : json) (now : Datetime.t) (survey : Survey.t) :
  survey_get d survey_id = Some survey ->
  Survey.status survey <> "active" ->
  submit_response s survey_id data now d = (not_active, d).
Proof.
  intros Hs Hn. unfold submit_response. rewrite Hs.
  destruct (String.eqb_spec (Survey.status survey) "active");
    [contradiction | reflexivity].
Qed.

(** C5. Submitting a payload to an active survey answers 201 with a body
    that holds the new response's [id] and nothing else; the row stored
    under that id belongs to the survey and its [response_data] decodes to
    exactly the submitted payload. *)
Theorem submit_round_trip (d : db) (s : session) (survey_id : Z)
    (data : json) (now : Datetime.t) (survey : Survey.t) :
  wf_json data ->
  survey_get d survey_id = Some survey ->
  Survey.status survey = "active" ->
  exists new_id d' r,
    submit_response s survey_id data now d =
      (Jsonify (JDict [("id", JInt new_id)]) 201, d') /\
    response_get d' new_id = Some r /\
    In r (survey_responses d' survey_id) /\
    json_loads (Response.response_data r) = Some data.
Proof.
  intros Hwf Hs Ha.
  destruct (submit_active d s survey_id data now survey Hs Ha) as [E G].
  eexists; eexists; eexists. split; [exact E|]. split; [exact G|]. split.
  - unfold survey_responses. apply filter_In. split.
    + simpl. apply in_or_app. right. left. reflexivity.
    + simpl. apply Z.eqb_refl.
  - simpl. apply json_loads_dumps. exact Hwf.
Qed.

(** ** The sample run *)

Example scenario_published :
  survey_get published_db 1 =
    Some (Survey.mk 1 "Q1 Feedback" EmptyString "active"
                    (monday 9 0) (monday 9 30) 1)
  /\ map Question.id (survey_questions published_db 1) = [1]
  /\ fst (handle anonymous (SubmitResponse 1 yes (monday 10 0)) published_db)
     = Jsonify (JDict [("id", JInt 1)]) 201
  /\ List.length (survey_responses answered_db 1) = 1%nat
  /\ fst (handle bob (GetSurvey 1) answered_db) = forbidden
  /\ fst (handle anonymous (GetSurvey 1) answered_db) = unauthorized.
Proof. vm_compute. repeat split. Qed.

Example scenario_closed :
  let closed_db :=
    run [(ann, UpdateSurvey 1 (set_status "closed") (monday 11 0))] answered_db in
  handle anonymous (SubmitResponse 1 yes (monday 11 30)) closed_db
  = (not_active, closed_db).
Proof. vm_compute. reflexivity. Qed.

Example isoformat_sample :
  Datetime.isoformat (monday 9 30) = "2024-01-15T09:30:00"
  /\ Datetime.isoformat (Datetime.mk 987 12 1 0 0 5 1200)
     = "0987-12-01T00:00:05.001200".
Proof. vm_compute. split; reflexivity. Qed.

Lemma owner_guard_witness :
  handle bob (GetSurvey 1) answered_db = (forbidden, answered_db)
  /\ (fst (handle ann (GetSurvey 1) answered_db) <> unauthorized
      /\ fst (handle ann (GetSurvey 1) answered_db) <> forbidden).
Proof.
  assert (H : guarded_survey answered_db (GetSurvey 1) =
              Some (Survey.mk 1 "Q1 Feedback" EmptyString "active"
                              (monday 9 0) (monday 9 30) 1))
    by (vm_compute; reflexivity).
  split.
  - apply (proj1 (proj2 (owner_guard answered_db (GetSurvey 1) bob _ H)) 2).
    + reflexivity.
    + simpl. lia.
  - apply (proj1 (proj2 (proj2 (owner_guard answered_db (GetSurvey 1) ann _ H)))).
    reflexivity.
Defined.

Lemma submit_needs_no_identity_witness :
  exists new_id d' r,
    submit_response anonymous 1 yes (monday 10 0) published_db =
      (Jsonify (JDict [("id", JInt new_id)]) 201, d') /\
    response_get d' new_id = Some r /\
    responses d' = (responses published_db ++ [r])%list /\
    Response.survey_id r = 1 /\
    Response.user_id r = anonymous.
Proof.
  apply (submit_needs_no_identity published_db anonymous 1 yes (monday 10 0)
           (Survey.mk 1 "Q1 Feedback" EmptyString "active"
                      (monday 9 0) (monday 9 30) 1)).
  - vm_compute. reflexivity.
  - reflexivity.
Defined.

Lemma submit_inactive_rejected_witness :
  submit_response anonymous 1 yes (monday 10 0) drafted_db
  = (not_active, drafted_db).
Proof.
  apply (submit_inactive_rejected drafted_db anonymous 1 yes (monday 10 0)
           (Survey.mk 1 "Q1 Feedback" EmptyString "draft"
                      (monday 9 0) (monday 9 0) 1)).
  - vm_compute. reflexivity.
  - simpl. discriminate.
Defined.

Lemma submit_round_trip_witness :
  exists new_id d' r,
    submit_response bob 1 yes (monday 10 0) published_db =
      (Jsonify (JDict [("id", JInt new_id)]) 201, d') /\
    response_get d' new_id = Some r /\
    In r (survey_responses d' 1) /\
    json_loads (Response.response_data r) = Some yes.
Proof.
  apply (submit_round_trip published_db bob 1 yes (monday 10 0)
           (Survey.mk 1 "Q1 Feedback" EmptyString "active"
                      (monday 9 0) (monday 9 30) 1)).
  - simpl. split; [|split; exact I].
    constructor; [intros [] | constructor].
  - vm_compute. reflexivity.
  - reflexivity.
Defined.

(** ** Updating a survey *)

(** C10. An update by the owner whose body supplies no field at all is
    accepted: title, description, status and owner of the stored survey
    stay as they were, and [updated_at] becomes the clock reading of the
    call, later than the previous one whenever the clock has moved on. *)
Theorem empty_update_advances_updated_at (d : db) (caller survey_id : Z)
    (survey : Survey.t) (now : Datetime.t) :
  survey_get d survey_id = Some survey ->
  Survey.user_id survey = caller ->
  Datetime.ltb (Survey.updated_at survey) now = true ->
  exists body d' survey',
    update_survey (Some caller) survey_id SurveyData.empty now d =
      (Jsonify body 200, d') /\
    survey_get d' survey_id = Some survey' /\
    Survey.title survey' = Survey.title survey /\
    Survey.description survey' = Survey.description survey /\
    Survey.status survey' = Survey.status survey /\
    Survey.user_id survey' = Survey.user_id survey /\
    Survey.created_at survey' = Survey.created_at survey /\
    Survey.updated_at survey' = now /\
    Datetime.ltb (Survey.updated_at survey) (Survey.updated_at survey') = true.
Proof.
  intros Hs Ho Hclock.
  pose proof (survey_get_id _ _ _ Hs) as Hid.
  unfold update_survey. rewrite Hs, Ho, Z.eqb_refl. simpl negb. cbv iota.
  eexists; eexists; eexists. split; [reflexivity|].
  split.
  - unfold survey_get at 1. simpl surveys.
    rewrite Hid. apply (survey_get_put d survey_id survey _ Hs). reflexivity.
  - simpl. repeat split; first [symmetry; exact Ho | exact Hclock].
Qed.

Lemma empty_update_advances_updated_at_witness :
  exists body d' survey',
    update_survey ann 1 SurveyData.empty (monday 9 45) published_db =
      (Jsonify body 200, d') /\
    survey_get d' 1 = Some survey' /\
    Survey.title survey' = "Q1 Feedback" /\
    Survey.description survey' = EmptyString /\
    Survey.status survey' = "active" /\
    Survey.user_id survey' = 1 /\
    Survey.created_at survey' = monday 9 0 /\
    Survey.updated_at survey' = monday 9 45 /\
    Datetime.ltb (monday 9 30) (Survey.updated_at survey') = true.
Proof.
  apply (empty_update_advances_updated_at published_db 1 1
           (Survey.mk 1 "Q1 Feedback" EmptyString "active"
                      (monday 9 0) (monday 9 30) 1) (monday 9 45)).
  - vm_compute. reflexivity.
  - reflexivity.
  - vm_compute. reflexivity.
Defined.

(** ** Deleting a survey *)

(** A survey that has responses cannot be deleted: the flush fails and the
    database is rolled back. *)
Lemma delete_survey_blocked d caller survey_id survey :
  survey_get d survey_id = Some survey ->
  Survey.user_id survey = caller ->
  survey_responses d survey_id <> [] ->
  delete_survey (Some caller) survey_id d = (Abort 500, d).
Proof.
  intros Hs Ho Hr. pose proof (survey_get_id _ _ _ Hs) as Hid.
  unfold delete_survey. rewrite Hs, Ho, Z.eqb_refl, Hid. simpl.
  destruct (survey_responses d survey_id); [contradiction | reflexivity].
Qed.

Lemma find_filter_out {A : Type} (key : A -> Z) (f : A -> bool) id l :
  (forall row, key row = id -> f row = false) ->
  find (fun row => key row =? id) (filter f l) = None.
Proof.
  intros Hf. induction l as [|a l IH]; simpl; [reflexivity|].
  destruct (f a) eqn:E; [|exact IH]. simpl.
  destruct (Z.eqb_spec (key a) id) as [Hk|Hk]; [|exact IH].
  rewrite (Hf a Hk) in E. discriminate.
Qed.

Lemma filter_negb_filter {A : Type} (f : A -> bool) l :
  filter f (filter (fun x => negb (f x)) l) = [].
Proof.
  induction l as [|a l IH]; simpl; [reflexivity|].
  destruct (f a) eqn:E; simpl; [exact IH|]. rewrite E. exact IH.
Qed.

(** A survey without responses goes away with all of its questions. *)
Lemma delete_survey_cascade d caller survey_id survey :
  db_ok d ->
  survey_get d survey_id = Some survey ->
  Survey.user_id survey = caller ->
  survey_responses d survey_id = [] ->
  exists d',
    delete_survey (Some caller) survey_id d = (Text EmptyString 204, d') /\
    survey_get d' survey_id = None /\
    (forall q, In q (survey_questions d survey_id) ->
               question_get d' (Question.id q) = None) /\
    fst (get_survey (Some caller) survey_id d') = Abort 404 /\
    (forall q data, In q (survey_questions d survey_id) ->
       fst (update_question (Some caller) (Question.id q) data d') = Abort 404).
Proof.
  intros Hok Hs Ho Hr. pose proof (survey_get_id _ _ _ Hs) as Hid.
  unfold delete_survey. rewrite Hs, Ho, Z.eqb_refl, Hid, Hr. simpl negb.
  cbv iota. eexists. split; [reflexivity|].
  set (d' := mkDb _ _ _).
  assert (G : survey_get d' survey_id = None).
  { unfold survey_get. simpl.
    apply (find_filter_out Survey.id). intros row ->. rewrite Z.eqb_refl.
    reflexivity. }
  assert (Q : forall q, In q (survey_questions d survey_id) ->
                        question_get d' (Question.id q) = None).
  { intros q Hq. unfold survey_questions in Hq. apply filter_In in Hq.
    destruct Hq as [Hin Hsid]. apply Z.eqb_eq in Hsid.
    destruct (question_get d' (Question.id q)) as [q'|] eqn:E; [|reflexivity].
    unfold question_get in E. simpl in E. apply find_some in E.
    destruct E as [Hin' Hid']. apply filter_In in Hin'.
    destruct Hin' as [Hin' Hne]. apply Z.eqb_eq in Hid'.
    assert (q' = q)
      by (eapply (ascending_unique Question.id); eauto using ok_questions).
    subst q'. rewrite Hsid, Z.eqb_refl in Hne. discriminate. }
  split; [exact G|]. split; [exact Q|]. split.
  - unfold get_survey. rewrite G. reflexivity.
  - intros q data Hq. unfold update_question. rewrite (Q q Hq). reflexivity.
Qed.

(** C4, at an input where the code departs from it. Ann's published survey
    has one question and one response.  Her [DELETE] is answered by 500 and
    removes nothing: the survey, its question and its response are all still
    found, and her [GET] of the survey still answers 200. *)
Theorem delete_survey_with_responses_fails :
  delete_survey ann 1 answered_db = (Abort 500, answered_db)
  /\ (exists survey, survey_get answered_db 1 = Some survey)
  /\ map Question.id (survey_questions answered_db 1) = [1]
  /\ map Response.id (survey_responses answered_db 1) = [1]
  /\ status_code (fst (get_survey ann 1 answered_db)) = 200.
Proof.
  split; [vm_compute; reflexivity|].
  split; [eexists; vm_compute; reflexivity|].
  vm_compute. repeat split.
Qed.

(** ** Creating questions *)

Lemma survey_questions_snoc d survey_id q :
  Question.survey_id q = survey_id ->
  survey_questions (set_questions d (questions d ++ [q])%list) survey_id
  = (survey_questions d survey_id ++ [q])%list.
Proof.
  intros E. unfold survey_questions. simpl. rewrite filter_app. simpl.
  rewrite E, Z.eqb_refl. reflexivity.
Qed.

Lemma create_question_accepts d caller survey_id data survey type text :
  survey_get d survey_id = Some survey ->
  Survey.user_id survey = caller ->
  QuestionData.type data = Some type ->
  QuestionData.text data = Some text ->
  wf_request (CreateQuestion survey_id data) ->
  sqlite_int (get_or (QuestionData.order data) 0) = true ->
  let q := Question.mk (next_id (map Question.id (questions d)))
             survey_id type text
             (get_or (QuestionData.description data) EmptyString)
             (get_or (QuestionData.required data) false)
             (Some (json_dumps (get_or (QuestionData.options data) (JList []))))
             (get_or (QuestionData.order data) 0) in
  create_question (Some caller) survey_id data d =
    (Jsonify (question_json q (get_or (QuestionData.options data) (JList []))) 201,
     set_questions d (questions d ++ [q])%list)
  /\ options_value (Question.options q)
     = Some (get_or (QuestionData.options data) (JList [])).
Proof.
  intros Hs Ho Hty Htx Hwf Hint q.
  assert (Hv : options_value (Question.options q)
               = Some (get_or (QuestionData.options data) (JList []))).
  { simpl. apply options_value_dumps.
    simpl in Hwf. destruct (QuestionData.options data); [exact Hwf | exact I]. }
  split; [|exact Hv].
  unfold create_question. rewrite Hs, Ho, Z.eqb_refl, Hty, Htx. simpl negb.
  cbv iota. simpl Question.order. rewrite Hint.
  unfold question_response. fold q. rewrite Hv. reflexivity.
Qed.

(** C6, as the code has it. An owner's [POST] of a question that supplies
    [type] and [text], whatever they are (a choice type with an empty or
    missing [options], a type nobody knows, an empty text), with an [order]
    that fits an SQLite integer, is answered by 201, and the survey's
    question list is the former list followed by the new question, stored
    with the fields as supplied. *)
Theorem create_question_unvalidated (d : db) (caller survey_id : Z)
    (data : QuestionData.t) (survey : Survey.t) (type text : string) :
  survey_get d survey_id = Some survey ->
  Survey.user_id survey = caller ->
  QuestionData.type data = Some type ->
  QuestionData.text data = Some text ->
  wf_request (CreateQuestion survey_id data) ->
  sqlite_int (get_or (QuestionData.order data) 0) = true ->
  exists q d',
    create_question (Some caller) survey_id data d =
      (Jsonify (question_json q (get_or (QuestionData.options data) (JList []))) 201,
       d') /\
    survey_questions d' survey_id = (survey_questions d survey_id ++ [q])%list /\
    Question.type q = type /\
    Question.text q = text /\
    options_value (Question.options q)
      = Some (get_or (QuestionData.options data) (JList [])).
Proof.
  intros Hs Ho Hty Htx Hwf Hint.
  destruct (create_question_accepts d caller survey_id data survey type text
              Hs Ho Hty Htx Hwf Hint) as [E Hv].
  eexists; eexists. split; [exact E|]. split.
  - apply survey_questions_snoc. reflexivity.
  - repeat split. exact Hv.
Qed.

Lemma create_question_unvalidated_witness :
  exists q d',
    create_question ann 1 no_options drafted_db =
      (Jsonify (question_json q (JList [])) 201, d') /\
    survey_questions d' 1 = (survey_questions drafted_db 1 ++ [q])%list /\
    Question.type q = "dropdown" /\
    Question.text q = "Pick one" /\
    options_value (Question.options q) = Some (JList []).
Proof.
  apply (create_question_unvalidated drafted_db 1 1 no_options
           (Survey.mk 1 "Q1 Feedback" EmptyString "draft"
                      (monday 9 0) (monday 9 0) 1) "dropdown" "Pick one").
  - vm_compute. reflexivity.
  - reflexivity.
  - reflexivity.
  - reflexivity.
  - simpl. exact I.
  - vm_compute. reflexivity.
Defined.

(** C6 fails as stated: a choice question with an empty [options] list, a
    question with an empty text and a question of an unknown type are each
    accepted with 201 and added to a survey that had no question. *)
Lemma create_question_validation_counterexample :
  survey_questions drafted_db 1 = []
  /\ status_code (fst (create_question ann 1 no_options drafted_db)) = 201
  /\ map Question.type
       (survey_questions (snd (create_question ann 1 no_options drafted_db)) 1)
     = ["dropdown"]
  /\ map Question.options
       (survey_questions (snd (create_question ann 1 no_options drafted_db)) 1)
     = [Some "[]"]
  /\ status_code (fst (create_question ann 1 no_text drafted_db)) = 201
  /\ map Question.text
       (survey_questions (snd (create_question ann 1 no_text drafted_db)) 1)
     = [EmptyString]
  /\ status_code (fst (create_question ann 1 odd_type drafted_db)) = 201
  /\ map Question.type
       (survey_questions (snd (create_question ann 1 odd_type drafted_db)) 1)
     = ["hologram"].
Proof. vm_compute. repeat split. Qed.

(** ** Listing questions *)

Lemma q_data_order_id q j : q_data q = Some j -> order_id j = row_order_id q.
Proof.
  unfold q_data. destruct (truthy (Question.options q)).
  - destruct (json_loads _); [|discriminate].
    intros H. inversion H. reflexivity.
  - intros H. inversion H. reflexivity.
Qed.

Lemma questions_data_keys qs : forall js,
  questions_data qs = Some js -> map order_id js = map row_order_id qs.
Proof.
  induction qs as [|q qs IH]; simpl; intros js H.
  - inversion H. reflexivity.
  - destruct (q_data q) as [j|] eqn:Ej; [|discriminate].
    destruct (questions_data qs) as [js'|]; [|discriminate].
    inversion H; subst. simpl.
    rewrite (q_data_order_id q j Ej), (IH js' eq_refl). reflexivity.
Qed.

Lemma q_data_decodable q : decodable q -> exists j, q_data q = Some j.
Proof.
  intros [v Hv]. unfold options_value in Hv. unfold q_data.
  destruct (truthy (Question.options q)).
  - rewrite Hv. eexists. reflexivity.
  - eexists. reflexivity.
Qed.

Lemma questions_data_decodable qs :
  Forall decodable qs -> exists js, questions_data qs = Some js.
Proof.
  induction 1 as [|q qs Hq _ [js IH]]; simpl.
  - eexists. reflexivity.
  - destruct (q_data_decodable q Hq) as [j Ej]. rewrite Ej, IH.
    eexists. reflexivity.
Qed.

(** C7, as the code has it. [GET] of a survey by its owner lists the
    survey's questions in the order of the rows of the table, that is by
    ascending [id] and whatever their [order] values; the request leaves the
    database as it was, so that asking again gives the same answer. *)
Theorem get_survey_lists_in_row_order (d : db) (caller survey_id : Z)
    (survey : Survey.t) :
  db_ok d ->
  survey_get d survey_id = Some survey ->
  Survey.user_id survey = caller ->
  exists body,
    get_survey (Some caller) survey_id d = (Jsonify body 200, d) /\
    map order_id (listed_questions (Jsonify body 200))
      = map row_order_id (survey_questions d survey_id) /\
    ascending (map Question.id (survey_questions d survey_id)) /\
    get_survey (Some caller) survey_id (snd (get_survey (Some caller) survey_id d))
      = get_survey (Some caller) survey_id d.
Proof.
  intros Hok Hs Ho. pose proof (survey_get_id _ _ _ Hs) as Hid.
  assert (Hdec : Forall decodable (survey_questions d survey_id)).
  { unfold survey_questions. apply Forall_forall. intros q Hq.
    apply filter_In in Hq. destruct Hq as [Hq _].
    pose proof (ok_options d Hok) as Hall. rewrite Forall_forall in Hall.
    apply Hall. exact Hq. }
  destruct (questions_data_decodable _ Hdec) as [js Ejs].
  assert (E : get_survey (Some caller) survey_id d =
              (Jsonify (JDict [
                 ("id", JInt (Survey.id survey));
                 ("title", JStr (Survey.title survey));
                 ("description", JStr (Survey.description survey));
                 ("status", JStr (Survey.status survey));
                 ("created_at", JStr (Datetime.isoformat (Survey.created_at survey)));
                 ("updated_at", JStr (Datetime.isoformat (Survey.updated_at survey)));
                 ("questions", JList js)]) 200, d)).
  { unfold get_survey. rewrite Hs, Ho, Z.eqb_refl, Hid, Ejs. reflexivity. }
  eexists. split; [exact E|]. split; [|split].
  - simpl. apply questions_data_keys. exact Ejs.
  - unfold survey_questions. apply ascending_filter. apply (ok_questions d Hok).
  - rewrite E. simpl. exact E.
Qed.

Lemma get_survey_lists_in_row_order_witness :
  exists body,
    get_survey ann 1 shuffled_db = (Jsonify body 200, shuffled_db) /\
    map order_id (listed_questions (Jsonify body 200))
      = map row_order_id (survey_questions shuffled_db 1) /\
    ascending (map Question.id (survey_questions shuffled_db 1)) /\
    get_survey ann 1 (snd (get_survey ann 1 shuffled_db))
      = get_survey ann 1 shuffled_db.
Proof.
  apply (get_survey_lists_in_row_order shuffled_db 1 1
           (Survey.mk 1 "Q1 Feedback" EmptyString "draft"
                      (monday 9 0) (monday 9 0) 1)).
  - constructor.
    + vm_compute. repeat constructor.
    + vm_compute. repeat constructor.
    + vm_compute. repeat constructor.
    + repeat constructor; eexists; vm_compute; reflexivity.
    + vm_compute. repeat constructor.
    + vm_compute. repeat constructor.
  - vm_compute. reflexivity.
  - reflexivity.
Defined.

(** C7 fails as stated: with a first question of [order] 5 and a second of
    [order] 0, the owner's [GET] lists them as stored, 5 before 0. *)
Lemma get_survey_order_counterexample :
  map order_id (listed_questions (fst (get_survey ann 1 shuffled_db)))
    = [Some (5, 1); Some (0, 2)]
  /\ sorted_by_order
       (map order_id (listed_questions (fst (get_survey ann 1 shuffled_db))))
     = false.
Proof. vm_compute. split; reflexivity. Qed.

(** ** No validation of [status] and [order] *)

Lemma update_survey_accepts d caller survey_id survey data now :
  survey_get d survey_id = Some survey ->
  Survey.user_id survey = caller ->
  let survey' :=
    Survey.mk survey_id
      (get_or (SurveyData.title data) (Survey.title survey))
      (get_or (SurveyData.description data) (Survey.description survey))
      (get_or (SurveyData.status data) (Survey.status survey))
      (Survey.created_at survey) now caller in
  exists body,
    update_survey (Some caller) survey_id data now d =
      (Jsonify body 200, set_surveys d (survey_put survey_id survey' (surveys d)))
    /\ survey_get (set_surveys d (survey_put survey_id survey' (surveys d)))
                  survey_id = Some survey'.
Proof.
  intros Hs Ho survey'. pose proof (survey_get_id _ _ _ Hs) as Hid.
  unfold update_survey. rewrite Hs, Ho, Z.eqb_refl, Hid. simpl negb. cbv iota.
  fold survey'. eexists. split; [reflexivity|].
  unfold survey_get at 1. simpl surveys.
  apply (survey_get_put d survey_id survey _ Hs). reflexivity.
Qed.

(** C8, as the code has it. Whatever string an owner's update supplies as
    [status], the update is answered by 200 and the survey is stored with
    that status; whatever integer that SQLite can hold, negative or not, an
    owner's new question supplies as [order], the question is answered by
    201 and stored with that order. *)
Theorem status_and_order_unvalidated (d : db) (caller survey_id : Z)
    (survey : Survey.t) :
  survey_get d survey_id = Some survey ->
  Survey.user_id survey = caller ->
  (forall data now st,
     SurveyData.status data = Some st ->
     exists body d' survey',
       update_survey (Some caller) survey_id data now d = (Jsonify body 200, d') /\
       survey_get d' survey_id = Some survey' /\
       Survey.status survey' = st) /\
  (forall data type text n,
     QuestionData.type data = Some type ->
     QuestionData.text data = Some text ->
     QuestionData.order data = Some n ->
     wf_request (CreateQuestion survey_id data) ->
     sqlite_int n = true ->
     exists body d' q,
       create_question (Some caller) survey_id data d = (Jsonify body 201, d') /\
       In q (survey_questions d' survey_id) /\
       Question.order q = n).
Proof.
  intros Hs Ho. split.
  - intros data now st Hst.
    destruct (update_survey_accepts d caller survey_id survey data now Hs Ho)
      as (body & E & G).
    eexists; eexists; eexists. split; [exact E|]. split; [exact G|].
    simpl. rewrite Hst. reflexivity.
  - intros data type text n Hty Htx Hn Hwf Hint.
    assert (Hint' : sqlite_int (get_or (QuestionData.order data) 0) = true)
      by (rewrite Hn; exact Hint).
    destruct (create_question_accepts d caller survey_id data survey type text
                Hs Ho Hty Htx Hwf Hint') as [E _].
    eexists; eexists; eexists. split; [exact E|]. split.
    + rewrite survey_questions_snoc by reflexivity.
      apply in_or_app. right. left. reflexivity.
    + simpl. rewrite Hn. reflexivity.
Qed.

Lemma status_and_order_unvalidated_witness :
  (exists body d' survey',
     update_survey ann 1 (set_status "bogus") (monday 9 5) drafted_db
       = (Jsonify body 200, d') /\
     survey_get d' 1 = Some survey' /\
     Survey.status survey' = "bogus") /\
  (exists body d' q,
     create_question ann 1 (ordered "below zero" (-3)) drafted_db
       = (Jsonify body 201, d') /\
     In q (survey_questions d' 1) /\
     Question.order q = -3).
Proof.
  assert (Hs : survey_get drafted_db 1 =
               Some (Survey.mk 1 "Q1 Feedback" EmptyString "draft"
                               (monday 9 0) (monday 9 0) 1))
    by (vm_compute; reflexivity).
  split.
  - apply (proj1 (status_and_order_unvalidated drafted_db 1 1 _ Hs eq_refl)).
    reflexivity.
  - apply (proj2 (status_and_order_unvalidated drafted_db 1 1 _ Hs eq_refl)
             (ordered "below zero" (-3)) "text" "below zero" (-3));
      first [reflexivity | exact I].
Defined.

(** C8 fails as stated: the status ['bogus'] and the order -3 are both
    accepted and stored. *)
Lemma status_and_order_counterexample :
  status_code (fst (update_survey ann 1 (set_status "bogus") (monday 9 5) drafted_db))
    = 200
  /\ map Survey.status
       (surveys (snd (update_survey ann 1 (set_status "bogus") (monday 9 5)
                                    drafted_db)))
     = ["bogus"]
  /\ status_code (fst (create_question ann 1 (ordered "below zero" (-3)) drafted_db))
     = 201
  /\ map Question.order
       (questions (snd (create_question ann 1 (ordered "below zero" (-3))
                                        drafted_db)))
     = [-3].
Proof. vm_compute. repeat split. Qed.

(** ** Updating a question *)

(** C9, as the code has it. An owner's [PUT] of a question whose stored
    options decode, with an [order] that fits an SQLite integer, is answered
    by 200 and stores, for every field, the supplied value when the request
    has one and the previous value when it has none (for [options], the
    previous decoded value, and the very same text when that text was
    written by [json.dumps]); nothing is checked on the way, so any merged
    result is stored. *)
Theorem update_question_merges (d : db) (caller question_id : Z)
    (data : QuestionData.t) (q : Question.t) (survey : Survey.t)
    (stored : json) :
  question_get d question_id = Some q ->
  question_survey d q = Some survey ->
  Survey.user_id survey = caller ->
  options_value (Question.options q) = Some stored ->
  wf_request (UpdateQuestion question_id data) ->
  sqlite_int (get_or (QuestionData.order data) (Question.order q)) = true ->
  exists q' d',
    update_question (Some caller) question_id data d =
      (Jsonify (question_json q' (get_or (QuestionData.options data) stored)) 200,
       d') /\
    question_get d' question_id = Some q' /\
    Question.id q' = Question.id q /\
    Question.survey_id q' = Question.survey_id q /\
    Question.type q' = get_or (QuestionData.type data) (Question.type q) /\
    Question.text q' = get_or (QuestionData.text data) (Question.text q) /\
    Question.description q'
      = get_or (QuestionData.description data) (Question.description q) /\
    Question.required q'
      = get_or (QuestionData.required data) (Question.required q) /\
    Question.order q' = get_or (QuestionData.order data) (Question.order q) /\
    options_value (Question.options q')
      = Some (get_or (QuestionData.options data) stored) /\
    (forall v, wf_json v -> Question.options q = Some (json_dumps v) ->
               QuestionData.options data = None ->
               Question.options q' = Question.options q).
Proof.
  intros Hq Hs Ho Hst Hwf Hint.
  pose proof (question_get_id _ _ _ Hq) as Hid.
  set (q' := Question.mk (Question.id q) (Question.survey_id q)
               (get_or (QuestionData.type data) (Question.type q))
               (get_or (QuestionData.text data) (Question.text q))
               (get_or (QuestionData.description data) (Question.description q))
               (get_or (QuestionData.required data) (Question.required q))
               (Some (json_dumps (get_or (QuestionData.options data) stored)))
               (get_or (QuestionData.order data) (Question.order q))).
  assert (Hv : options_value (Question.options q')
               = Some (get_or (QuestionData.options data) stored)).
  { simpl. apply options_value_dumps. simpl in Hwf.
    destruct (QuestionData.options data); simpl; [exact Hwf|].
    exact (options_value_wf _ _ Hst). }
  exists q'. eexists. split; [|split].
  - unfold update_question. rewrite Hq, Hs, Ho, Z.eqb_refl, Hst. simpl negb.
    cbv iota. fold q'. simpl Question.order. rewrite Hint.
    unfold question_response. rewrite Hv. reflexivity.
  - unfold question_get at 1. simpl questions. rewrite Hid.
    apply (question_get_put d question_id q q' Hq). exact Hid.
  - repeat split; [exact Hv|].
    intros v Hwfv Ev Hnone. simpl. rewrite Hnone, Ev. simpl.
    rewrite Ev, (options_value_dumps v Hwfv) in Hst. congruence.
Qed.

Lemma update_question_merges_witness :
  exists q' d',
    update_question ann 1 (ordered "Happy?" 7) published_db =
      (Jsonify (question_json q' (JList [JStr "Yes"; JStr "No"])) 200, d') /\
    question_get d' 1 = Some q' /\
    Question.id q' = 1 /\
    Question.survey_id q' = 1 /\
    Question.type q' = "text" /\
    Question.text q' = "Happy?" /\
    Question.description q' = EmptyString /\
    Question.required q' = false /\
    Question.order q' = 7 /\
    options_value (Question.options q') = Some (JList [JStr "Yes"; JStr "No"]) /\
    (forall v, wf_json v ->
               Some (json_dumps (JList [JStr "Yes"; JStr "No"])) = Some (json_dumps v) ->
               QuestionData.options (ordered "Happy?" 7) = None ->
               Question.options q'
               = Some (json_dumps (JList [JStr "Yes"; JStr "No"]))).
Proof.
  apply (update_question_merges published_db 1 1 (ordered "Happy?" 7)
           (Question.mk 1 1 "single_choice" "Satisfied?" EmptyString false
              (Some (json_dumps (JList [JStr "Yes"; JStr "No"]))) 0)
           (Survey.mk 1 "Q1 Feedback" EmptyString "active"
                      (monday 9 0) (monday 9 30) 1)
           (JList [JStr "Yes"; JStr "No"])).
  - vm_compute. reflexivity.
  - vm_compute. reflexivity.
  - reflexivity.
  - vm_compute. reflexivity.
  - simpl. exact I.
  - vm_compute. reflexivity.
Defined.

(** C9 fails as stated: emptying the options of the choice question of the
    published survey is answered by 200 and stored, the question still being
    a ['single_choice']. *)
Lemma update_question_validation_counterexample :
  map Question.type (questions published_db) = ["single_choice"]
  /\ status_code (fst (update_question ann 1 clear_options published_db)) = 200
  /\ map Question.type
       (questions (snd (update_question ann 1 clear_options published_db)))
     = ["single_choice"]
  /\ map Question.options
       (questions (snd (update_question ann 1 clear_options published_db)))
     = [Some "[]"].
Proof. vm_compute. repeat split. Qed.

(** * More of the API *)

(** ** Sessions, missing rows and missing keys *)

(** X1. Every API route but the submission of a response answers 401 to a
    caller without a session, before it looks at the URL or the body, and
    writes nothing. *)
Theorem no_session_no_access (a : api) (d : db) :
  login_required a = true -> serve None a d = (unauthorized, d).
Proof.
  destruct a as [req| | |]; [destruct req|..]; intros H;
    try discriminate H; reflexivity.
Qed.

Lemma no_session_no_access_witness :
  serve anonymous (Route (DeleteSurvey 77)) answered_db
  = (unauthorized, answered_db).
Proof. apply no_session_no_access. reflexivity. Defined.



(** X3. A route that answers 400, 401, 403 or 404 has written nothing. *)
Theorem refusals_write_nothing (s : session) (a : api) (d : db) :
  In (status_code (fst (serve s a d))) [400; 401; 403; 404] ->
  snd (serve s a d) = d.
Proof.
  destruct a as [req| | |]; [destruct req|..]; simpl serve;
    unfold create_survey, get_survey, update_survey, delete_survey,
           create_question, update_question, delete_question, submit_response,
           get_surveys, get_dashboard_stats, get_recent_activity,
           question_response;
    repeat match goal with
           | |- context [match ?x with _ => _ end] => destruct x
           end;
    simpl; intros H; try reflexivity;
    repeat (destruct H as [H|H]; try discriminate H); contradiction.
Qed.

Lemma refusals_write_nothing_witness :
  snd (serve anonymous (Route (SubmitResponse 1 yes (monday 8 0))) drafted_db)
  = drafted_db.
Proof.
  apply refusals_write_nothing. vm_compute. left. reflexivity.
Defined.

(** X4. A missing key or a number beyond SQLite's integers is a 500 and no
    write: a survey without ['title'], a question without ['type'] or
    ['text'], a question created or updated with an [order] outside 64
    bits. *)
Theorem bad_body_is_500 (d : db) (caller : Z) :
  (forall data now now',
     SurveyData.title data = None ->
     create_survey (Some caller) data now now' d = (Abort 500, d)) /\
  (forall survey_id survey data,
     survey_get d survey_id = Some survey ->
     Survey.user_id survey = caller ->
     QuestionData.type data = None \/ QuestionData.text data = None \/
     sqlite_int (get_or (QuestionData.order data) 0) = false ->
     create_question (Some caller) survey_id data d = (Abort 500, d)) /\
  (forall question_id q survey data stored,
     question_get d question_id = Some q ->
     question_survey d q = Some survey ->
     Survey.user_id survey = caller ->
     options_value (Question.options q) = Some stored ->
     sqlite_int (get_or (QuestionData.order data) (Question.order q)) = false ->
     update_question (Some caller) question_id data d = (Abort 500, d)).
Proof.
  split; [|split].
  - intros data now now' H. unfold create_survey. rewrite H. reflexivity.
  - intros survey_id survey data Hs Ho H. unfold create_question.
    rewrite Hs, Ho, Z.eqb_refl. simpl.
    destruct (QuestionData.type data), (QuestionData.text data);
      try reflexivity.
    destruct H as [H|[H|H]]; try discriminate H. rewrite H. reflexivity.
  - intros question_id q survey data stored Hq Hs Ho Hst H.
    unfold update_question. rewrite Hq, Hs, Ho, Z.eqb_refl, Hst. simpl.
    rewrite H. reflexivity.
Qed.

Lemma bad_body_is_500_witness :
  create_survey ann SurveyData.empty (monday 8 0) (monday 8 0) published_db
    = (Abort 500, published_db)
  /\ create_question ann 1 (ordered "far" (2 ^ 63)) published_db
     = (Abort 500, published_db)
  /\ update_question ann 1 (ordered "far" (- 2 ^ 63 - 1)) published_db
     = (Abort 500, published_db).
Proof.
  destruct (bad_body_is_500 published_db 1) as (H1 & H2 & H3).
  split; [|split].
  - apply H1. reflexivity.
  - apply (H2 1 (Survey.mk 1 "Q1 Feedback" EmptyString "active"
                           (monday 9 0) (monday 9 30) 1)).
    + vm_compute. reflexivity.
    + reflexivity.
    + right. right. vm_compute. reflexivity.
  - apply (H3 1 (Question.mk 1 1 "single_choice" "Satisfied?" EmptyString false
                   (Some (json_dumps (JList [JStr "Yes"; JStr "No"]))) 0)
              (Survey.mk 1 "Q1 Feedback" EmptyString "active"
                         (monday 9 0) (monday 9 30) 1)
              _ (JList [JStr "Yes"; JStr "No"])).
    + vm_compute. reflexivity.
    + vm_compute. reflexivity.
    + reflexivity.
    + vm_compute. reflexivity.
    + vm_compute. reflexivity.
Defined.

(** ** Creating a survey and opening it to responses *)

Lemma find_app_first {A : Type} (f : A -> bool) l l' x :
  find f l = Some x -> find f (l ++ l')%list = Some x.
Proof.
  induction l as [|y l IH]; simpl; [discriminate|].
  destruct (f y); [trivial | exact IH].
Qed.

Lemma refers_below_next_id d survey_id :
  refers d survey_id -> survey_id < next_id (map Survey.id (surveys d)).
Proof. apply next_id_above. Qed.

Lemma filter_all_false {A : Type} (f : A -> bool) l :
  (forall x, In x l -> f x = false) -> filter f l = [].
Proof.
  induction l as [|a l IH]; simpl; intros H; [reflexivity|].
  rewrite (H a (or_introl eq_refl)). apply IH. intros x Hx. apply H.
  right. exact Hx.
Qed.

(** X5. An authenticated caller who posts a title gets 201 and a new
    survey under a fresh id: a ['draft'] owned by the caller, with no
    question and no response (also when the id was used by a deleted survey
    before), that the caller can read at once, that every other caller is
    forbidden to read, and that does not accept responses yet. *)
Theorem create_survey_starts_empty (d : db) (caller : Z) (data : SurveyData.t)
    (now now' : Datetime.t) (title : string) :
  db_ok d ->
  SurveyData.title data = Some title ->
  exists id body d',
    create_survey (Some caller) data now now' d = (Jsonify body 201, d') /\
    int_field "id" body = Some id /\
    survey_get d id = None /\
    survey_get d' id =
      Some (Survey.mk id title (get_or (SurveyData.description data) EmptyString)
                      "draft" now now' caller) /\
    survey_questions d' id = [] /\
    survey_responses d' id = [] /\
    status_code (fst (get_survey (Some caller) id d')) = 200 /\
    listed_questions (fst (get_survey (Some caller) id d')) = [] /\
    (forall other, other <> caller ->
                   get_survey (Some other) id d' = (forbidden, d')) /\
    (forall s payload t, submit_response s id payload t d' = (not_active, d')).
Proof.
  intros Hok Ht.
  set (id := next_id (map Survey.id (surveys d))).
  set (row := Survey.mk id title (get_or (SurveyData.description data) EmptyString)
                        "draft" now now' caller).
  set (d' := set_surveys d (surveys d ++ [row])%list).
  assert (Hnew : survey_get d id = None) by apply (find_fresh Survey.id).
  assert (Hget : survey_get d' id = Some row).
  { unfold survey_get, d'. simpl. apply find_app_last; [exact Hnew|].
    simpl. apply Z.eqb_refl. }
  assert (Hq : survey_questions d' id = []).
  { unfold survey_questions, d'. simpl. apply filter_all_false. intros q Hin.
    pose proof (ok_question_survey d Hok) as H. rewrite Forall_forall in H.
    pose proof (refers_below_next_id d _ (H q Hin)). apply Z.eqb_neq.
    unfold id. lia. }
  assert (Hr : survey_responses d' id = []).
  { unfold survey_responses, d'. simpl. apply filter_all_false. intros r Hin.
    pose proof (ok_response_survey d Hok) as H. rewrite Forall_forall in H.
    pose proof (refers_below_next_id d _ (H r Hin)). apply Z.eqb_neq.
    unfold id. lia. }
  exists id. eexists. exists d'. split.
  - unfold create_survey. rewrite Ht. reflexivity.
  - split; [reflexivity|]. split; [exact Hnew|]. split; [exact Hget|].
    split; [exact Hq|]. split; [exact Hr|].
    assert (Hg : get_survey (Some caller) id d' =
                 (Jsonify (JDict [
                    ("id", JInt id);
                    ("title", JStr title);
                    ("description",
                     JStr (get_or (SurveyData.description data) EmptyString));
                    ("status", JStr "draft");
                    ("created_at", JStr (Datetime.isoformat now));
                    ("updated_at", JStr (Datetime.isoformat now'));
                    ("questions", JList [])]) 200, d')).
    { unfold get_survey. rewrite Hget. simpl Survey.user_id.
      rewrite Z.eqb_refl. simpl Survey.id. rewrite Hq. reflexivity. }
    rewrite Hg. split; [reflexivity|]. split; [reflexivity|]. split.
    + intros other Hne. unfold get_survey. rewrite Hget. simpl Survey.user_id.
      destruct (Z.eqb_spec caller other); [congruence | reflexivity].
    + intros s payload t. unfold submit_response. rewrite Hget. reflexivity.
Qed.

Lemma create_survey_starts_empty_witness :
  exists id body d',
    create_survey bob feedback (monday 12 0) (monday 12 0) answered_db
      = (Jsonify body 201, d') /\
    int_field "id" body = Some id /\
    survey_get answered_db id = None /\
    survey_get d' id =
      Some (Survey.mk id "Q1 Feedback" EmptyString "draft"
                      (monday 12 0) (monday 12 0) 2) /\
    survey_questions d' id = [] /\
    survey_responses d' id = [] /\
    status_code (fst (get_survey bob id d')) = 200 /\
    listed_questions (fst (get_survey bob id d')) = [] /\
    (forall other, other <> 2 -> get_survey (Some other) id d' = (forbidden, d')) /\
    (forall s payload t, submit_response s id payload t d' = (not_active, d')).
Proof.
  apply (create_survey_starts_empty answered_db 2 feedback (monday 12 0)
           (monday 12 0) "Q1 Feedback").
  - constructor.
    + vm_compute. repeat constructor.
    + vm_compute. repeat constructor.
    + vm_compute. repeat constructor.
    + repeat constructor; eexists; vm_compute; reflexivity.
    + vm_compute. repeat constructor.
    + vm_compute. repeat constructor.
  - reflexivity.
Defined.

(** X6. The status an owner's update supplies decides at once whether the
    survey takes responses: after the update a submission, by anyone, is
    answered by 201 when the status is ['active'] and by the 400 response,
    with nothing stored, when it is any other string. *)
Theorem status_gates_submission (d : db) (owner survey_id : Z)
    (survey : Survey.t) (data : SurveyData.t) (now : Datetime.t) (st : string) :
  survey_get d survey_id = Some survey ->
  Survey.user_id survey = owner ->
  SurveyData.status data = Some st ->
  exists body d',
    update_survey (Some owner) survey_id data now d = (Jsonify body 200, d') /\
    (st = "active" ->
     forall s payload t,
       status_code (fst (submit_response s survey_id payload t d')) = 201) /\
    (st <> "active" ->
     forall s payload t,
       submit_response s survey_id payload t d' = (not_active, d')).
Proof.
  intros Hs Ho Hst.
  destruct (update_survey_accepts d owner survey_id survey data now Hs Ho)
    as (body & E & G).
  eexists; eexists. split; [exact E|]. split.
  - intros -> s payload t. unfold submit_response. rewrite G. simpl.
    rewrite Hst. reflexivity.
  - intros Hne s payload t. unfold submit_response. rewrite G. simpl.
    rewrite Hst. simpl.
    destruct (String.eqb_spec st "active"); [contradiction | reflexivity].
Qed.

Lemma status_gates_submission_witness :
  exists body d',
    update_survey ann 1 (set_status "closed") (monday 11 0) answered_db
      = (Jsonify body 200, d') /\
    ("closed" = "active" ->
     forall s payload t,
       status_code (fst (submit_response s 1 payload t d')) = 201) /\
    ("closed" <> "active" ->
     forall s payload t, submit_response s 1 payload t d' = (not_active, d')).
Proof.
  apply (status_gates_submission answered_db 1 1
           (Survey.mk 1 "Q1 Feedback" EmptyString "active"
                      (monday 9 0) (monday 9 30) 1)
           (set_status "closed") (monday 11 0) "closed").
  - vm_compute. reflexivity.
  - reflexivity.
  - reflexivity.
Defined.

(** ** The listing of surveys and the dashboard numbers *)

Lemma survey_get_in d id survey :
  survey_get d id = Some survey -> In survey (surveys d) /\ Survey.id survey = id.
Proof.
  unfold survey_get. intros H. apply find_some in H. destruct H as [Hin E].
  split; [exact Hin | apply Z.eqb_eq; exact E].
Qed.

Lemma survey_get_unique d survey :
  db_ok d -> In survey (surveys d) -> survey_get d (Survey.id survey) = Some survey.
Proof.
  intros Hok Hin. unfold survey_get.
  destruct (find _ (surveys d)) as [row|] eqn:F.
  - apply find_some in F. destruct F as [Hin' E]. apply Z.eqb_eq in E.
    f_equal. eapply (ascending_unique Survey.id); eauto using ok_surveys.
  - pose proof (find_none _ _ F survey Hin) as Hn. simpl in Hn.
    rewrite Z.eqb_refl in Hn. discriminate.
Qed.

(** X7. [GET /api/surveys] lists a survey exactly when the caller owns it,
    each once and by ascending id, and leaves the database as it is. *)
Theorem get_surveys_lists_own (d : db) (caller : Z) :
  db_ok d ->
  exists entries,
    get_surveys (Some caller) d = (Jsonify (JList entries) 200, d) /\
    map (int_field "id") entries
      = map (fun survey => Some (Survey.id survey)) (user_surveys d caller) /\
    ascending (map Survey.id (user_surveys d caller)) /\
    (forall id, In (Some id) (map (int_field "id") entries) <->
                exists survey, survey_get d id = Some survey /\
                               Survey.user_id survey = caller).
Proof.
  intros Hok. eexists. split; [reflexivity|].
  assert (Hids : map (int_field "id") (map (survey_entry d) (user_surveys d caller))
                 = map (fun survey => Some (Survey.id survey))
                       (user_surveys d caller)).
  { rewrite map_map. apply map_ext. intros survey. reflexivity. }
  split; [exact Hids|]. split.
  - unfold user_surveys. apply ascending_filter. apply (ok_surveys d Hok).
  - intros id. rewrite Hids. rewrite in_map_iff. unfold user_surveys. split.
    + intros (survey & E & Hin). inversion E; subst.
      apply filter_In in Hin. destruct Hin as [Hin Ho]. apply Z.eqb_eq in Ho.
      exists survey. split; [apply survey_get_unique; assumption | exact Ho].
    + intros (survey & Hg & Ho). apply survey_get_in in Hg.
      destruct Hg as [Hin E]. exists survey. split; [congruence|].
      apply filter_In. split; [exact Hin | apply Z.eqb_eq; exact Ho].
Qed.

Lemma get_surveys_lists_own_witness :
  exists entries,
    get_surveys ann answered_db = (Jsonify (JList entries) 200, answered_db) /\
    map (int_field "id") entries
      = map (fun survey => Some (Survey.id survey)) (user_surveys answered_db 1) /\
    ascending (map Survey.id (user_surveys answered_db 1)) /\
    (forall id, In (Some id) (map (int_field "id") entries) <->
                exists survey, survey_get answered_db id = Some survey /\
                               Survey.user_id survey = 1).
Proof.
  apply (get_surveys_lists_own answered_db 1).
  constructor.
  - vm_compute. repeat constructor.
  - vm_compute. repeat constructor.
  - vm_compute. repeat constructor.
  - repeat constructor; eexists; vm_compute; reflexivity.
  - vm_compute. repeat constructor.
  - vm_compute. repeat constructor.
Defined.

(** X8. An accepted submission adds one to the [responses_count] that the
    listing shows for the survey it was made to, and changes neither the
    count of any other survey nor the surveys a caller is shown. *)
Theorem submission_counts_once (d : db) (s : session) (survey_id : Z)
    (payload : json) (now : Datetime.t) (survey : Survey.t) :
  survey_get d survey_id = Some survey ->
  Survey.status survey = "active" ->
  exists body d',
    submit_response s survey_id payload now d = (Jsonify body 201, d') /\
    (forall caller, user_surveys d' caller = user_surveys d caller) /\
    (forall row,
       int_field "responses_count" (survey_entry d' row) =
       Some (Z.of_nat (List.length (survey_responses d (Survey.id row)))
             + (if Survey.id row =? survey_id then 1 else 0))).
Proof.
  intros Hs Ha.
  destruct (submit_active d s survey_id payload now survey Hs Ha) as [E _].
  eexists; eexists. split; [exact E|]. split; [reflexivity|].
  intros row. unfold survey_entry, int_field. simpl dict_get.
  unfold survey_responses. simpl responses. rewrite filter_app, length_app.
  simpl filter. rewrite (Z.eqb_sym (Survey.id row) survey_id).
  destruct (survey_id =? Survey.id row); simpl List.length; f_equal; lia.
Qed.

Lemma submission_counts_once_witness :
  exists body d',
    submit_response bob 1 yes (monday 10 30) answered_db
      = (Jsonify body 201, d') /\
    (forall caller, user_surveys d' caller = user_surveys answered_db caller) /\
    (forall row,
       int_field "responses_count" (survey_entry d' row) =
       Some (Z.of_nat (List.length (survey_responses answered_db (Survey.id row)))
             + (if Survey.id row =? 1 then 1 else 0))).
Proof.
  apply (submission_counts_once answered_db bob 1 yes (monday 10 30)
           (Survey.mk 1 "Q1 Feedback" EmptyString "active"
                      (monday 9 0) (monday 9 30) 1)).
  - vm_compute. reflexivity.
  - reflexivity.
Defined.

Lemma list_sum_zero {A : Type} (l : list A) :
  list_sum (map (fun _ => O) l) = O.
Proof. induction l; simpl; auto. Qed.

Lemma list_sum_plus {A : Type} (f g : A -> nat) l :
  list_sum (map (fun x => (f x + g x)%nat) l)
  = (list_sum (map f l) + list_sum (map g l))%nat.
Proof. induction l as [|a l IH]; simpl; [reflexivity | rewrite IH; lia]. Qed.

Lemma list_sum_indicator {A : Type} (f : A -> bool) l :
  list_sum (map (fun x => if f x then 1%nat else O) l) = List.length (filter f l).
Proof.
  induction l as [|a l IH]; simpl; [reflexivity|].
  destruct (f a); simpl; rewrite IH; reflexivity.
Qed.

Lemma filter_filter_length {A : Type} (f g : A -> bool) l :
  List.length (filter f (filter g l)) = List.length (filter g (filter f l)).
Proof.
  induction l as [|a l IH]; simpl; [reflexivity|].
  destruct (f a) eqn:F, (g a) eqn:G; simpl; rewrite ?F, ?G; simpl; lia.
Qed.

(** Counting the pairs of the join by response or by survey. *)
Lemma join_count d user_id :
  List.length (filter (fun rs => Survey.user_id (snd rs) =? user_id)
                      (response_join_survey d))
  = list_sum (map (fun survey =>
                     List.length (survey_responses d (Survey.id survey)))
                  (user_surveys d user_id)).
Proof.
  unfold response_join_survey, survey_responses, user_surveys.
  induction (responses d) as [|r rs IH]; simpl.
  - rewrite list_sum_zero. reflexivity.
  - rewrite filter_app, length_app, IH.
    rewrite (map_ext
      (fun survey =>
         List.length (if Response.survey_id r =? Survey.id survey
                      then r :: filter (fun r0 => Response.survey_id r0 =? Survey.id survey) rs
                      else filter (fun r0 => Response.survey_id r0 =? Survey.id survey) rs))
      (fun survey =>
         ((if (Survey.id survey =? Response.survey_id r)%Z then 1 else 0)
          + List.length (filter (fun r0 => (Response.survey_id r0 =? Survey.id survey)%Z) rs))%nat)).
    + rewrite list_sum_plus, list_sum_indicator. f_equal.
      rewrite filter_filter_length.
      induction (filter (fun survey => Survey.id survey =? Response.survey_id r)
                        (surveys d)) as [|a l IHl]; simpl; [reflexivity|].
      destruct (Survey.user_id a =? user_id); simpl; rewrite IHl; reflexivity.
    + intros survey. rewrite (Z.eqb_sym (Survey.id survey)).
      destruct (Response.survey_id r =? Survey.id survey); reflexivity.
Qed.

Lemma sum_counts_entries d l :
  sum_counts (map (survey_entry d) l)
  = Z.of_nat (list_sum (map (fun survey =>
                               List.length (survey_responses d (Survey.id survey)))
                            l)).
Proof.
  induction l as [|a l IH]; [reflexivity|].
  change (sum_counts (map (survey_entry d) (a :: l))) with
    (Z.of_nat (List.length (survey_responses d (Survey.id a)))
     + sum_counts (map (survey_entry d) l)).
  rewrite IH. simpl list_sum. lia.
Qed.

(** X9. The dashboard agrees with the listing: its ['surveys'] is the
    number of surveys [GET /api/surveys] lists for the caller and its
    ['responses'] is the sum of their [responses_count]; ['completion'] and
    ['active'] are the constants 74 and 12 whatever the database holds. *)
Theorem dashboard_agrees_with_listing (d : db) (caller : Z) :
  let stats := body_of (fst (get_dashboard_stats (Some caller) d)) in
  let entries := listed (fst (get_surveys (Some caller) d)) in
  int_field "surveys" stats = Some (Z.of_nat (List.length entries)) /\
  int_field "responses" stats = Some (sum_counts entries) /\
  int_field "completion" stats = Some 74 /\
  int_field "active" stats = Some 12 /\
  snd (get_dashboard_stats (Some caller) d) = d.
Proof.
  simpl. rewrite length_map, join_count, sum_counts_entries. repeat split.
Qed.

(** ** The recent activity *)

Lemma lex_ltb_asym a : forall b,
  Datetime.lex_ltb a b = true -> Datetime.lex_ltb b a = false.
Proof.
  induction a as [|x a IH]; intros [|y b]; simpl; try discriminate.
  intros H. apply orb_true_iff in H. apply orb_false_iff.
  destruct H as [H|H].
  - apply Z.ltb_lt in H. split; [apply Z.ltb_ge; lia|].
    apply andb_false_iff. left. apply Z.eqb_neq. lia.
  - apply andb_true_iff in H. destruct H as [E H]. apply Z.eqb_eq in E.
    subst y. split; [apply Z.ltb_irrefl|].
    apply andb_false_iff. right. apply IH. exact H.
Qed.

Lemma lex_ltb_between a : forall b c,
  List.length a = List.length b -> List.length b = List.length c ->
  Datetime.lex_ltb a c = true ->
  Datetime.lex_ltb a b = true \/ Datetime.lex_ltb b c = true.
Proof.
  induction a as [|x a IH]; intros [|y b] [|z c]; simpl; try discriminate.
  intros Hab Hbc H. apply orb_true_iff in H.
  destruct (Z.lt_trichotomy x y) as [Hxy|[Hxy|Hxy]].
  - left. apply orb_true_iff. left. apply Z.ltb_lt. exact Hxy.
  - subst y. destruct H as [H|H].
    + right. apply orb_true_iff. left. exact H.
    + apply andb_true_iff in H. destruct H as [E H]. apply Z.eqb_eq in E.
      subst z. rewrite Z.eqb_refl, Z.ltb_irrefl. simpl.
      apply IH; [lia | lia | exact H].
  - right. apply orb_true_iff. left. apply Z.ltb_lt.
    destruct H as [H|H]; [apply Z.ltb_lt in H; lia|].
    apply andb_true_iff in H. destruct H as [E _]. apply Z.eqb_eq in E. lia.
Qed.

Lemma not_older_trans a b c : not_older a b -> not_older b c -> not_older a c.
Proof.
  unfold not_older, Datetime.ltb. intros Hab Hbc.
  destruct (Datetime.lex_ltb (Datetime.fields (Survey.created_at a))
                             (Datetime.fields (Survey.created_at c))) eqn:E;
    [|reflexivity].
  destruct (lex_ltb_between (Datetime.fields (Survey.created_at a))
              (Datetime.fields (Survey.created_at b))
              (Datetime.fields (Survey.created_at c)) eq_refl eq_refl E);
    congruence.
Qed.

Lemma insert_desc_perm x l : Permutation (x :: l) (insert_desc x l).
Proof.
  induction l as [|y l IH]; simpl; [apply Permutation_refl|].
  destruct (Datetime.ltb _ _); [|apply Permutation_refl].
  eapply Permutation_trans; [apply perm_swap|]. apply perm_skip. exact IH.
Qed.

Lemma newest_first_perm l : Permutation l (newest_first l).
Proof.
  induction l as [|x l IH]; simpl; [constructor|].
  eapply Permutation_trans; [apply perm_skip; exact IH|].
  apply insert_desc_perm.
Qed.

Lemma insert_desc_sorted x l :
  StronglySorted not_older l -> StronglySorted not_older (insert_desc x l).
Proof.
  induction l as [|y l IH]; simpl; intros Hs; [repeat constructor|].
  inversion Hs as [|? ? Hs' Hy]; subst.
  destruct (Datetime.ltb (Survey.created_at x) (Survey.created_at y)) eqn:E.
  - constructor; [apply IH; exact Hs'|].
    rewrite Forall_forall in *. intros z Hz.
    apply (Permutation_in _ (Permutation_sym (insert_desc_perm x l))) in Hz.
    destruct Hz as [<-|Hz]; [|apply Hy; exact Hz].
    unfold not_older, Datetime.ltb in *. apply lex_ltb_asym. exact E.
  - constructor; [exact Hs|]. constructor; [exact E|].
    rewrite Forall_forall in *. intros z Hz.
    apply (not_older_trans x y z); [exact E | apply Hy; exact Hz].
Qed.

Lemma newest_first_sorted l : StronglySorted not_older (newest_first l).
Proof.
  induction l as [|x l IH]; simpl; [constructor|].
  apply insert_desc_sorted. exact IH.
Qed.

Lemma sorted_split {A : Type} (R : A -> A -> Prop) l1 : forall l2,
  StronglySorted R (l1 ++ l2)%list ->
  StronglySorted R l1 /\ forall a b, In a l1 -> In b l2 -> R a b.
Proof.
  induction l1 as [|x l1 IH]; simpl; intros l2 H.
  - split; [constructor | intros a b []].
  - inversion H as [|? ? Hs Hx]; subst. destruct (IH l2 Hs) as [H1 H2].
    apply Forall_app in Hx. destruct Hx as [Hx1 Hx2]. split.
    + constructor; assumption.
    + intros a b [<-|Ha] Hb; [|apply H2; assumption].
      rewrite Forall_forall in Hx2. apply Hx2. exact Hb.
Qed.

(** X10. The activity route answers with at most five entries, one for
    each of the caller's most recently created surveys, the newest first:
    every survey behind an entry is the caller's, and no survey of the
    caller that is left out was created after one that is shown. *)
Theorem recent_activity_newest_five (d : db) (caller : Z) :
  get_recent_activity (Some caller) d =
    (Jsonify (JList (map activity_entry (recent_surveys d caller))) 200, d) /\
  (List.length (recent_surveys d caller) <= 5)%nat /\
  StronglySorted not_older (recent_surveys d caller) /\
  exists left_out,
    Permutation (recent_surveys d caller ++ left_out)%list (user_surveys d caller) /\
    (left_out <> [] -> List.length (recent_surveys d caller) = 5%nat) /\
    (forall shown hidden,
       In shown (recent_surveys d caller) -> In hidden left_out ->
       Survey.user_id shown = caller /\ not_older shown hidden).
Proof.
  split; [reflexivity|]. unfold recent_surveys.
  set (sorted := newest_first (user_surveys d caller)).
  assert (Hs : StronglySorted not_older
                 (firstn 5 sorted ++ skipn 5 sorted)%list)
    by (rewrite firstn_skipn; apply newest_first_sorted).
  destruct (sorted_split _ _ _ Hs) as [H1 H2].
  split; [apply firstn_le_length|]. split; [exact H1|].
  exists (skipn 5 sorted). split; [|split].
  - rewrite firstn_skipn. apply Permutation_sym. apply newest_first_perm.
  - intros Hne. apply firstn_length_le.
    destruct (Nat.le_gt_cases 5 (List.length sorted)) as [Hle|Hgt]; [exact Hle|].
    exfalso. apply Hne. apply skipn_all2. lia.
  - intros shown hidden Hin Hout. split; [|apply H2; assumption].
    assert (Hu : In shown (user_surveys d caller)).
    { apply (Permutation_in _ (Permutation_sym (newest_first_perm _))).
      fold sorted. rewrite <- (firstn_skipn 5 sorted).
      apply in_or_app. left. exact Hin. }
    unfold user_surveys in Hu. apply filter_In in Hu. apply Z.eqb_eq. apply Hu.
Qed.

Example activity_sample :
  fst (get_recent_activity ann answered_db)
  = Jsonify (JList [JDict [
      ("type", JStr "survey");
      ("title", JStr ("Created " ++ String Dumps.quote
                        ("Q1 Feedback" ++ String Dumps.quote EmptyString)));
      ("time", JStr "Jan 15, 2024")]]) 200.
Proof. vm_compute. reflexivity. Qed.

(** ** What a request leaves alone *)

Lemma find_put_other {A : Type} (key : A -> Z) id id' row' l :
  id <> id' -> key row' = id' ->
  find (fun row => key row =? id)
       (map (fun row => if key row =? id' then row' else row) l)
  = find (fun row => key row =? id) l.
Proof.
  intros Hne E. induction l as [|a l IH]; simpl; [reflexivity|].
  destruct (Z.eqb_spec (key a) id') as [Ea|Ea].
  - rewrite E. destruct (Z.eqb_spec id' id); [congruence|].
    destruct (Z.eqb_spec (key a) id); [congruence | exact IH].
  - destruct (key a =? id); [reflexivity | exact IH].
Qed.

Lemma find_filter_other {A : Type} (key : A -> Z) id id' l :
  id <> id' ->
  find (fun row => key row =? id) (filter (fun row => negb (key row =? id')) l)
  = find (fun row => key row =? id) l.
Proof.
  intros Hne. induction l as [|a l IH]; simpl; [reflexivity|].
  destruct (Z.eqb_spec (key a) id') as [Ea|Ea]; simpl.
  - destruct (Z.eqb_spec (key a) id); [congruence | exact IH].
  - destruct (key a =? id); [reflexivity | exact IH].
Qed.

(** The three ways a route leaves the table of surveys. *)
Lemma serve_surveys s a d :
  surveys (snd (serve s a d)) = surveys d
  \/ (exists row, surveys (snd (serve s a d)) = (surveys d ++ [row])%list)
  \/ (exists id survey,
        survey_get d id = Some survey /\ s = Some (Survey.user_id survey) /\
        ((exists row', Survey.id row' = id /\
                       Survey.user_id row' = Survey.user_id survey /\
                       Survey.created_at row' = Survey.created_at survey /\
                       surveys (snd (serve s a d)) = survey_put id row' (surveys d))
         \/ (surveys (snd (serve s a d))
               = filter (fun row => negb (Survey.id row =? id)) (surveys d) /\
             questions (snd (serve s a d))
               = filter (fun q => negb (Question.survey_id q =? id)) (questions d)))).
Proof.
  destruct a as [req| | |]; [destruct req|..]; simpl serve;
    try (left; unfold get_survey, get_surveys, get_dashboard_stats,
                      get_recent_activity, create_question, update_question,
                      delete_question, submit_response, question_response;
         repeat match goal with
                | |- context [match ?x with _ => _ end] => destruct x
                end; reflexivity).
  - unfold create_survey. destruct s; [|left; reflexivity].
    destruct (SurveyData.title data); [|left; reflexivity].
    right. left. eexists. reflexivity.
  - unfold update_survey. destruct s as [caller|]; [|left; reflexivity].
    destruct (survey_get d survey_id) as [survey|] eqn:G; [|left; reflexivity].
    destruct (Z.eqb_spec (Survey.user_id survey) caller) as [E|E];
      [|left; reflexivity].
    right. right. exists survey_id, survey. rewrite E. split; [exact G|].
    split; [reflexivity|]. left. simpl. rewrite (survey_get_id _ _ _ G).
    refine (ex_intro _ _ (conj _ (conj _ (conj _ eq_refl)))); simpl;
      first [reflexivity | exact E].
  - unfold delete_survey. destruct s as [caller|]; [|left; reflexivity].
    destruct (survey_get d survey_id) as [survey|] eqn:G; [|left; reflexivity].
    destruct (Z.eqb_spec (Survey.user_id survey) caller) as [E|E];
      [|left; reflexivity].
    simpl. destruct (survey_responses d (Survey.id survey)); [|left; reflexivity].
    right. right. exists survey_id, survey. rewrite E. split; [exact G|].
    split; [reflexivity|]. right. simpl.
    rewrite (survey_get_id _ _ _ G). split; reflexivity.
Qed.

(** X11. Through every request, a survey that stays in the table keeps its
    id, its owner and its creation time. *)
Theorem owner_never_changes (s : session) (a : api) (d : db) (id : Z)
    (survey survey' : Survey.t) :
  survey_get d id = Some survey ->
  survey_get (snd (serve s a d)) id = Some survey' ->
  Survey.id survey' = Survey.id survey /\
  Survey.user_id survey' = Survey.user_id survey /\
  Survey.created_at survey' = Survey.created_at survey.
Proof.
  intros Hg Hg'. unfold survey_get in Hg'.
  destruct (serve_surveys s a d) as
    [E|[[row E]|(id0 & sv & G & _ & [(row' & Hid & Hu & Hc & E)|[E _]])]];
    rewrite E in Hg'.
  - unfold survey_get in Hg. rewrite Hg in Hg'. inversion Hg'. auto.
  - rewrite (find_app_first _ _ _ _ Hg) in Hg'. inversion Hg'. auto.
  - destruct (Z.eq_dec id id0) as [->|Hne].
    + rewrite (survey_get_put d id0 sv row' G Hid) in Hg'.
      inversion Hg'; subst. rewrite G in Hg. inversion Hg; subst.
      rewrite (survey_get_id _ _ _ G). auto.
    + unfold survey_put in Hg'.
      rewrite (find_put_other Survey.id id id0 row' _ Hne Hid) in Hg'.
      unfold survey_get in Hg. rewrite Hg in Hg'. inversion Hg'. auto.
  - destruct (Z.eq_dec id id0) as [->|Hne].
    + rewrite (find_filter_out Survey.id) in Hg'; [discriminate|].
      intros row ->. rewrite Z.eqb_refl. reflexivity.
    + rewrite (find_filter_other Survey.id id id0 _ Hne) in Hg'.
      unfold survey_get in Hg. rewrite Hg in Hg'. inversion Hg'. auto.
Qed.

Lemma owner_never_changes_witness :
  Survey.id (Survey.mk 1 "Q1 Feedback" EmptyString "archived"
                       (monday 9 0) (monday 13 0) 1) = 1 /\
  Survey.user_id (Survey.mk 1 "Q1 Feedback" EmptyString "archived"
                            (monday 9 0) (monday 13 0) 1) = 1 /\
  Survey.created_at (Survey.mk 1 "Q1 Feedback" EmptyString "archived"
                               (monday 9 0) (monday 13 0) 1) = monday 9 0.
Proof.
  apply (owner_never_changes ann
           (Route (UpdateSurvey 1 (set_status "archived") (monday 13 0)))
           answered_db 1
           (Survey.mk 1 "Q1 Feedback" EmptyString "active"
                      (monday 9 0) (monday 9 30) 1)
           (Survey.mk 1 "Q1 Feedback" EmptyString "archived"
                      (monday 9 0) (monday 13 0) 1)).
  - vm_compute. reflexivity.
  - vm_compute. reflexivity.
Defined.

Lemma filter_filter_same {A : Type} (f g : A -> bool) l :
  (forall a, In a l -> f a = true -> g a = true) ->
  filter f (filter g l) = filter f l.
Proof.
  induction l as [|a l IH]; simpl; intros H; [reflexivity|].
  assert (IH' : filter f (filter g l) = filter f l)
    by (apply IH; intros b Hb; apply H; right; exact Hb).
  destruct (f a) eqn:F.
  - rewrite (H a (or_introl eq_refl) F). simpl. rewrite F, IH'. reflexivity.
  - destruct (g a); simpl; rewrite ?F; exact IH'.
Qed.

Lemma filter_map_same {A : Type} (f : A -> bool) (g : A -> A) l :
  (forall a, In a l -> (g a = a \/ (f a = false /\ f (g a) = false))) ->
  filter f (map g l) = filter f l.
Proof.
  induction l as [|a l IH]; simpl; intros H; [reflexivity|].
  assert (IH' : filter f (map g l) = filter f l)
    by (apply IH; intros b Hb; apply H; right; exact Hb).
  destruct (H a (or_introl eq_refl)) as [E|[F1 F2]].
  - rewrite E, IH'. reflexivity.
  - rewrite F1, F2. exact IH'.
Qed.

Lemma question_get_in d id q :
  question_get d id = Some q -> In q (questions d) /\ Question.id q = id.
Proof.
  unfold question_get. intros H. apply find_some in H. destruct H as [Hin E].
  split; [exact Hin | apply Z.eqb_eq; exact E].
Qed.

(** The questions of a survey after a request of somebody else. *)
Lemma stranger_keeps_questions s a d id survey :
  db_ok d ->
  survey_get d id = Some survey ->
  s <> Some (Survey.user_id survey) ->
  survey_questions (snd (serve s a d)) id = survey_questions d id.
Proof.
  intros Hok Hg Hs.
  assert (Hother : forall id' sv caller,
            survey_get d id' = Some sv -> s = Some caller ->
            negb (Survey.user_id sv =? caller) = false -> id <> id').
  { intros id' sv caller G -> Hb Eid. subst id'. rewrite Hg in G.
    inversion G; subst. apply negb_false_iff, Z.eqb_eq in Hb.
    apply Hs. congruence. }
  destruct a as [req| | |]; [destruct req|..]; simpl serve;
    try (unfold create_survey, get_survey, update_survey, get_surveys,
                get_dashboard_stats, get_recent_activity, submit_response;
         repeat match goal with
                | |- context [match ?x with _ => _ end] => destruct x
                end; reflexivity).
  - unfold delete_survey. destruct s as [caller|]; [|reflexivity].
    destruct (survey_get d survey_id) as [sv|] eqn:G; [|reflexivity].
    destruct (negb _) eqn:Hb; [reflexivity|].
    destruct (survey_responses d (Survey.id sv)); [|reflexivity].
    pose proof (Hother _ _ _ G eq_refl Hb) as Hne.
    unfold survey_questions. simpl. apply filter_filter_same.
    intros q _ Hq. apply Z.eqb_eq in Hq. apply negb_true_iff, Z.eqb_neq.
    rewrite (survey_get_id _ _ _ G). congruence.
  - unfold create_question. destruct s as [caller|]; [|reflexivity].
    destruct (survey_get d survey_id) as [sv|] eqn:G; [|reflexivity].
    destruct (negb _) eqn:Hb; [reflexivity|].
    destruct (QuestionData.type data); [|reflexivity].
    destruct (QuestionData.text data); [|reflexivity].
    destruct (sqlite_int _); [|reflexivity].
    pose proof (Hother _ _ _ G eq_refl Hb) as Hne.
    rewrite question_response_db. unfold survey_questions. simpl.
    rewrite filter_app. simpl.
    destruct (Z.eqb_spec survey_id id); [congruence|]. apply List.app_nil_r.
  - unfold update_question. destruct s as [caller|]; [|reflexivity].
    destruct (question_get d question_id) as [q|] eqn:Q; [|reflexivity].
    unfold question_survey.
    destruct (survey_get d (Question.survey_id q)) as [sv|] eqn:G; [|reflexivity].
    destruct (negb _) eqn:Hb; [reflexivity|].
    destruct (options_value (Question.options q)); [|reflexivity].
    destruct (sqlite_int _); [|reflexivity].
    pose proof (Hother _ _ _ G eq_refl Hb) as Hne.
    rewrite question_response_db. unfold survey_questions, question_put. simpl.
    apply filter_map_same. intros row Hin.
    destruct (Z.eqb_spec (Question.id row) (Question.id q)) as [E|E];
      [|left; reflexivity].
    right. apply question_get_in in Q. destruct Q as [Hq _].
    assert (row = q)
      by (eapply (ascending_unique Question.id); eauto using ok_questions).
    subst row. simpl. split; apply Z.eqb_neq; congruence.
  - unfold delete_question. destruct s as [caller|]; [|reflexivity].
    destruct (question_get d question_id) as [q|] eqn:Q; [|reflexivity].
    unfold question_survey.
    destruct (survey_get d (Question.survey_id q)) as [sv|] eqn:G; [|reflexivity].
    destruct (negb _) eqn:Hb; [reflexivity|].
    pose proof (Hother _ _ _ G eq_refl Hb) as Hne.
    unfold survey_questions. simpl. apply filter_filter_same.
    intros row Hin Hrow. apply Z.eqb_eq in Hrow. apply negb_true_iff, Z.eqb_neq.
    intros E. apply question_get_in in Q. destruct Q as [Hq _].
    assert (row = q)
      by (eapply (ascending_unique Question.id); eauto using ok_questions).
    subst row. congruence.
Qed.

(** X12. No request touches what belongs to somebody else: whatever a
    caller who is not the owner of a survey sends, to whatever route, the
    survey is stored afterwards as it was before and so is the list of its
    questions. *)
Theorem strangers_change_nothing (s : session) (a : api) (d : db) (id : Z)
    (survey : Survey.t) :
  db_ok d ->
  survey_get d id = Some survey ->
  s <> Some (Survey.user_id survey) ->
  survey_get (snd (serve s a d)) id = Some survey /\
  survey_questions (snd (serve s a d)) id = survey_questions d id.
Proof.
  intros Hok Hg Hs. split; [|apply (stranger_keeps_questions s a d id survey);
                             assumption].
  unfold survey_get.
  destruct (serve_surveys s a d) as
    [E|[[row E]|(id0 & sv & G & Hsv & [(row' & Hid & _ & _ & E)|[E _]])]];
    rewrite E.
  - exact Hg.
  - apply find_app_first. exact Hg.
  - assert (Hne : id <> id0)
      by (intros ->; rewrite Hg in G; inversion G; subst; contradiction).
    unfold survey_put. rewrite (find_put_other Survey.id id id0 row' _ Hne Hid).
    exact Hg.
  - assert (Hne : id <> id0)
      by (intros ->; rewrite Hg in G; inversion G; subst; contradiction).
    rewrite (find_filter_other Survey.id id id0 _ Hne). exact Hg.
Qed.

Lemma strangers_change_nothing_witness :
  survey_get
    (snd (serve bob (Route (DeleteQuestion 1)) shuffled_db)) 1
    = Some (Survey.mk 1 "Q1 Feedback" EmptyString "draft"
                      (monday 9 0) (monday 9 0) 1)
  /\ survey_questions (snd (serve bob (Route (DeleteQuestion 1)) shuffled_db)) 1
     = survey_questions shuffled_db 1.
Proof.
  apply (strangers_change_nothing bob (Route (DeleteQuestion 1)) shuffled_db 1).
  - constructor.
    + vm_compute. repeat constructor.
    + vm_compute. repeat constructor.
    + vm_compute. repeat constructor.
    + repeat constructor; eexists; vm_compute; reflexivity.
    + vm_compute. repeat constructor.
    + vm_compute. repeat constructor.
  - vm_compute. reflexivity.
  - simpl. discriminate.
Defined.

(** X13. Responses are only ever added: every request leaves the stored
    responses in place, unchanged and in order, followed by at most one new
    response, and a new one comes only with the 201 of a submission. *)
Theorem responses_append_only (s : session) (a : api) (d : db) :
  responses (snd (serve s a d)) = responses d
  \/ exists r survey_id payload now,
       a = Route (SubmitResponse survey_id payload now) /\
       status_code (fst (serve s a d)) = 201 /\
       Response.survey_id r = survey_id /\
       responses (snd (serve s a d)) = (responses d ++ [r])%list.
Proof.
  destruct a as [req| | |]; [destruct req|..]; simpl serve;
    try (left; unfold create_survey, get_survey, update_survey, delete_survey,
                      create_question, update_question, delete_question,
                      get_surveys, get_dashboard_stats, get_recent_activity,
                      question_response;
         repeat match goal with
                | |- context [match ?x with _ => _ end] => destruct x
                end; reflexivity).
  unfold submit_response.
  destruct (survey_get d survey_id); [|left; reflexivity].
  destruct (negb _); [left; reflexivity|].
  right.
  exists (Response.mk (next_id (map Response.id (responses d)))
                      survey_id s (json_dumps data) now), survey_id, data, now.
  repeat split.
Qed.

(** ** Invariants of every database the API builds *)

Lemma serve_ok s a d : wf_api a -> db_ok d -> db_ok (snd (serve s a d)).
Proof.
  intros Hwf Hok. destruct a as [req| | |]; simpl.
  - apply handle_ok; assumption.
  - unfold get_surveys. destruct s; exact Hok.
  - unfold get_dashboard_stats. destruct s; exact Hok.
  - unfold get_recent_activity. destruct s; exact Hok.
Qed.

(** X14. Whatever requests are served, starting from the empty database,
    each table keeps its ids distinct and ascending, every question and
    every response refers to a survey that is stored, and the options of
    every question are a JSON text that decodes. *)
Theorem api_keeps_invariants (calls : list (session * api)) :
  Forall (fun call => wf_api (snd call)) calls ->
  db_ok (serve_all calls empty_db).
Proof.
  intros Hwf.
  assert (G : forall d, db_ok d -> db_ok (serve_all calls d)).
  { induction calls as [|[s a] calls IH]; intros d Hok; simpl; [exact Hok|].
    inversion Hwf; subst. apply IH; [assumption|].
    apply serve_ok; assumption. }
  apply G. exact empty_db_ok.
Qed.

Lemma api_keeps_invariants_witness :
  db_ok (serve_all
           [(ann, Route (CreateSurvey feedback (monday 9 0) (monday 9 0)));
            (ann, Route (CreateQuestion 1 satisfied));
            (ann, Route (UpdateSurvey 1 (set_status "active") (monday 9 30)));
            (anonymous, Route (SubmitResponse 1 yes (monday 10 0)));
            (ann, Route (DeleteSurvey 1));
            (bob, GetSurveys)] empty_db).
Proof.
  apply api_keeps_invariants.
  repeat constructor; simpl; repeat constructor; intros [].
Defined.

(** ** Deleting a question *)

Lemma ascending_around {A : Type} (key : A -> Z) l1 x l2 :
  ascending (map key (l1 ++ x :: l2)%list) ->
  (forall a, In a l1 -> key a <> key x) /\ (forall a, In a l2 -> key a <> key x).
Proof.
  unfold ascending. rewrite map_app. simpl. intros H.
  destruct (sorted_split _ _ _ H) as [_ H1]. split.
  - intros a Ha. assert (key a < key x); [|lia].
    apply H1; [apply in_map; exact Ha | left; reflexivity].
  - intros a Ha. assert (Hs : StronglySorted Z.lt (key x :: map key l2)).
    { clear -H. induction (map key l1) as [|b l IH]; simpl in H; [exact H|].
      inversion H; subst. apply IH. assumption. }
    inversion Hs as [|? ? _ Hx]; subst. rewrite Forall_forall in Hx.
    pose proof (Hx _ (in_map key l2 a Ha)). lia.
Qed.

Lemma filter_all_true {A : Type} (f : A -> bool) l :
  (forall x, In x l -> f x = true) -> filter f l = l.
Proof.
  induction l as [|a l IH]; simpl; intros H; [reflexivity|].
  rewrite (H a (or_introl eq_refl)). f_equal. apply IH. intros x Hx. apply H.
  right. exact Hx.
Qed.

(** X15. The owner's [DELETE] of a question is answered by 204 and takes
    exactly that row out of the table: the questions before and after it
    stay, in their order, surveys and responses are not touched (answers
    already given to the question included), the id is not found any more
    and a second [DELETE] is answered by 404. *)
Theorem delete_question_removes_one (d : db) (caller question_id : Z)
    (q : Question.t) (survey : Survey.t) :
  db_ok d ->
  question_get d question_id = Some q ->
  question_survey d q = Some survey ->
  Survey.user_id survey = caller ->
  exists d' before after,
    delete_question (Some caller) question_id d = (Text EmptyString 204, d') /\
    questions d = (before ++ q :: after)%list /\
    questions d' = (before ++ after)%list /\
    surveys d' = surveys d /\
    responses d' = responses d /\
    question_get d' question_id = None /\
    delete_question (Some caller) question_id d' = (Abort 404, d').
Proof.
  intros Hok Hq Hs Ho.
  destruct (question_get_in _ _ _ Hq) as [Hin Hid].
  destruct (in_split _ _ Hin) as (before & after & Hsplit).
  pose proof (ok_questions d Hok) as Hasc. rewrite Hsplit in Hasc.
  destruct (ascending_around Question.id _ _ _ Hasc) as [Hb Ha].
  assert (Hf : filter (fun row => negb (Question.id row =? Question.id q))
                      (questions d) = (before ++ after)%list).
  { rewrite Hsplit, filter_app. simpl. rewrite Z.eqb_refl. simpl.
    rewrite !filter_all_true; [reflexivity | |];
      intros x Hx; apply negb_true_iff, Z.eqb_neq; auto. }
  assert (Hgone : find (fun row => Question.id row =? question_id)
                       (before ++ after)%list = None).
  { rewrite <- Hf. apply (find_filter_out Question.id).
    intros row E. rewrite E, Hid, Z.eqb_refl. reflexivity. }
  exists (set_questions d (before ++ after)%list), before, after.
  split; [|split; [exact Hsplit|]].
  - unfold delete_question. rewrite Hq, Hs, Ho, Z.eqb_refl. simpl.
    rewrite Hf. reflexivity.
  - repeat split; [exact Hgone|].
    unfold delete_question, question_get. simpl. rewrite Hgone. reflexivity.
Qed.

Lemma delete_question_removes_one_witness :
  exists d' before after,
    delete_question ann 1 shuffled_db = (Text EmptyString 204, d') /\
    questions shuffled_db
      = (before ++ Question.mk 1 1 "text" "second" EmptyString false
                               (Some "[]") 5 :: after)%list /\
    questions d' = (before ++ after)%list /\
    surveys d' = surveys shuffled_db /\
    responses d' = responses shuffled_db /\
    question_get d' 1 = None /\
    delete_question ann 1 d' = (Abort 404, d').
Proof.
  apply (delete_question_removes_one shuffled_db 1 1
           (Question.mk 1 1 "text" "second" EmptyString false (Some "[]") 5)
           (Survey.mk 1 "Q1 Feedback" EmptyString "draft"
                      (monday 9 0) (monday 9 0) 1)).
  - constructor.
    + vm_compute. repeat constructor.
    + vm_compute. repeat constructor.
    + vm_compute. repeat constructor.
    + repeat constructor; eexists; vm_compute; reflexivity.
    + vm_compute. repeat constructor.
    + vm_compute. repeat constructor.
  - vm_compute. reflexivity.
  - vm_compute. reflexivity.
  - reflexivity.
Defined.

(** ** Options through the store *)

Lemma questions_data_app l1 : forall l2 js1 js2,
  questions_data l1 = Some js1 -> questions_data l2 = Some js2 ->
  questions_data (l1 ++ l2)%list = Some (js1 ++ js2)%list.
Proof.
  induction l1 as [|q l1 IH]; simpl; intros l2 js1 js2 H1 H2.
  - inversion H1. exact H2.
  - destruct (q_data q) as [j|]; [|discriminate].
    destruct (questions_data l1) as [js|]; [|discriminate].
    inversion H1; subst. rewrite (IH l2 js js2 eq_refl H2). reflexivity.
Qed.

(** X16. The options a question is created with come back from the store
    as they went in: the owner's next [GET] of the survey lists the
    questions it listed before, followed by the new one with its [type],
    its [text] and an ['options'] equal to the value posted, element for
    element and in the same order ([[]] when the body had none). *)
Theorem options_survive_the_store (d : db) (caller survey_id : Z)
    (data : QuestionData.t) (survey : Survey.t) (type text : string) :
  db_ok d ->
  survey_get d survey_id = Some survey ->
  Survey.user_id survey = caller ->
  QuestionData.type data = Some type ->
  QuestionData.text data = Some text ->
  wf_request (CreateQuestion survey_id data) ->
  sqlite_int (get_or (QuestionData.order data) 0) = true ->
  exists entry,
    listed_questions
      (fst (get_survey (Some caller) survey_id
              (snd (create_question (Some caller) survey_id data d))))
    = (listed_questions (fst (get_survey (Some caller) survey_id d))
       ++ [entry])%list /\
    json_field "type" entry = Some (JStr type) /\
    json_field "text" entry = Some (JStr text) /\
    json_field "options" entry
      = Some (get_or (QuestionData.options data) (JList [])).
Proof.
  intros Hok Hs Ho Hty Htx Hwf Hint.
  pose proof (survey_get_id _ _ _ Hs) as Hid.
  destruct (create_question_accepts d caller survey_id data survey type text
              Hs Ho Hty Htx Hwf Hint) as [E Hv].
  rewrite E. simpl snd.
  set (q := Question.mk _ _ _ _ _ _ _ _) in *.
  assert (Hdec : Forall decodable (survey_questions d survey_id)).
  { unfold survey_questions. apply Forall_filter. apply (ok_options d Hok). }
  destruct (questions_data_decodable _ Hdec) as [js Ejs].
  assert (Hq : q_data q = Some (JDict [
                 ("id", JInt (Question.id q));
                 ("type", JStr type);
                 ("text", JStr text);
                 ("description", JStr (Question.description q));
                 ("required", JBool (Question.required q));
                 ("order", JInt (Question.order q));
                 ("options", get_or (QuestionData.options data) (JList []))])).
  { unfold q_data. unfold options_value in Hv.
    destruct (truthy (Question.options q)) eqn:T.
    - rewrite Hv. reflexivity.
    - exfalso. unfold q in T. cbn [Question.options] in T.
      rewrite truthy_dumps in T. discriminate. }
  eexists. split; [|split; [|split]].
  - unfold get_survey.
    change (survey_get (set_questions d (questions d ++ [q])%list) survey_id)
      with (survey_get d survey_id).
    rewrite Hs, Ho, Z.eqb_refl, Hid. simpl negb. cbv iota.
    rewrite (survey_questions_snoc d survey_id q eq_refl).
    rewrite (questions_data_app _ [q] js _ Ejs
               ltac:(simpl; rewrite Hq; reflexivity)).
    rewrite Ejs. simpl. reflexivity.
  - reflexivity.
  - reflexivity.
  - reflexivity.
Qed.

Lemma options_survive_the_store_witness :
  exists entry,
    listed_questions
      (fst (get_survey ann 1 (snd (create_question ann 1 satisfied shuffled_db))))
    = (listed_questions (fst (get_survey ann 1 shuffled_db)) ++ [entry])%list /\
    json_field "type" entry = Some (JStr "single_choice") /\
    json_field "text" entry = Some (JStr "Satisfied?") /\
    json_field "options" entry = Some (JList [JStr "Yes"; JStr "No"]).
Proof.
  apply (options_survive_the_store shuffled_db 1 1 satisfied
           (Survey.mk 1 "Q1 Feedback" EmptyString "draft"
                      (monday 9 0) (monday 9 0) 1)
           "single_choice" "Satisfied?").
  - constructor.
    + vm_compute. repeat constructor.
    + vm_compute. repeat constructor.
    + vm_compute. repeat constructor.
    + repeat constructor; eexists; vm_compute; reflexivity.
    + vm_compute. repeat constructor.
    + vm_compute. repeat constructor.
  - vm_compute. reflexivity.
  - reflexivity.
  - reflexivity.
  - reflexivity.
  - simpl. repeat split.
  - vm_compute. reflexivity.
Defined.

(** * The pages: signing up, logging in and out *)

Lemma user_by_email_none users email :
  user_by_email users (Some email) = None ->
  forall u, In u users -> User.email u <> email.
Proof.
  simpl. intros H u Hin E. pose proof (find_none _ _ H u Hin) as Hn.
  simpl in Hn. rewrite E, String.eqb_refl in Hn. discriminate.
Qed.

Lemma user_by_email_some users email u :
  user_by_email users email = Some u ->
  In u users /\ email = Some (User.email u).
Proof.
  destruct email as [e|]; simpl; [|discriminate]. intros H.
  apply find_some in H. destruct H as [Hin E]. apply String.eqb_eq in E.
  split; [exact Hin | congruence].
Qed.

(** X17. Signing up either leaves the users and the session as they are,
    or adds exactly one user, at the end of the table and under a fresh id:
    this needs a [POST] with name, email and password, an email that no user
    has yet, and it stores the hash of the password, never the password, and
    opens the session of the new user. *)
Theorem signup_adds_at_most_one `{Security} (m : http_method) (form : Form.t)
    (salt : string) (now : Datetime.t) (c : FlaskSession.t)
    (users : list User.t) :
  let o := signup m form salt now c users in
  (users_after o = users /\ cookie o = c /\ shown o <> Redirect "index")
  \/ exists name email password,
       m = POST /\
       Form.name form = Some name /\
       Form.email form = Some email /\
       Form.password form = Some password /\
       (forall u, In u users -> User.email u <> email /\
                                User.id u < next_id (map User.id users)) /\
       users_after o =
         (users ++ [User.mk (next_id (map User.id users)) email
                            (generate_password_hash salt password) name now])%list /\
       cookie o = FlaskSession.mk (Some (next_id (map User.id users))) (Some name) /\
       shown o = Redirect "index".
Proof.
  unfold signup. destruct m; [left; repeat split; discriminate|].
  destruct (user_by_email users (Form.email form)) eqn:E;
    [left; repeat split; discriminate|].
  destruct (Form.password form) as [password|];
    [|left; repeat split; discriminate].
  destruct (Form.name form) as [name|]; [|left; repeat split; discriminate].
  destruct (Form.email form) as [email|]; [|left; repeat split; discriminate].
  right. exists name, email, password. repeat split.
  - apply (user_by_email_none users email E). assumption.
  - apply next_id_above. apply in_map. assumption.
Qed.



(** X19. Logging in never changes the users, and it opens a session only
    for a user of the table whose email is the one of the form and against
    whose stored hash [check_password_hash] accepts the password of the
    form; in every other case the session stays as it was and the caller is
    not sent to the index. *)
Theorem login_needs_the_password `{Security} (m : http_method) (form : Form.t)
    (c : FlaskSession.t) (users : list User.t) :
  let o := login m form c users in
  users_after o = users /\
  ((cookie o = c /\ shown o <> Redirect "index")
   \/ exists user password,
        m = POST /\
        In user users /\
        Form.email form = Some (User.email user) /\
        Form.password form = Some password /\
        check_password_hash (User.password_hash user) password = true /\
        cookie o = FlaskSession.mk (Some (User.id user)) (Some (User.name user)) /\
        shown o = Redirect "index").
Proof.
  unfold login. destruct m; [split; [reflexivity | left; split; [reflexivity | discriminate]]|].
  destruct (user_by_email users (Form.email form)) as [user|] eqn:E;
    [|split; [reflexivity | left; split; [reflexivity | discriminate]]].
  destruct (user_by_email_some _ _ _ E) as [Hin He].
  destruct (Form.password form) as [password|];
    [|split; [reflexivity | left; split; [reflexivity | discriminate]]].
  destruct (check_password_hash (User.password_hash user) password) eqn:C;
    [|split; [reflexivity | left; split; [reflexivity | discriminate]]].
  split; [reflexivity|]. right. exists user, password. repeat split; assumption.
Qed.

(** X20. With a hash that accepts the password it was made from, the
    user who has just signed up can log in: a [POST] of the same email and
    password to the login page, from any session, opens the session of that
    user. *)
Theorem signup_then_login `{Security} (form : Form.t) (salt : string)
    (now : Datetime.t) (c c2 : FlaskSession.t) (users : list User.t)
    (name email password : string) :
  (forall salt' p, check_password_hash (generate_password_hash salt' p) p = true) ->
  Form.name form = Some name ->
  Form.email form = Some email ->
  Form.password form = Some password ->
  user_by_email users (Some email) = None ->
  let o := signup POST form salt now c users in
  let o2 := login POST form c2 (users_after o) in
  shown o = Redirect "index" /\
  shown o2 = Redirect "index" /\
  cookie o2 = cookie o /\
  cookie o2 = FlaskSession.mk (Some (next_id (map User.id users))) (Some name) /\
  users_after o2 = users_after o.
Proof.
  intros Hlaw Hn He Hp Hfree. unfold signup. rewrite He, Hfree, Hp, Hn.
  cbv zeta. cbn [users_after cookie shown]. unfold login. rewrite He.
  assert (Hfind : user_by_email
            (users ++ [User.mk (next_id (map User.id users)) email
                         (generate_password_hash salt password) name now])%list
            (Some email)
          = Some (User.mk (next_id (map User.id users)) email
                    (generate_password_hash salt password) name now)).
  { simpl. apply find_app_last; [exact Hfree|]. simpl. apply String.eqb_refl. }
  rewrite Hfind, Hp. simpl User.password_hash. rewrite Hlaw.
  repeat split.
Qed.

Lemma signup_then_login_witness :
  let form := Form.mk (Some "Ann") (Some "a@x.com") (Some "secret") in
  let o := @signup cleartext POST form "salt" (monday 8 0) FlaskSession.clear [] in
  let o2 := @login cleartext POST form FlaskSession.clear (users_after o) in
  shown o = Redirect "index" /\
  shown o2 = Redirect "index" /\
  cookie o2 = cookie o /\
  cookie o2 = FlaskSession.mk (Some (next_id (map User.id []))) (Some "Ann") /\
  users_after o2 = users_after o.
Proof.
  apply (@signup_then_login cleartext
           (Form.mk (Some "Ann") (Some "a@x.com") (Some "secret"))
           "salt" (monday 8 0) FlaskSession.clear FlaskSession.clear []
           "Ann" "a@x.com" "secret").
  - intros salt' p. simpl. apply String.eqb_refl.
  - reflexivity.
  - reflexivity.
  - reflexivity.
  - reflexivity.
Defined.

(** X21. A session that the login page has opened shows the index page
    and gives the API the id of a stored user; once logged out, the index
    page redirects to the login page and every API route but the submission
    of a response answers 401. *)
Theorem logout_closes_the_session `{Security} (m : http_method) (form : Form.t)
    (c : FlaskSession.t) (users : list User.t) :
  let o := login m form c users in
  shown o = Redirect "index" ->
  (exists user, In user users /\ api_session (cookie o) = Some (User.id user)) /\
  index (cookie o) = Render "index.html" /\
  index (snd (logout (cookie o))) = Redirect "login" /\
  (forall a d, login_required a = true ->
               serve (api_session (snd (logout (cookie o)))) a d = (unauthorized, d)).
Proof.
  unfold login. destruct m; [discriminate|].
  destruct (user_by_email users (Form.email form)) as [user|] eqn:E;
    [|discriminate].
  destruct (user_by_email_some _ _ _ E) as [Hin _].
  destruct (Form.password form) as [password|]; [|discriminate].
  destruct (check_password_hash (User.password_hash user) password);
    [|discriminate].
  intros _. cbn [cookie]. split; [exists user; split; [exact Hin | reflexivity]|].
  split; [reflexivity|]. split; [reflexivity|].
  intros a d Ha. simpl.
  destruct a as [req| | |]; [destruct req|..]; try discriminate Ha; reflexivity.
Qed.

Lemma logout_closes_the_session_witness :
  let users := [User.mk 1 "a@x.com" "secret" "Ann" (monday 8 0)] in
  let o := @login cleartext POST (Form.mk None (Some "a@x.com") (Some "secret"))
                  FlaskSession.clear users in
  (exists user, In user users /\ api_session (cookie o) = Some (User.id user)) /\
  index (cookie o) = Render "index.html" /\
  index (snd (logout (cookie o))) = Redirect "login" /\
  (forall a d, login_required a = true ->
               serve (api_session (snd (logout (cookie o)))) a d = (unauthorized, d)).
Proof.
  apply (@logout_closes_the_session cleartext POST
           (Form.mk None (Some "a@x.com") (Some "secret")) FlaskSession.clear
           [User.mk 1 "a@x.com" "secret" "Ann" (monday 8 0)]).
  reflexivity.
Defined.

(** * How the routes compose *)

(** X22. Creating a survey and deleting it at once gives the database
    back as it was, id counter included: the next survey, whoever creates
    it, gets the id of the deleted one. *)
Theorem create_then_delete_restores (d : db) (caller other : Z)
    (data data' : SurveyData.t) (now now' later later' : Datetime.t)
    (title title' : string) :
  db_ok d ->
  SurveyData.title data = Some title ->
  SurveyData.title data' = Some title' ->
  exists id body d1 body',
    create_survey (Some caller) data now now' d = (Jsonify body 201, d1) /\
    int_field "id" body = Some id /\
    delete_survey (Some caller) id d1 = (Text EmptyString 204, d) /\
    create_survey (Some other) data' later later' d
      = (Jsonify body' 201,
         set_surveys d
           (surveys d ++
            [Survey.mk id title' (get_or (SurveyData.description data') EmptyString)
                       "draft" later later' other])%list) /\
    int_field "id" body' = Some id.
Proof.
  intros Hok Ht Ht'.
  set (id := next_id (map Survey.id (surveys d))).
  set (row := Survey.mk id title (get_or (SurveyData.description data) EmptyString)
                        "draft" now now' caller).
  exists id. eexists. exists (set_surveys d (surveys d ++ [row])%list). eexists.
  split; [unfold create_survey; rewrite Ht; reflexivity|].
  split; [reflexivity|]. split.
  - unfold delete_survey.
    assert (Hget : survey_get (set_surveys d (surveys d ++ [row])%list) id
                   = Some row).
    { unfold survey_get. simpl. apply find_app_last;
        [apply (find_fresh Survey.id) | simpl; apply Z.eqb_refl]. }
    rewrite Hget. simpl Survey.user_id. rewrite Z.eqb_refl. simpl negb.
    cbv iota. simpl Survey.id.
    assert (Hr : survey_responses (set_surveys d (surveys d ++ [row])%list) id
                 = []).
    { unfold survey_responses. simpl. apply filter_all_false. intros r Hin.
      pose proof (ok_response_survey d Hok) as H. rewrite Forall_forall in H.
      pose proof (refers_below_next_id d _ (H r Hin)). apply Z.eqb_neq.
      unfold id. lia. }
    rewrite Hr. f_equal. simpl. rewrite filter_app. simpl.
    rewrite Z.eqb_refl. simpl. rewrite List.app_nil_r.
    rewrite !filter_all_true.
    + destruct d; reflexivity.
    + intros q Hin. pose proof (ok_question_survey d Hok) as H.
      rewrite Forall_forall in H.
      pose proof (refers_below_next_id d _ (H q Hin)).
      apply negb_true_iff, Z.eqb_neq. unfold id. lia.
    + intros sv Hin.
      pose proof (next_id_above _ _ (in_map Survey.id _ _ Hin)).
      apply negb_true_iff, Z.eqb_neq. unfold id. lia.
  - split; [unfold create_survey; rewrite Ht'; reflexivity | reflexivity].
Qed.

Lemma create_then_delete_restores_witness :
  exists id body d1 body',
    create_survey ann feedback (monday 14 0) (monday 14 0) answered_db
      = (Jsonify body 201, d1) /\
    int_field "id" body = Some id /\
    delete_survey ann id d1 = (Text EmptyString 204, answered_db) /\
    create_survey bob feedback (monday 15 0) (monday 15 0) answered_db
      = (Jsonify body' 201,
         set_surveys answered_db
           (surveys answered_db ++
            [Survey.mk id "Q1 Feedback" EmptyString "draft"
                       (monday 15 0) (monday 15 0) 2])%list) /\
    int_field "id" body' = Some id.
Proof.
  apply (create_then_delete_restores answered_db 1 2 feedback feedback
           (monday 14 0) (monday 14 0) (monday 15 0) (monday 15 0)
           "Q1 Feedback" "Q1 Feedback").
  - constructor.
    + vm_compute. repeat constructor.
    + vm_compute. repeat constructor.
    + vm_compute. repeat constructor.
    + repeat constructor; eexists; vm_compute; reflexivity.
    + vm_compute. repeat constructor.
    + vm_compute. repeat constructor.
  - reflexivity.
  - reflexivity.
Defined.

(** X23. What the owner's [PUT] of a survey stores is what the owner's
    next [GET] shows: the title, description and status of the body where
    it has them and the former ones where it has not, the clock of the
    update as [updated_at], and the questions as they were listed before. *)
Theorem get_shows_the_update (d : db) (caller survey_id : Z)
    (survey : Survey.t) (data : SurveyData.t) (now : Datetime.t) :
  db_ok d ->
  survey_get d survey_id = Some survey ->
  Survey.user_id survey = caller ->
  let d' := snd (update_survey (Some caller) survey_id data now d) in
  let shown := body_of (fst (get_survey (Some caller) survey_id d')) in
  status_code (fst (get_survey (Some caller) survey_id d')) = 200 /\
  json_field "title" shown
    = Some (JStr (get_or (SurveyData.title data) (Survey.title survey))) /\
  json_field "description" shown
    = Some (JStr (get_or (SurveyData.description data) (Survey.description survey))) /\
  json_field "status" shown
    = Some (JStr (get_or (SurveyData.status data) (Survey.status survey))) /\
  json_field "created_at" shown
    = Some (JStr (Datetime.isoformat (Survey.created_at survey))) /\
  json_field "updated_at" shown = Some (JStr (Datetime.isoformat now)) /\
  listed_questions (fst (get_survey (Some caller) survey_id d'))
    = listed_questions (fst (get_survey (Some caller) survey_id d)).
Proof.
  intros Hok Hs Ho.
  destruct (update_survey_accepts d caller survey_id survey data now Hs Ho)
    as (body & E & G).
  pose proof (survey_get_id _ _ _ Hs) as Hid.
  assert (Hdec : Forall decodable (survey_questions d survey_id)).
  { unfold survey_questions. apply Forall_filter. apply (ok_options d Hok). }
  destruct (questions_data_decodable _ Hdec) as [js Ejs].
  cbv zeta. rewrite E. simpl snd.
  unfold get_survey at 1 2 3 4 5 6 7. rewrite G. simpl Survey.user_id.
  rewrite Z.eqb_refl. simpl negb. cbv iota. simpl Survey.id.
  change (survey_questions (set_surveys d _) survey_id)
    with (survey_questions d survey_id).
  rewrite Ejs. simpl.
  unfold get_survey. rewrite Hs, Ho, Z.eqb_refl, Hid, Ejs. simpl.
  repeat split.
Qed.

Lemma get_shows_the_update_witness :
  let d' := snd (update_survey ann 1 (set_status "closed") (monday 16 0) shuffled_db) in
  let shown := body_of (fst (get_survey ann 1 d')) in
  status_code (fst (get_survey ann 1 d')) = 200 /\
  json_field "title" shown = Some (JStr "Q1 Feedback") /\
  json_field "description" shown = Some (JStr EmptyString) /\
  json_field "status" shown = Some (JStr "closed") /\
  json_field "created_at" shown = Some (JStr (Datetime.isoformat (monday 9 0))) /\
  json_field "updated_at" shown = Some (JStr (Datetime.isoformat (monday 16 0))) /\
  listed_questions (fst (get_survey ann 1 d'))
    = listed_questions (fst (get_survey ann 1 shuffled_db)).
Proof.
  apply (get_shows_the_update shuffled_db 1 1
           (Survey.mk 1 "Q1 Feedback" EmptyString "draft"
                      (monday 9 0) (monday 9 0) 1)
           (set_status "closed") (monday 16 0)).
  - constructor.
    + vm_compute. repeat constructor.
    + vm_compute. repeat constructor.
    + vm_compute. repeat constructor.
    + repeat constructor; eexists; vm_compute; reflexivity.
    + vm_compute. repeat constructor.
    + vm_compute. repeat constructor.
  - vm_compute. reflexivity.
  - reflexivity.
Defined.

(** X24. The owner's [DELETE] of a survey that has no response is answered
    by 204 and removes the survey with all of its questions and nothing
    else: neither the survey nor any of its questions is found afterwards,
    every other survey is stored as before with the same questions, and the
    responses are untouched. *)
Theorem delete_without_responses_cascades (d : db) (caller survey_id : Z)
    (survey : Survey.t) :
  db_ok d ->
  survey_get d survey_id = Some survey ->
  Survey.user_id survey = caller ->
  survey_responses d survey_id = [] ->
  exists d',
    delete_survey (Some caller) survey_id d = (Text EmptyString 204, d') /\
    survey_get d' survey_id = None /\
    survey_questions d' survey_id = [] /\
    (forall q, In q (survey_questions d survey_id) ->
               question_get d' (Question.id q) = None) /\
    (forall other, other <> survey_id ->
                   survey_get d' other = survey_get d other /\
                   survey_questions d' other = survey_questions d other) /\
    responses d' = responses d /\
    get_survey (Some caller) survey_id d' = (Abort 404, d').
Proof.
  intros Hok Hs Ho Hr.
  destruct (delete_survey_cascade d caller survey_id survey Hok Hs Ho Hr)
    as (d' & E & G & Q & _ & _).
  exists d'. split; [exact E|]. split; [exact G|].
  pose proof (survey_get_id _ _ _ Hs) as Hid.
  assert (Hd : d' = mkDb
            (filter (fun row => negb (Survey.id row =? survey_id)) (surveys d))
            (filter (fun q => negb (Question.survey_id q =? survey_id)) (questions d))
            (responses d)).
  { unfold delete_survey in E. rewrite Hs, Ho, Z.eqb_refl, Hid, Hr in E.
    simpl in E. inversion E. reflexivity. }
  split; [|split; [exact Q|split; [|split]]].
  - rewrite Hd. unfold survey_questions. simpl. apply filter_negb_filter.
  - intros other Hne. rewrite Hd. split.
    + unfold survey_get. simpl. apply (find_filter_other Survey.id). exact Hne.
    + unfold survey_questions. simpl. apply filter_filter_same.
      intros q _ Hq. apply Z.eqb_eq in Hq. apply negb_true_iff, Z.eqb_neq.
      congruence.
  - rewrite Hd. reflexivity.
  - unfold get_survey. rewrite G. reflexivity.
Qed.

Lemma delete_without_responses_cascades_witness :
  exists d',
    delete_survey ann 1 shuffled_db = (Text EmptyString 204, d') /\
    survey_get d' 1 = None /\
    survey_questions d' 1 = [] /\
    (forall q, In q (survey_questions shuffled_db 1) ->
               question_get d' (Question.id q) = None) /\
    (forall other, other <> 1 ->
                   survey_get d' other = survey_get shuffled_db other /\
                   survey_questions d' other = survey_questions shuffled_db other) /\
    responses d' = responses shuffled_db /\
    get_survey ann 1 d' = (Abort 404, d').
Proof.
  apply (delete_without_responses_cascades shuffled_db 1 1
           (Survey.mk 1 "Q1 Feedback" EmptyString "draft"
                      (monday 9 0) (monday 9 0) 1)).
  - constructor.
    + vm_compute. repeat constructor.
    + vm_compute. repeat constructor.
    + vm_compute. repeat constructor.
    + repeat constructor; eexists; vm_compute; reflexivity.
    + vm_compute. repeat constructor.
    + vm_compute. repeat constructor.
  - vm_compute. reflexivity.
  - reflexivity.
  - vm_compute. reflexivity.
Defined.
